(* ===== verification/_CoqProject ===== *)
-Q . S2P
Prelude.v
History.v
Bookmarks.v
Tabs.v
Url.v
Navigation.v
Coordinator.v
Downloads.v
Settings.v
FindBar.v
HistoryPage.v
TabViews.v
RegistrySpec.v
AddressBar.v
SettingsPage.v
DownloadsPage.v
WindowChrome.v
Layout.v
MainProcess.v
AdBlocker.v
