(* ===== verification/Prelude.v ===== *)
(** * NetBrowser: a verification development of UnSetSoft/net-browser

    NetBrowser is an Electron browser shell.  The renderer (React,
    [src/src/src]) keeps the list of tabs, folds the event stream of the
    embedded [<webview>] into tab state, resolves what the user types into
    a URL, and shows history, bookmarks and downloads kept in
    [localStorage].  The main process ([src/main.js]) owns three global
    settings (ad blocking, Do-Not-Track, download folder), the window,
    its global shortcuts and context menu, and turns Electron
    [DownloadItem] events into IPC messages for the renderer.

    ** How the parts interact

    UI action -> [smartNavigate] (App.jsx) -> tab list mutation -> the
    [<webview>] loads [tab.url] -> webview event -> BrowserWindow.jsx
    handler -> [onVisit] = App's [updateTab] -> tab list mutation and
    possibly [HistoryManager.addEntry].  Downloads flow separately:
    Electron [will-download] -> main.js -> IPC [download-update] ->
    App.jsx re-dispatches a DOM event -> Downloads.jsx replaces its list.
    The renderer reaches the main process only through preload.js's
    bridge.  BrowserWindow adds its webview listeners ([dom-ready] with
    the ad-blocker injection, [context-menu], the load and navigation
    events) in an effect that runs once, at App's first commit, before
    App's mount effect has created a tab: it finds no webview and returns,
    so none of them is ever bound (Coordinator.listeners_never_bound);
    the chain right click -> [open-context-menu] -> DevTools of main.js
    is therefore modelled on main's side only, and the page script of
    AdBlockerScript.js for what it would do once injected.

    ** Files, in dependency order

    - [Prelude] (this file): JavaScript string operations the code uses
      ([||] on strings, [startsWith], [includes], [trim], [toLowerCase],
      [String.prototype.replace] with a string pattern), the [js_scope]
      notations, the [browser] hint database, shared list lemmas, and the
      reflexive-transitive closure [star] with the simulation lemma
      [star_simulation] that the refinement theorems use.
    - [History]: [HistoryManager] (utils/HistoryManager.js), the history
      log in [localStorage]: [addEntry] (no internal URLs, no repeat of
      the newest URL, capped at 1000), [deleteEntry], [clearHistory].
    - [Bookmarks]: [BookmarksManager] (utils/BookmarksManager.js).
    - [Tabs]: the tab registry of App.jsx: [addTab], [togglePinTab],
      [closeTab] with the [setTimeout] callback it schedules, [setActiveTab],
      [updateTab] (which writes history), the mount effect that creates the
      first tab, and the invariant ([inv]) that ids are distinct, pinned
      tabs come first and the active pointer, or the one pending callback,
      names a tab.
    - [Url]: the platform's [new URL] as an interface ([UrlApi]) with a
      model of the WHATWG parser on the inputs the code meets,
      [encodeURIComponent], and the three "domain-like" regular
      expressions of TopBar.jsx as executable matchers.
    - [Navigation]: TopBar's [handleKeyDown] address resolution, NewTab's
      [handleSearch], App's [smartNavigate] with its [normalize].
    - [Coordinator]: BrowserWindow.jsx: the eight webview handlers, the
      mount-once binding, the title polling interval, the internal-page
      titles and the page selected for a tab URL.
    - [Downloads]: main.js's [will-download] handler and DownloadItem
      events, the renderer's downloads view, and [DownloadsManager].
    - [Settings]: App.jsx's ten persisted preferences with their
      [localStorage] initialisers, the sync effect and every setter, the
      Settings.jsx controls, main.js's three configuration variables and
      their IPC handlers, the ad-URL request filter and the DNT/GPC header
      injection.  [localStorage] is a [gmap]; numbers are stored through
      [String] and read through [parseFloat], both modelled.
    - [FindBar]: FindBar.jsx: the search handlers, the match counter, the
      [found-in-page] listener bound at mount, and the exceptions of calls
      on a [null] or not yet ready webview.
    - [HistoryPage]: History.jsx: the page state and its handlers, the
      case-insensitive search and the grouping by day, proved equal to a
      reference grouping, and the page's events over App's shared store
      ([history_step]).
    - [TabViews]: TabBar.jsx and Sidebar.jsx: the rendered tab order,
      each tab item's icon and controls, the bookmark shortcuts with their
      context menu, and the sidebar's events ([sidebar_step]); the
      bookmarks bar and the New Tab page ([bar_step], [newtab_step]).
    - [RegistrySpec]: the session registry's contract (spec section 4.1)
      as an abstract state machine of sessions and a current session, the
      abstraction of App's tab list onto it, and the refinement of every
      tab handler and of [smartNavigate].
    - [AddressBar]: TopBar.jsx: the bar's text and focus with its two
      effects, the input's events, Enter, the buttons each layout renders
      and their clicks, and [ui_step], the transitions of the address bar
      and toolbar composed with those of the tab strip, the sidebar, the
      bookmarks bar, the New Tab page, the History page and the registry.
    - [SettingsPage]: Settings.jsx: the sections and the controls each
      panel renders, the app-info fetch, [clearData] and the reload it
      triggers ([restart]: App mounts again, the main process keeps its
      variables), and [page_step], the transitions of a session with the
      page over App's stores and the preferences.
    - [DownloadsPage]: Downloads.jsx's rows: [formatBytes], the status
      line, the progress bar and the actions of a completed download.
    - [WindowChrome]: preload.js's bridge (method, channel, message) and
      main.js's window, cache, cookie, dialog, shell, app-info and
      context-menu handlers, and the [window-drag-state] debounce.
    - [Layout]: the tree App renders for each layout (TopBar, bookmarks
      bar, BrowserWindow with the TabBar child, Sidebar) and the window
      controls TopBar and Sidebar draw.
    - [MainProcess]: main.js as one event loop ([step] on [app]):
      [createWindow] with its options, global shortcuts and loaded file,
      the [browser:] protocol, the bridge calls routed to
      [WindowChrome.handle] and [Settings.ipc_handle], the context menu's
      DevTools and Exit items, page [webContents] coming and going, and
      [window-all-closed] per platform.
    - [AdBlocker]: AdBlockerScript.js, the script injected into pages,
      on an abstraction of the page it queries.

    ** Modelling conventions

    - Strings are Rocq [string]s; a character stands for one UTF-16 code
      unit below 256 (ASCII and Latin-1).  JavaScript [null] and
      [undefined] string arguments that the code only tests for
      truthiness are modelled as [""], which [||] treats the same way.
    - Random and time-based identifiers ([Math.random], [Date.now]) are
      arguments of the operations; invariants that need freshness take it
      as the hypothesis of the step that creates the identifier.
    - [localStorage] collections are kept as typed lists: [JSON.stringify]
      followed by [JSON.parse] is the identity on the records stored.
    - React state updates of one event handler are applied together, in
      the order the handler issues them.  [setTimeout(f, 0)] in [closeTab]
      queues [f] ([App.timers]); the render between the handler and the
      callback is a state of its own, and the callback runs as a separate
      step ([App.step_timer], [App.fire]).  User events are taken only
      while no callback is pending (a [setTimeout 0] callback runs before
      the next input event is dispatched); for the registry contract the
      callback is a stuttering step.
    - The effects of a commit run children first, and an effect with
      empty dependencies runs once, after the first commit
      ([Coordinator.first_commit]).
    - A React effect runs after a render in which one of its dependencies
      changed, in declaration order ([AddressBar.render]).
    - Zoom factors are integers in percent (the settings menu offers
      80%, 90%, ...), so [parseFloat(..) || 1.0] reads as [100].

    ** What the theorems show

    - Tabs and Navigation: the registry invariant (distinct ids, an active
      tab whenever one exists, pinned tabs first) holds in every state
      reachable through the tab handlers, their [setTimeout] callbacks,
      [smartNavigate] and the address bar, including the render where the
      active pointer still names a closed tab; closing, pinning and
      singleton navigation behave as the code says, on every branch;
      [normalize] deletes [www.] wherever it starts in the host, merging
      distinct sites for singleton navigation.
    - History and Bookmarks: the stores stay well formed and capped, and
      deduplicate as specified.
    - Coordinator: each webview handler's effect, the error paths (aborted
      loads, HTTP errors), the title poll's first firing and, when the
      title never changes, that it is still running after any number of
      ticks ([Running], distinct from a [Cleared] ceiling), and that, from
      App's first commit on, the mount-once binding never binds whatever
      the webview events.
    - Downloads: message correlation by id, at most one [done] report,
      the paused/interrupted policy, and the view that keeps only the last
      message.
    - Settings: the main process's configuration follows the renderer
      after any sequence of settings changes; the request filters and the
      save folder enforce it; a restart restores every preference; a fresh
      profile can never change theme.
    - FindBar: searching on an internal page throws; a bar opened before a
      webview exists never shows a count; stale results are shown.
    - HistoryPage and TabViews: the day grouping equals its reference, the
      search ignores the case of the term, and the views show the tabs in
      the registry's order in every reachable state.
    - RegistrySpec and AddressBar: every run of App with its address bar,
      toolbar, tab strip, sidebar, bookmarks bar, New Tab page, History
      page and tab handlers refines the registry
      contract (a simulation, by [star_simulation], through the
      abstraction that reads a pending [closeTab] callback as the current
      session).  In every reachable state the unfocused address bar
      shows the active tab's URL without its scheme; a tab switch discards
      typed text, a load in the same tab keeps it; the
      sidebar's Settings button appends a tab where the toolbar's loads
      the page into the blank active tab.  TabViews: a pinned tab has no
      close button in either view.
    - DownloadsPage: [formatBytes] prints a number between 1 and 1024
      with a unit of its table for every size below 1024^5, and prints
      [1024] exactly when the size is within half a hundredth of the next
      unit; the actions of a completed row always receive the save path.
    - WindowChrome: once the window stops moving, the renderer has had one
      [true] per move and one [false] per long pause and at the end, the
      last message [false]: the drag class is always removed.
    - Layout: the minimise, maximise and close controls are rendered
      exactly once in every layout; TopBar's New Tab button is rendered in
      every layout (its guard compares a boolean with a string), so the
      window shows two with the sidebar open; with an active tab the open
      tabs are always listed or one toggle away.
    - MainProcess: on macOS a closed window never comes back while the
      app keeps running; after ready, F12 is captured system-wide and only logs, and
      Control+Shift+E opens the window's DevTools whatever has the focus.
    - AdBlocker: once injected, the script mutes a Twitch video during an
      ad and never unmutes it (the shipped renderer never injects it).
    - SettingsPage: whatever is done on the Settings page, reloads
      included, the main process agrees with the renderer and
      [localStorage] holds every preference shown; Clear History replaces
      every open tab by one New Tab (never the saved homepage); no use of
      the page changes the stored bookmarks (the [bookmarks] branch of
      [clearData] has no button).

    ** Bounds and fuel

    History is capped at 1000 and downloads at 100 as in the code.  The
    title poll is a [Fixpoint] on an explicit number of ticks that
    returns [Running] when the ticks run out and [Fired] when the title
    changed; [Cleared] (a give-up the code does not have) is never
    returned.  Its theorems hold for every number of ticks, so no bound
    is assumed.
    [digits_of] takes [n + 1] as fuel, more than the number of digits of
    [n].  [formatBytes]'s unit index is the exact [floor(log_1024 n)]
    ([Z.log2 n / 10]); the code's double-precision quotient of two
    logarithms is taken to floor to the same integer.

    ** Not modelled

    Electron's default application menu and the platform's own key
    handling (a key combination is either a registered global shortcut or
    goes elsewhere); the web pages themselves (the ad-blocker script sees them through an
    abstraction of the elements it queries), the markup of
    the JSX (only what it renders and what its handlers do is modelled),
    the effect of Settings.jsx's cache and cookie clearing inside
    Electron (only the call is modelled), and the Electron dialogs and
    shell calls (their results are arguments): they only call platform APIs and keep no
    state of the program's own. *)

From Stdlib Require Export String Ascii ZArith Lia.
From stdpp Require Export base list strings.

Declare Scope js_scope.
Delimit Scope js_scope with js.

Create HintDb browser discriminated.
Create Rewrite HintDb browser_rw.

(** ** JavaScript string operations *)

(** [a || b] on string operands: an empty string is falsy. *)
Definition js_or (a b : string) : string :=
  if String.eqb a "" then b else a.
Infix "||" := js_or : js_scope.

(** [a || b] on optional strings ([null], [undefined] or a string). *)
Definition js_or_opt (a b : option string) : option string :=
  match a with
  | Some s => if String.eqb s "" then b else a
  | None => b
  end.

(** [Boolean(s)] for a string. *)
Definition js_truthy (s : string) : bool := negb (String.eqb s "").

(** [s.startsWith(p)]. *)
Definition startsWith (s p : string) : bool := String.prefix p s.

(** [s.includes(sub)]: [sub] occurs at some index of [s]. *)
Fixpoint includes (s sub : string) : bool :=
  String.prefix sub s ||
  match s with
  | EmptyString => false
  | String _ s' => includes s' sub
  end.

(** [s.replace(pat, rep)] with a string pattern: only the first
    occurrence is replaced. *)
Fixpoint replace_first (s pat rep : string) : string :=
  if String.prefix pat s then rep +:+ substring (String.length pat) (String.length s) s
  else match s with
       | EmptyString => EmptyString
       | String c s' => String c (replace_first s' pat rep)
       end.

(** [s.replace(/^p/, '')]: drop a literal prefix when present. *)
Definition strip_prefix (p s : string) : string :=
  if String.prefix p s then substring (String.length p) (String.length s) s else s.

(** [s.replace(/\/$/, '')]: drop one trailing slash. *)
Fixpoint strip_trailing_slash (s : string) : string :=
  match s with
  | EmptyString => EmptyString
  | String "/" EmptyString => EmptyString
  | String c s' => String c (strip_trailing_slash s')
  end.

(** [s.replace(/^https?:\/\//, '')]. *)
Definition strip_http_scheme (s : string) : string :=
  if String.prefix "http://" s then strip_prefix "http://" s
  else strip_prefix "https://" s.

(** The white space and line terminators [String.prototype.trim] removes,
    among the code units below 256: TAB, LF, VT, FF, CR, SPACE, NBSP. *)
Definition is_js_space (c : ascii) : bool :=
  let n := nat_of_ascii c in
  ((9 <=? n) && (n <=? 13)) || (n =? 32) || (n =? 160).

Fixpoint trim_start (s : string) : string :=
  match s with
  | String c s' => if is_js_space c then trim_start s' else s
  | EmptyString => EmptyString
  end.

Definition trim (s : string) : string :=
  string_of_list_ascii (rev (list_ascii_of_string
    (trim_start (string_of_list_ascii (rev (list_ascii_of_string (trim_start s))))))).

(** [toLowerCase] on code units below 256: A-Z and the Latin-1 capitals
    U+00C0..U+00DE except U+00D7 move up by 32. *)
Definition lower_char (c : ascii) : ascii :=
  let n := nat_of_ascii c in
  if ((65 <=? n) && (n <=? 90)) || ((192 <=? n) && (n <=? 222) && negb (n =? 215))
  then ascii_of_nat (n + 32) else c.

Definition toLowerCase (s : string) : string :=
  string_of_list_ascii (map lower_char (list_ascii_of_string s)).

Definition is_digit (c : ascii) : bool :=
  let n := nat_of_ascii c in (48 <=? n) && (n <=? 57).

Definition is_alpha (c : ascii) : bool :=
  let n := nat_of_ascii c in ((65 <=? n) && (n <=? 90)) || ((97 <=? n) && (n <=? 122)).

(** [Array.prototype.some] with a boolean predicate. *)
Definition js_some {A} (p : A -> bool) (l : list A) : bool := existsb p l.

(** ** Shared lemmas *)

Lemma js_or_empty (b : string) : ("" || b)%js = b.
Proof. reflexivity. Qed.

Lemma js_or_nonempty (a b : string) : a <> "" -> (a || b)%js = a.
Proof. intros H. unfold js_or. destruct (String.eqb_spec a ""); congruence. Qed.

Lemma js_or_eq (a b : string) : (a || b)%js = a \/ ((a || b)%js = b /\ a = "").
Proof. unfold js_or. destruct (String.eqb_spec a ""); auto. Qed.

Lemma js_truthy_true (s : string) : js_truthy s = true <-> s <> "".
Proof.
  unfold js_truthy. destruct (String.eqb_spec s ""); simpl; split; congruence.
Qed.

Lemma startsWith_app (p s : string) : startsWith (p +:+ s) p = true.
Proof.
  unfold startsWith. induction p as [|c p IH]; [by destruct s|].
  simpl. destruct (ascii_dec c c); [exact IH|congruence].
Qed.

(** [slice(0, n)] never returns more than [n] elements. *)
Lemma length_take_le {A} (n : nat) (l : list A) : length (take n l) <= n.
Proof. rewrite length_take. lia. Qed.

Lemma take_cons_head {A} (n : nat) (x : A) (l : list A) :
  0 < n -> head (take n (x :: l)) = Some x.
Proof. destruct n; [lia|reflexivity]. Qed.

Lemma filter_length_le {A} (p : A -> bool) (l : list A) :
  length (List.filter p l) <= length l.
Proof. induction l as [|x l IH]; simpl; [lia|]. destruct (p x); simpl; lia. Qed.

Lemma filter_all_true {A} (p : A -> bool) (l : list A) :
  Forall (fun x => p x = true) l -> List.filter p l = l.
Proof. induction 1 as [|x l Hx _ IH]; simpl; [done|]. by rewrite Hx, IH. Qed.

Lemma Forall_List_filter {A} (P : A -> Prop) (p : A -> bool) (l : list A) :
  Forall P l -> Forall P (List.filter p l).
Proof. induction 1; simpl; [constructor|]. destruct (p x); auto. Qed.

Lemma forallb_map_comp {A B} (p : B -> bool) (f : A -> B) (l : list A) :
  forallb p (map f l) = forallb (fun x => p (f x)) l.
Proof. induction l as [|x l IH]; simpl; [done|]. by rewrite IH. Qed.

#[export] Hint Resolve length_take_le filter_length_le : browser.
Lemma lower_char_idem c : lower_char (lower_char c) = lower_char c.
Proof. destruct c as [[] [] [] [] [] [] [] []]; reflexivity. Qed.

Lemma toLowerCase_idem s : toLowerCase (toLowerCase s) = toLowerCase s.
Proof.
  unfold toLowerCase. rewrite list_ascii_of_string_of_list_ascii, map_map.
  f_equal. apply map_ext, lower_char_idem.
Qed.

Lemma js_truthy_toLowerCase s : js_truthy (toLowerCase s) = js_truthy s.
Proof. by destruct s. Qed.

#[export] Hint Rewrite js_or_empty toLowerCase_idem js_truthy_toLowerCase : browser_rw.

Lemma string_app_nil y : "" +:+ y = y.
Proof. reflexivity. Qed.

Lemma string_app_cons c x y : String c x +:+ y = String c (x +:+ y).
Proof. reflexivity. Qed.

Lemma string_app_length x y : String.length (x +:+ y) = String.length x + String.length y.
Proof. induction x as [|c x IH]; [done|]. rewrite string_app_cons. simpl. by rewrite IH. Qed.

Lemma string_app_assoc x y z : (x +:+ y) +:+ z = x +:+ (y +:+ z).
Proof. induction x as [|c x IH]; [done|]. by rewrite !string_app_cons, IH. Qed.

Lemma string_app_inv_l a x y : a +:+ x = a +:+ y -> x = y.
Proof. induction a as [|c a IH]; [done|]. rewrite !string_app_cons. intros [=]. auto. Qed.

Lemma substring_0_long s m : String.length s <= m -> substring 0 m s = s.
Proof. revert m. induction s as [|c s IH]; intros [|m] Hm; simpl in *; [done|done|lia|]. rewrite IH; [done|lia]. Qed.

Lemma substring_after p s : substring (String.length p) (String.length (p +:+ s)) (p +:+ s) = s.
Proof.
  assert (H : forall m, String.length s <= m -> substring (String.length p) m (p +:+ s) = s).
  { induction p as [|c p IH]; intros m Hm; [by apply substring_0_long|].
    rewrite string_app_cons. simpl. by apply IH. }
  apply H. rewrite string_app_length. lia.
Qed.

(** A prefix no longer than [x] is decided on [x] alone. *)
Lemma prefix_app_l p x y : String.length p <= String.length x -> String.prefix p (x +:+ y) = String.prefix p x.
Proof.
  revert x. induction p as [|c p IH]; intros [|d x] Hl; [by destruct y|done|simpl in Hl; lia|].
  rewrite string_app_cons. simpl in *. destruct (ascii_dec c d); [apply IH; lia|done].
Qed.

Lemma replace_first_unfold s pat rep : replace_first s pat rep =
  if String.prefix pat s then rep +:+ substring (String.length pat) (String.length s) s
  else match s with EmptyString => EmptyString | String c s' => String c (replace_first s' pat rep) end.
Proof. by destruct s. Qed.

(** [s.replace(pat, rep)] leaves [s] alone when [pat] does not occur. *)
Lemma replace_first_absent s pat rep : includes s pat = false -> replace_first s pat rep = s.
Proof.
  induction s as [|c s IH]; simpl; intros H; apply orb_false_iff in H as [Hp Hr].
  - by rewrite Hp.
  - rewrite Hp. f_equal. by apply IH.
Qed.

(** [replace('www.', '')] deletes the [www.] that follows [a] when no
    [www.] starts inside [a]. *)
Lemma replace_first_www a b :
  includes (a +:+ "www") "www." = false -> replace_first (a +:+ "www." +:+ b) "www." "" = a +:+ b.
Proof.
  induction a as [|c a IH]; intros H.
  - pose proof (startsWith_app "www." b) as Hs. unfold startsWith in Hs.
    rewrite string_app_nil, replace_first_unfold, Hs, string_app_nil. apply substring_after.
  - rewrite (string_app_cons c a) in H. change (includes (String c (a +:+ "www")) "www.")
      with (String.prefix "www." (String c (a +:+ "www")) || includes (a +:+ "www") "www.") in H.
    apply orb_false_iff in H as [Hp Hr].
    assert (Hq : String.prefix "www." (String c (a +:+ "www." +:+ b)) = false).
    { replace (String c (a +:+ "www." +:+ b)) with (String c (a +:+ "www") +:+ ("." +:+ b))
        by (rewrite (string_app_cons c), string_app_assoc; reflexivity).
      rewrite prefix_app_l; [exact Hp|]. simpl. rewrite string_app_length. simpl. lia. }
    rewrite (string_app_cons c a), replace_first_unfold, Hq.
    change (String c (replace_first (a +:+ "www." +:+ b) "www." "") = String c (a +:+ b)).
    f_equal. by apply IH.
Qed.

(** ** Runs of a transition system *)

(** Zero or more steps of [R]. *)
Inductive star {A} (R : A -> A -> Prop) (a : A) : A -> Prop :=
  | star_refl : star R a a
  | star_step b c : star R a b -> R b c -> star R a c.

(** An invariant of every step holds along every run. *)
Lemma star_ind_inv {A} (R : A -> A -> Prop) (P : A -> Prop) (a b : A) :
  (forall x y, R x y -> P x -> P y) -> P a -> star R a b -> P b.
Proof. intros HR Ha. induction 1; eauto. Qed.

Lemma star_one {A} (R : A -> A -> Prop) a b : R a b -> star R a b.
Proof. intros H. eapply star_step; [apply star_refl|exact H]. Qed.

Lemma star_trans {A} (R : A -> A -> Prop) a b c : star R a b -> star R b c -> star R a c.
Proof. intros Hab Hbc. induction Hbc; eauto using star_step. Qed.

#[export] Hint Resolve star_refl star_one : browser.

(** A simulation diagram for an abstraction function [f]: every step of
    [R] from a state satisfying [I] keeps [I] and is matched by no step
    or one step of [S] between the abstractions. *)
Lemma star_simulation {A B} (R : A -> A -> Prop) (S : B -> B -> Prop) (I : A -> Prop) (f : A -> B) a b :
  (forall x y, I x -> R x y -> I y /\ (f y = f x \/ S (f x) (f y))) ->
  I a -> star R a b -> star S (f a) (f b).
Proof.
  intros Hsim Ha Hr.
  enough (H : I b /\ star S (f a) (f b)) by apply H.
  induction Hr as [|b c Hr IH Hbc]; [split; [done|constructor]|].
  destruct IH as [Ib Hs]. destruct (Hsim b c Ib Hbc) as [Ic [Heq|Hstep]]; split; [done| |done|].
  - by rewrite Heq.
  - by apply (star_step _ _ (f b)).
Qed.

(** Case analysis on the string equality tests of the code. *)
Ltac case_streq :=
  repeat match goal with
  | |- context [String.eqb ?a ?b] => destruct (String.eqb_spec a b); subst
  | H : context [String.eqb ?a ?b] |- _ => destruct (String.eqb_spec a b); subst
  end.
