(* ===== verification/History.v ===== *)
(** * History: [HistoryManager] of src/src/src/utils/HistoryManager.js

    The browsing history is the [localStorage] key ['history'], a JSON
    array of entries, newest first.  [addEntry] refuses internal
    ([browser://]) and empty URLs, does nothing when the URL equals the
    newest entry's, and otherwise prepends an entry and keeps the first
    1000.  The entry's id ([Date.now() + random]) and timestamp are
    arguments here.  Theorems: each branch of [addEntry], the store
    invariant (at most 1000 entries, none internal) preserved by every
    operation, and that a run of visits keeps exactly the newest 1000. *)

From S2P Require Import Prelude.

Module HistoryManager.

Record entry := mkEntry {
  id : string;
  title : string;
  url : string;
  favicon : option string;
  timestamp : string
}.

(** The capacity of [slice(0, 1000)]. *)
Definition cap : nat := 1000.

(** [url.startsWith('browser://')]: the internal pseudo-scheme. *)
Definition is_internal (u : string) : bool := startsWith u "browser://".

(** [addEntry(title, url, favicon)]: the stored list after the call. *)
Definition addEntry (title u : string) (fav : option string) (new_id ts : string)
    (history : list entry) : list entry :=
  if negb (js_truthy u) || is_internal u then history
  else match history with
       | e :: _ => if String.eqb (url e) u then history
                   else take cap (mkEntry new_id (title || u)%js u fav ts :: history)
       | [] => take cap [mkEntry new_id (title || u)%js u fav ts]
       end.

(** [deleteEntry(id)]: drop every entry whose id is [id]. *)
Definition deleteEntry (i : string) (history : list entry) : list entry :=
  List.filter (fun e => negb (String.eqb (id e) i)) history.

(** [clearHistory()]: the key is removed, [getHistory] then yields []. *)
Definition clearHistory (history : list entry) : list entry := [].

(** The invariant of the stored log. *)
Definition wf (h : list entry) : Prop :=
  length h <= cap /\ Forall (fun e => url e <> "" /\ is_internal (url e) = false) h.

(** A visit as [updateTab] passes it to [addEntry]. *)
Record visit := mkVisit { v_title : string; v_url : string; v_fav : option string;
                          v_id : string; v_ts : string }.

Definition add_visit (h : list entry) (v : visit) : list entry :=
  addEntry (v_title v) (v_url v) (v_fav v) (v_id v) (v_ts v) h.

Definition entry_of (v : visit) : entry :=
  mkEntry (v_id v) (v_title v || v_url v)%js (v_url v) (v_fav v) (v_ts v).

(** A visit is recordable when its URL is non-empty and not internal. *)
Definition recordable (u : string) : Prop := u <> "" /\ is_internal u = false.

(** Consecutive visits go to different URLs. *)
Fixpoint changes_url (vs : list visit) : Prop :=
  match vs with
  | v1 :: (v2 :: _) as rest => v_url v1 <> v_url v2 /\ changes_url rest
  | _ => True
  end.

(** ** Lemmas on the branches of [addEntry] *)

Lemma addEntry_skip_internal t u f i ts h :
  ~ recordable u -> addEntry t u f i ts h = h.
Proof.
  unfold addEntry, recordable, js_truthy. intros Hn.
  destruct (String.eqb_spec u ""); [done|]. destruct (is_internal u); [done|]. tauto.
Qed.

Lemma addEntry_record t u f i ts h :
  recordable u -> (forall e, head h = Some e -> url e <> u) ->
  addEntry t u f i ts h = take cap (mkEntry i (t || u)%js u f ts :: h).
Proof.
  unfold addEntry, recordable, js_truthy. intros [Hne Hint] Hhd. rewrite Hint.
  destruct (String.eqb_spec u ""); [done|]. simpl.
  destruct h as [|e h]; [done|]. specialize (Hhd e eq_refl).
  by destruct (String.eqb_spec (url e) u).
Qed.

Lemma addEntry_repeat t u f i ts e h :
  url e = u -> addEntry t u f i ts (e :: h) = e :: h.
Proof.
  intros <-. unfold addEntry. rewrite String.eqb_refl.
  by destruct (negb (js_truthy (url e)) || is_internal (url e)).
Qed.

Lemma wf_take_cons e h :
  recordable (url e) -> wf h -> wf (take cap (e :: h)).
Proof.
  intros He [_ Hf]. split; [apply length_take_le|].
  apply Forall_take. constructor; [exact He|exact Hf].
Qed.

#[export] Hint Resolve wf_take_cons : browser.

(** The side conditions of [addEntry_record] on a concrete head. *)
Ltac head_side := done || (intros ? [= <-]; done) || (intros ? [=]).

Lemma take_app_take {A} (n : nat) (l m : list A) :
  take n (l ++ take n m) = take n (l ++ m).
Proof. rewrite !take_app, take_take. f_equal. f_equal. lia. Qed.

(** ** Theorems *)

(** C4: [addEntry], [deleteEntry] and [clearHistory] keep the stored log
    within 1000 entries, none of them empty or internal. *)
Theorem history_ops_preserve_wf t u f i ts d h :
  wf h ->
  wf (addEntry t u f i ts h) /\ wf (deleteEntry d h) /\ wf (clearHistory h).
Proof.
  intros Hw. split; [|split].
  - destruct (decide (recordable u)) as [Hr|Hr];
      [|by rewrite addEntry_skip_internal].
    destruct h as [|e h].
    + rewrite addEntry_record by head_side. by apply wf_take_cons.
    + destruct (String.eqb_spec (url e) u) as [<-|Hne]; [by rewrite addEntry_repeat|].
      rewrite addEntry_record by head_side. by apply wf_take_cons.
  - destruct Hw as [Hl Hf]. split.
    + pose proof (filter_length_le (fun e => negb (String.eqb (id e) d)) h). unfold deleteEntry. lia.
    + by apply Forall_List_filter.
  - split; [simpl; unfold cap; lia|constructor].
Qed.

(** visiting the same URL twice in a row stores it once: the second
    [addEntry] leaves the log the first one produced. *)
Theorem addEntry_twice t u f i ts t' f' i' ts' h :
  addEntry t' u f' i' ts' (addEntry t u f i ts h) = addEntry t u f i ts h.
Proof.
  destruct (decide (recordable u)) as [Hr|Hr];
    [|by rewrite !addEntry_skip_internal].
  destruct h as [|e h].
  - rewrite (addEntry_record t u f i ts []) by head_side. unfold cap; simpl. by apply addEntry_repeat.
  - destruct (String.eqb_spec (url e) u) as [<-|Hne].
    + by rewrite !addEntry_repeat.
    + rewrite (addEntry_record t u f i ts (e :: h)) by head_side.
      unfold cap. simpl. by apply addEntry_repeat.
Qed.

Lemma fold_visits h vs :
  length h <= cap ->
  Forall (fun v => recordable (v_url v)) vs -> changes_url vs ->
  (forall e v, head h = Some e -> head vs = Some v -> url e <> v_url v) ->
  fold_left add_visit vs h = take cap (rev (map entry_of vs) ++ h).
Proof.
  revert h. induction vs as [|v vs IH]; intros h Hl Hr Hc Hh; simpl.
  - symmetry. by apply take_ge.
  - inversion Hr as [|? ? Hv Hrs]; subst.
    unfold add_visit at 2. rewrite addEntry_record by (done || (intros e He; exact (Hh e v He eq_refl))).
    rewrite IH; [|apply length_take_le|done|by destruct vs, Hc|].
    + rewrite take_app_take, <- app_assoc. done.
    + intros e v' He Hv'. destruct vs as [|v2 vs]; [done|].
      simpl in He, Hv'. injection He as <-. injection Hv' as <-. simpl. by destruct Hc.
Qed.

(** C5: a run of visits to recordable URLs, each different from the one
    before, from an empty log leaves exactly the newest 1000 visits, newest
    first: visiting 1001 distinct URLs keeps the most recent 1000. *)
Theorem history_keeps_newest vs :
  Forall (fun v => recordable (v_url v)) vs -> changes_url vs ->
  fold_left add_visit vs [] = take cap (rev (map entry_of vs)).
Proof.
  intros Hr Hc. rewrite fold_visits by (simpl; unfold cap; lia || done).
  by rewrite app_nil_r.
Qed.

(** ** Witnesses *)

Lemma wf_nil : wf [].
Proof. split; [simpl; unfold cap; lia|constructor]. Qed.

Lemma history_ops_preserve_wf_witness :
  wf (addEntry "Example" "https://example.com" None "1" "t0" [])
  /\ wf (deleteEntry "1" []) /\ wf (clearHistory []).
Proof. exact (history_ops_preserve_wf "Example" "https://example.com" None "1" "t0" "1" [] wf_nil). Defined.

Definition sample_visits : list visit :=
  [mkVisit "A" "https://a.com" None "1" "t1"; mkVisit "B" "https://b.com" None "2" "t2";
   mkVisit "" "https://a.com" None "3" "t3"].

Lemma history_keeps_newest_witness :
  fold_left add_visit sample_visits [] = take cap (rev (map entry_of sample_visits)).
Proof.
  apply history_keeps_newest.
  - repeat constructor; discriminate.
  - simpl. repeat split; discriminate.
Defined.

End HistoryManager.
