(* ===== verification/Bookmarks.v ===== *)
(** * Bookmarks: [BookmarksManager] of src/src/src/utils/BookmarksManager.js

    Bookmarks are the [localStorage] key ['bookmarks'], a JSON array in
    insertion order.  [addBookmark] appends unless a bookmark with the same
    URL exists; [removeBookmark] drops every bookmark with the URL;
    [isBookmarked] tests membership by URL.  The id ([Date.now()]) is an
    argument.  Theorems: URLs stay unique, adding twice is adding once,
    removing an absent URL changes nothing, and add/remove round trips with
    [isBookmarked]. *)

From S2P Require Import Prelude.

Module BookmarksManager.

Record bookmark := mkBookmark {
  id : Z;
  title : string;
  url : string;
  favicon : option string
}.

(** [bookmarks.some(b => b.url === url)] *)
Definition isBookmarked (u : string) (bms : list bookmark) : bool :=
  js_some (fun b => String.eqb (url b) u) bms.

(** [addBookmark(title, url, favicon)]: the stored list after the call. *)
Definition addBookmark (t u : string) (fav : option string) (now : Z)
    (bms : list bookmark) : list bookmark :=
  if isBookmarked u bms then bms else bms ++ [mkBookmark now t u fav].

(** [removeBookmark(url)] *)
Definition removeBookmark (u : string) (bms : list bookmark) : list bookmark :=
  List.filter (fun b => negb (String.eqb (url b) u)) bms.

(** Bookmark URLs are unique. *)
Definition wf (bms : list bookmark) : Prop := NoDup (map url bms).

Lemma isBookmarked_spec u bms :
  isBookmarked u bms = true <-> u ∈ map url bms.
Proof.
  unfold isBookmarked, js_some. rewrite existsb_exists, list_elem_of_In, in_map_iff.
  split; intros [b [Hin He]]; exists b; split; try done.
  - by apply String.eqb_eq in He. - by apply String.eqb_eq.
Qed.

Lemma map_url_remove u bms :
  map url (removeBookmark u bms) = List.filter (fun v => negb (String.eqb v u)) (map url bms).
Proof.
  induction bms as [|b bms IH]; simpl; [done|].
  destruct (String.eqb (url b) u); simpl; by rewrite IH.
Qed.

(** ** Theorems *)

(** adding and removing keep bookmark URLs unique. *)
Theorem bookmarks_ops_preserve_wf t u f n v bms :
  wf bms -> wf (addBookmark t u f n bms) /\ wf (removeBookmark v bms).
Proof.
  unfold wf. intros Hnd. split.
  - unfold addBookmark. destruct (isBookmarked u bms) eqn:Hb; [done|].
    rewrite map_app. simpl. apply NoDup_app. split; [done|]. split; [|apply NoDup_singleton].
    intros x Hx ->%list_elem_of_singleton. apply (proj2 (isBookmarked_spec u bms)) in Hx. congruence.
  - rewrite map_url_remove. apply NoDup_ListNoDup, List.NoDup_filter, NoDup_ListNoDup, Hnd.
Qed.

Lemma isBookmarked_app u bms b :
  isBookmarked u (bms ++ [b]) = isBookmarked u bms || String.eqb (url b) u.
Proof. unfold isBookmarked, js_some. rewrite existsb_app. simpl. by rewrite orb_false_r. Qed.

(** bookmarking a URL a second time leaves the list as the first
    call left it, and removing a URL that is not bookmarked is a no-op. *)
Theorem bookmark_add_idem_remove_absent t u f n t' f' n' bms :
  addBookmark t' u f' n' (addBookmark t u f n bms) = addBookmark t u f n bms /\
  (isBookmarked u bms = false -> removeBookmark u bms = bms).
Proof.
  split.
  - unfold addBookmark at 2. destruct (isBookmarked u bms) eqn:Hb.
    + unfold addBookmark. by rewrite Hb.
    + unfold addBookmark. by rewrite isBookmarked_app, Hb, String.eqb_refl.
  - intros Hb. apply filter_all_true, Forall_forall. intros b Hin.
    destruct (String.eqb_spec (url b) u) as [<-|]; [|done].
    enough (isBookmarked (url b) bms = true) by congruence.
    apply isBookmarked_spec, list_elem_of_In, in_map_iff. exists b. split; [done|].
    by apply list_elem_of_In.
Qed.

(** after [addBookmark] the URL is bookmarked; after [removeBookmark]
    it is not. *)
Theorem bookmark_add_remove_roundtrip t u f n bms :
  isBookmarked u (addBookmark t u f n bms) = true /\
  isBookmarked u (removeBookmark u bms) = false.
Proof.
  split.
  - unfold addBookmark. destruct (isBookmarked u bms) eqn:Hb; [done|].
    by rewrite isBookmarked_app, String.eqb_refl, orb_true_r.
  - destruct (isBookmarked u (removeBookmark u bms)) eqn:Hb; [|done].
    apply isBookmarked_spec in Hb. rewrite map_url_remove in Hb.
    apply list_elem_of_In, filter_In in Hb as [_ Hb]. by rewrite String.eqb_refl in Hb.
Qed.

(** ** Witnesses *)

Lemma bookmarks_ops_preserve_wf_witness :
  wf (addBookmark "Example" "https://example.com" None 1 [])
  /\ wf (removeBookmark "https://example.com" []).
Proof. apply bookmarks_ops_preserve_wf. constructor. Defined.

End BookmarksManager.
