(* ===== verification/Tabs.v ===== *)
(** * Tabs: the tab registry of src/src/src/App.jsx

    [App] keeps [tabs] (an array of tab objects), [activeTab] (an id or
    [null]) and a [bookmarks] copy of the stored bookmarks.  This file
    models its state as [state] and each handler that changes it:
    the mount effect creating the first tab, [addTab], [togglePinTab],
    [closeTab], the raw [setActiveTab] setter, [updateTab] (the
    [onVisit] callback of BrowserWindow, which also writes history) and
    [handleToggleBookmark].

    [closeTab] does not move the active pointer itself: it schedules
    [setTimeout(() => setActiveTab(nextId), 0)] (lines 80, 89).  The state
    keeps the pending callbacks ([timers]); the click's update commits,
    and is rendered, with [activeTab] still naming the closed tab, and
    [fire] runs the callback as a later step.  The transition system
    [step] runs that callback before the next event (a zero-delay timer
    queued during the render fires before later input is handled; the
    model assumes this schedule).  The registry invariant [inv] holds in
    every state it reaches, the intermediate ones included: ids are
    unique and non-empty, pinned tabs come first, and the active pointer
    names a tab whenever there is one and no timer is pending, while a
    pending timer names a tab.  [settled] is the invariant of a state with
    no timer pending.  Navigation.v extends the transition system with
    [smartNavigate] and proves [inv] there. *)

From S2P Require Import Prelude History Bookmarks.

Module App.

Record tab := mkTab {
  id : string;
  title : string;
  url : string;
  isPinned : bool;
  isLoading : bool;
  favicon : option string
}.

Record state := mkState {
  tabs : list tab;
  activeTab : option string;
  bookmarks : list BookmarksManager.bookmark;          (** React state copy *)
  stored_history : list HistoryManager.entry;          (** localStorage 'history' *)
  stored_bookmarks : list BookmarksManager.bookmark;   (** localStorage 'bookmarks' *)
  timers : list string    (** pending [setTimeout(() => setActiveTab(id), 0)] callbacks, oldest first *)
}.

Definition newtab_url : string := "browser://newtab".

(** The first render: [useState([])], [useState(null)]. *)
Definition init (h : list HistoryManager.entry) (b : list BookmarksManager.bookmark) : state :=
  mkState [] None [] h b [].

Definition set_tabs (l : list tab) (s : state) : state :=
  mkState l (activeTab s) (bookmarks s) (stored_history s) (stored_bookmarks s) (timers s).
Definition set_active (a : option string) (s : state) : state :=
  mkState (tabs s) a (bookmarks s) (stored_history s) (stored_bookmarks s) (timers s).

(** [setTimeout(() => setActiveTab(x), 0)]: queue the callback. *)
Definition schedule (x : string) (s : state) : state :=
  mkState (tabs s) (activeTab s) (bookmarks s) (stored_history s) (stored_bookmarks s) (timers s ++ [x]).

(** The oldest pending callback runs: [setActiveTab(x)]. *)
Definition fire (s : state) : state :=
  match timers s with
  | [] => s
  | x :: r => mkState (tabs s) (Some x) (bookmarks s) (stored_history s) (stored_bookmarks s) r
  end.

(** The mount effect (lines 28-41): one new tab, active; bookmarks loaded. *)
Definition mount (nid : string) (s : state) : state :=
  mkState [mkTab nid "New Tab" newtab_url false false None] (Some nid)
          (stored_bookmarks s) (stored_history s) (stored_bookmarks s) (timers s).

(** [addTab(url, title, isPinned)] (lines 43-56). *)
Definition addTab (u t : string) (pinned : bool) (nid : string) (s : state) : state :=
  set_active (Some nid) (set_tabs (tabs s ++ [mkTab nid (t || "New Tab")%js u pinned false None]) s).

Definition flip_pin (i : string) (t : tab) : tab :=
  if String.eqb (id t) i
  then mkTab (id t) (title t) (url t) (negb (isPinned t)) (isLoading t) (favicon t)
  else t.

(** [togglePinTab(id)] (lines 58-67): flip, then stable partition. *)
Definition togglePin (i : string) (l : list tab) : list tab :=
  let updated := map (flip_pin i) l in
  List.filter isPinned updated ++ List.filter (fun t => negb (isPinned t)) updated.

Definition togglePinTab (i : string) (s : state) : state := set_tabs (togglePin i (tabs s)) s.

(** [prevTabs.findIndex(tab => tab.id === id)] *)
Fixpoint findIndex (i : string) (l : list tab) : option nat :=
  match l with
  | [] => None
  | t :: l' => if String.eqb (id t) i then Some 0 else S <$> findIndex i l'
  end.

(** [tabs.find(t => t.id === id)] *)
Definition find_tab (i : string) (l : list tab) : option tab :=
  List.find (fun t => String.eqb (id t) i) l.

(** [closeTab(id)] (lines 69-94).  [nid] is the id [Math.random] gives the
    replacement tab when the last tab closes.  The update keeps
    [activeTab] and schedules the callback that moves it; [activeTab] is
    the value of the render the click happened in. *)
Definition closeTab (i nid : string) (s : state) : state :=
  match findIndex i (tabs s) with
  | None => s
  | Some index =>
      let newTabs := List.filter (fun t => negb (String.eqb (id t) i)) (tabs s) in
      match newTabs with
      | [] => schedule nid (set_tabs [mkTab nid "New Tab" newtab_url false false None] s)
      | first :: _ =>
          if bool_decide (activeTab s = Some i) then
            let nextId := match newTabs !! (index - 1) with
                          | Some t => (id t || id first)%js
                          | None => id first
                          end in
            schedule nextId (set_tabs newTabs s)
          else set_tabs newTabs s
      end
  end.

(** The raw React setter [setActiveTab], passed to TabBar and Sidebar. *)
Definition setActiveTab (i : string) (s : state) : state := set_active (Some i) s.

(** [updateTab(url, title, isLoading, favicon)] (lines 107-120): merge into
    the active tab, then record history when the load has finished.  The
    history entry's id and timestamp are [hid] and [ts]. *)
Definition merge_visit (u t : string) (loading : bool) (fav : option string) (x : tab) : tab :=
  mkTab (id x) (t || title x)%js (u || url x)%js (isPinned x) loading (js_or_opt fav (favicon x)).

Definition updateTab (u t : string) (loading : bool) (fav : option string) (hid ts : string)
    (s : state) : state :=
  let l := map (fun x => if bool_decide (Some (id x) = activeTab s)
                         then merge_visit u t loading fav x else x) (tabs s) in
  let h := if negb loading && js_truthy u && js_truthy t
              && negb (startsWith u "browser://")
           then HistoryManager.addEntry t u fav hid ts (stored_history s)
           else stored_history s in
  mkState l (activeTab s) (bookmarks s) h (stored_bookmarks s) (timers s).

(** [active] (line 232). *)
Definition active (s : state) : option tab :=
  match activeTab s with
  | Some a => find_tab a (tabs s)
  | None => None
  end.

(** [handleToggleBookmark] (lines 235-242); [now] is [Date.now()]. *)
Definition handleToggleBookmark (now : Z) (s : state) : state :=
  match active s with
  | None => s
  | Some t =>
      let b := if BookmarksManager.isBookmarked (url t) (stored_bookmarks s)
               then BookmarksManager.removeBookmark (url t) (stored_bookmarks s)
               else BookmarksManager.addBookmark (title t) (url t) (favicon t) now
                      (stored_bookmarks s) in
      mkState (tabs s) (activeTab s) b (stored_history s) b (timers s)
  end.

(** ** The registry invariant *)

Definition ids (l : list tab) : list string := map id l.

(** Pinned tabs precede unpinned ones. *)
Fixpoint pinned_first (l : list tab) : bool :=
  match l with
  | [] => true
  | t :: l' => if isPinned t then pinned_first l' else forallb (fun x => negb (isPinned x)) l'
  end.

(** Ids are distinct and non-empty ([Math.random().toString(36).substr(2, 9)]). *)
Definition ids_ok (l : list tab) : Prop := List.NoDup (ids l) /\ Forall (fun t => id t <> "") l.

(** The active pointer names a tab whenever there is one. *)
Definition active_ok (s : state) : Prop :=
  tabs s <> [] -> exists t, In t (tabs s) /\ activeTab s = Some (id t).

(** The invariant of a state with no callback pending. *)
Definition settled (s : state) : Prop :=
  ids_ok (tabs s) /\ active_ok s /\ pinned_first (tabs s) = true.

(** With no callback pending the active pointer names a tab whenever
    there is one; at most one callback is pending, and it names a tab. *)
Definition pending_ok (s : state) : Prop :=
  match timers s with
  | [] => active_ok s
  | [x] => In x (ids (tabs s))
  | _ => False
  end.

Definition inv (s : state) : Prop :=
  ids_ok (tabs s) /\ pending_ok s /\ pinned_first (tabs s) = true.

(** ** Lemmas on the list operations *)

Lemma forallb_filter_true {A} (q p : A -> bool) (l : list A) :
  forallb q l = true -> forallb q (List.filter p l) = true.
Proof.
  induction l as [|x l IH]; simpl; [done|]. intros [Hx Hl]%andb_true_iff.
  destruct (p x); simpl; rewrite ?Hx; auto.
Qed.

Lemma pinned_first_unpinned l :
  forallb (fun x => negb (isPinned x)) l = true -> pinned_first l = true.
Proof. destruct l as [|t l]; simpl; [done|]. intros H. destruct (isPinned t); simpl in H; [discriminate|exact H]. Qed.

Lemma pinned_first_snoc l t :
  pinned_first l = true -> isPinned t = false -> pinned_first (l ++ [t]) = true.
Proof.
  intros Hl Ht. induction l as [|x l IH]; simpl in *; [by rewrite Ht|].
  destruct (isPinned x); [auto|]. rewrite forallb_app, Hl. simpl. by rewrite Ht.
Qed.

Lemma forallb_filter {A} (p : A -> bool) (l : list A) : forallb p (List.filter p l) = true.
Proof. induction l as [|x l IH]; simpl; [done|]. destruct (p x) eqn:Hx; simpl; [by rewrite Hx|done]. Qed.

Lemma pinned_first_app P U :
  forallb isPinned P = true -> forallb (fun x => negb (isPinned x)) U = true ->
  pinned_first (P ++ U) = true.
Proof.
  intros HP HU. induction P as [|x P IH]; simpl in *; [by apply pinned_first_unpinned|].
  apply andb_true_iff in HP as [-> HP]. auto.
Qed.

Lemma pinned_first_partition l :
  pinned_first (List.filter isPinned l ++ List.filter (fun t => negb (isPinned t)) l) = true.
Proof. apply pinned_first_app; apply forallb_filter. Qed.

Lemma Permutation_partition {A} (p : A -> bool) (l : list A) :
  Permutation (List.filter p l ++ List.filter (fun x => negb (p x)) l) l.
Proof.
  induction l as [|x l IH]; simpl; [done|].
  destruct (p x); simpl; [by constructor|]. rewrite <- Permutation_middle. by constructor.
Qed.

Lemma ids_flip i l : ids (map (flip_pin i) l) = ids l.
Proof.
  unfold ids. rewrite map_map. apply map_ext. intros t. unfold flip_pin.
  by destruct (String.eqb (id t) i).
Qed.

Lemma togglePin_perm i l : Permutation (togglePin i l) (map (flip_pin i) l).
Proof. apply Permutation_partition. Qed.

Lemma NoDup_map_filter {A B} (f : A -> B) (p : A -> bool) (l : list A) :
  List.NoDup (map f l) -> List.NoDup (map f (List.filter p l)).
Proof.
  induction l as [|x l IH]; simpl; [done|]. intros Hnd. inversion Hnd as [|? ? Hx Hl]; subst.
  destruct (p x); simpl; [|auto]. constructor; [|auto].
  intros Hin. apply Hx. apply in_map_iff in Hin as [y [Hy Hin]]. apply filter_In in Hin as [Hin _].
  apply in_map_iff. eauto.
Qed.

Lemma pinned_first_filter p l :
  pinned_first l = true -> pinned_first (List.filter p l) = true.
Proof.
  induction l as [|x l IH]; simpl; [done|]. intros H.
  destruct (isPinned x) eqn:Hx, (p x); simpl; rewrite ?Hx; auto.
  - by apply forallb_filter_true.
  - by apply pinned_first_unpinned, forallb_filter_true.
Qed.

Lemma pinned_first_map (g : tab -> tab) l :
  (forall x, isPinned (g x) = isPinned x) -> pinned_first (map g l) = pinned_first l.
Proof.
  intros Hg.
  assert (Hf : forall m, forallb (fun x => negb (isPinned x)) (map g m)
                         = forallb (fun x => negb (isPinned x)) m).
  { induction m as [|y m IHm]; simpl; [done|]. by rewrite Hg, IHm. }
  induction l as [|x l IH]; simpl; [done|]. by rewrite Hg, IH, Hf.
Qed.

Lemma in_ids t l : In t l -> In (id t) (ids l).
Proof. apply in_map. Qed.

#[export] Hint Resolve in_ids pinned_first_partition : browser.

(** ** Each handler preserves the invariant *)

Lemma settled_inv s : timers s = [] -> settled s <-> inv s.
Proof. unfold settled, inv, pending_ok. by intros ->. Qed.


(** A handler that maps the tab list with a function keeping ids and pin
    flags, and keeps the active pointer, keeps the invariant. *)
Lemma inv_map (g : tab -> tab) s s' :
  (forall x, id (g x) = id x) -> (forall x, isPinned (g x) = isPinned x) ->
  tabs s' = map g (tabs s) -> activeTab s' = activeTab s -> settled s -> settled s'.
Proof.
  intros Hid Hpin Ht Ha [[Hnd Hne] [Hact Hpf]]. unfold settled, ids_ok, active_ok. rewrite Ht, Ha.
  assert (Hids : ids (map g (tabs s)) = ids (tabs s)).
  { unfold ids. rewrite map_map. apply map_ext, Hid. }
  split; [split|split].
  - by rewrite Hids.
  - apply Forall_map. eapply Forall_impl; [exact Hne|]. intros x. by rewrite Hid.
  - intros Hn. destruct Hact as [t [Hin ->]]; [intros Hs; apply Hn; by rewrite Hs|].
    exists (g t). split; [by apply in_map|by rewrite Hid].
  - by rewrite pinned_first_map.
Qed.

Lemma inv_mount nid s : nid <> "" -> settled (mount nid s).
Proof.
  intros Hn. split; [split|split]; simpl.
  - constructor; [intros []|constructor].
  - by constructor.
  - intros _. eexists. split; [left; reflexivity|done].
  - done.
Qed.

Lemma inv_addTab u t nid s :
  settled s -> ~ In nid (ids (tabs s)) -> nid <> "" -> settled (addTab u t false nid s).
Proof.
  intros [[Hnd Hne] [_ Hpf]] Hfresh Hn. split; [split|split]; simpl.
  - unfold ids. rewrite map_app. simpl. eapply Permutation_NoDup; [apply Permutation_cons_append|].
    by constructor.
  - apply Forall_app. split; [done|by constructor].
  - intros _. eexists. split; [apply in_or_app; right; left; reflexivity|done].
  - by apply pinned_first_snoc.
Qed.

Lemma inv_togglePinTab i s : settled s -> settled (togglePinTab i s).
Proof.
  intros [[Hnd Hne] [Hact Hpf]].
  assert (Hid : forall x, id (flip_pin i x) = id x).
  { intros x. unfold flip_pin. by destruct (String.eqb (id x) i). }
  pose proof (togglePin_perm i (tabs s)) as Hp.
  split; [split|split]; simpl.
  - eapply Permutation_NoDup; [symmetry; apply Permutation_map, Hp|]. by rewrite ids_flip.
  - apply List.Forall_forall. intros x Hx. apply (Permutation_in _ Hp), in_map_iff in Hx as [y [<- Hy]].
    rewrite Hid. by apply (proj1 (List.Forall_forall _ _) Hne).
  - unfold active_ok; simpl. intros Hn. destruct Hact as [t [Hin ->]].
    { intros Hs. apply Hn. unfold togglePin. by rewrite Hs. }
    exists (flip_pin i t). split; [|by rewrite Hid].
    apply (Permutation_in _ (Permutation_sym Hp)), in_map, Hin.
  - apply pinned_first_partition.
Qed.

Lemma lookup_In {A} (l : list A) k x : l !! k = Some x -> In x l.
Proof. intros H. apply list_elem_of_In. by eapply list_elem_of_lookup_2. Qed.

Lemma inv_closeTab i nid s : settled s -> timers s = [] -> nid <> "" -> inv (closeTab i nid s).
Proof.
  intros Hinv Ht Hn. unfold closeTab.
  destruct (findIndex i (tabs s)) as [index|]; [|by apply settled_inv].
  destruct Hinv as [[Hnd Hne] [Hact Hpf]].
  pose proof (NoDup_map_filter id (fun t => negb (String.eqb (id t) i)) _ Hnd) as Hnd'.
  pose proof (Forall_List_filter _ (fun t => negb (String.eqb (id t) i)) _ Hne) as Hne'.
  pose proof (pinned_first_filter (fun t => negb (String.eqb (id t) i)) _ Hpf) as Hpf'.
  assert (Hin : forall x, In x (List.filter (fun t => negb (String.eqb (id t) i)) (tabs s)) <->
                In x (tabs s) /\ id x <> i).
  { intros x. rewrite filter_In. destruct (String.eqb_spec (id x) i) as [E|E]; simpl.
    - split; intros [_ H]; [discriminate|congruence].
    - split; intros [H _]; split; done. }
  destruct (List.filter _ (tabs s)) as [|first rest] eqn:Hf.
  - split; [split|split]; unfold pending_ok; simpl; rewrite ?Ht; simpl.
    + constructor; [intros []|constructor].
    + by constructor.
    + by left.
    + done.
  - case_bool_decide as Ha; (split; [split|split]; unfold pending_ok; simpl; rewrite ?Ht; simpl; [done|done| |done]).
    + match goal with |- context [(first :: rest) !! ?k] => destruct ((first :: rest) !! k) as [t|] eqn:Hl end.
      * apply lookup_In in Hl as Ht'. rewrite js_or_nonempty; [exact (in_ids t _ Ht')|].
        by apply (proj1 (List.Forall_forall _ _) Hne').
      * by left.
    + intros _. destruct Hact as [t [Ht' Hat]]; [by destruct (tabs s)|].
      exists t. split; [|done]. apply Hin. split; [done|]. intros <-. by rewrite Hat in Ha.
Qed.

(** The pending callback activates the tab it names. *)
Lemma inv_fire s : inv s -> timers s <> [] -> inv (fire s) /\ timers (fire s) = [].
Proof.
  intros [Hok [Hp Hpf]] Hne. unfold pending_ok in Hp. unfold fire.
  destruct (timers s) as [|x [|y r]]; [done| |done]. split; [|done].
  split; [done|split; [|done]]. unfold pending_ok. simpl. intros _.
  apply in_map_iff in Hp as [t [<- Ht]]. by exists t.
Qed.

Lemma inv_setActiveTab i s : settled s -> In i (ids (tabs s)) -> settled (setActiveTab i s).
Proof.
  intros [Hok [_ Hpf]] Hi. split; [done|split; [|done]].
  intros _. apply in_map_iff in Hi as [t [<- Ht]]. by exists t.
Qed.

Lemma inv_updateTab u t l f hid ts s : settled s -> settled (updateTab u t l f hid ts s).
Proof.
  apply (inv_map (fun x => if bool_decide (Some (id x) = activeTab s)
                           then merge_visit u t l f x else x)); try done.
  - intros x. by case_bool_decide.
  - intros x. by case_bool_decide.
Qed.

Lemma inv_handleToggleBookmark now s : settled s -> settled (handleToggleBookmark now s).
Proof.
  unfold handleToggleBookmark. destruct (active s); [|done].
  apply (inv_map (fun x => x)); try done. by rewrite map_id.
Qed.

(** ** The registry as a transition system

    The handlers the UI can trigger, each while no callback is pending,
    and the pending callback.  Fresh ids come from [Math.random];
    [setActiveTab] is only called by TabBar and Sidebar on a rendered tab,
    so with the id of an existing tab; [addTab] is never called with a
    [true] pin flag. *)
Inductive step : state -> state -> Prop :=
  | step_mount s nid : timers s = [] -> tabs s = [] -> nid <> "" -> step s (mount nid s)
  | step_add s u t nid :
      timers s = [] -> ~ In nid (ids (tabs s)) -> nid <> "" -> step s (addTab u t false nid s)
  | step_pin s i : timers s = [] -> step s (togglePinTab i s)
  | step_close s i nid : timers s = [] -> nid <> "" -> step s (closeTab i nid s)
  | step_select s i : timers s = [] -> In i (ids (tabs s)) -> step s (setActiveTab i s)
  | step_visit s u t l f hid ts : timers s = [] -> step s (updateTab u t l f hid ts s)
  | step_bookmark s now : timers s = [] -> step s (handleToggleBookmark now s)
  | step_timer s : timers s <> [] -> step s (fire s).

(** The invariant only reads the tab list, the active pointer and the timers. *)
Lemma inv_registry_eq s s' :
  tabs s' = tabs s -> activeTab s' = activeTab s -> timers s' = timers s -> inv s -> inv s'.
Proof. unfold inv, pending_ok, active_ok. intros -> -> ->. done. Qed.

Lemma inv_init h b : inv (init h b).
Proof.
  split; [split|split]; simpl; [constructor|constructor| |done].
  unfold pending_ok, active_ok. simpl. intros H. by exfalso.
Qed.

(** A handler that keeps the timers empty and preserves [settled]
    preserves [inv]. *)
Lemma inv_settled_step s s' :
  timers s = [] -> timers s' = [] -> (settled s -> settled s') -> inv s -> inv s'.
Proof. intros Ht Ht' H Hi. apply settled_inv; [done|]. apply H. by apply settled_inv. Qed.

Lemma timers_handleToggleBookmark now s : timers (handleToggleBookmark now s) = timers s.
Proof. unfold handleToggleBookmark. by destruct (active s). Qed.

Lemma step_inv s s' : step s s' -> inv s -> inv s'.
Proof.
  destruct 1 as [s nid He Ht Hn|s u t nid He Hf Hn|s i He|s i nid He Hn|s i He Hin|s u t l f hid ts He|s now He|s He].
  - apply inv_settled_step; [done|done|]. intros _. by apply inv_mount.
  - apply inv_settled_step; [done|done|]. intros Hi. by apply inv_addTab.
  - apply inv_settled_step; [done|done|]. apply inv_togglePinTab.
  - intros Hi. apply inv_closeTab; [|done|done]. by apply settled_inv.
  - apply inv_settled_step; [done|done|]. intros Hi. by apply inv_setActiveTab.
  - apply inv_settled_step; [done|done|]. apply inv_updateTab.
  - apply inv_settled_step; [done|by rewrite timers_handleToggleBookmark|]. apply inv_handleToggleBookmark.
  - intros Hi. by apply inv_fire.
Qed.

Lemma findIndex_app i L t R :
  Forall (fun x => id x <> i) L -> id t = i -> findIndex i (L ++ t :: R) = Some (length L).
Proof.
  intros HL <-. induction HL as [|x L Hx _ IH]; simpl.
  - by rewrite String.eqb_refl.
  - destruct (String.eqb_spec (id x) (id t)); [done|]. by rewrite IH.
Qed.

Lemma filter_ne_app i L t R :
  Forall (fun x => id x <> i) L -> Forall (fun x => id x <> i) R -> id t = i ->
  List.filter (fun x => negb (String.eqb (id x) i)) (L ++ t :: R) = L ++ R.
Proof.
  intros HL HR <-. rewrite List.filter_app. simpl. rewrite String.eqb_refl. simpl.
  assert (Hk : forall M, Forall (fun x => id x <> id t) M ->
            List.filter (fun x => negb (String.eqb (id x) (id t))) M = M).
  { intros M HM. apply filter_all_true. eapply Forall_impl; [exact HM|].
    intros x Hx. by destruct (String.eqb_spec (id x) (id t)). }
  by rewrite !Hk.
Qed.

Lemma ids_ok_split L t R :
  ids_ok (L ++ t :: R) ->
  Forall (fun x => id x <> id t) L /\ Forall (fun x => id x <> id t) R /\
  Forall (fun x => id x <> "") (L ++ R).
Proof.
  intros [Hnd Hne]. unfold ids in Hnd. rewrite map_app in Hnd. simpl in Hnd.
  apply NoDup_remove in Hnd as [_ Hnot].
  rewrite <- map_app in Hnot. split; [|split].
  - apply List.Forall_forall. intros x Hx E. apply Hnot. rewrite <- E. apply in_map, in_or_app. by left.
  - apply List.Forall_forall. intros x Hx E. apply Hnot. rewrite <- E. apply in_map, in_or_app. by right.
  - apply Forall_app in Hne as [HL HtR]. inversion HtR. by apply Forall_app.
Qed.

Lemma map_flip_other i M :
  Forall (fun x => id x <> i) M -> map (flip_pin i) M = M.
Proof.
  induction 1 as [|x M Hx _ IH]; simpl; [done|]. rewrite IH. unfold flip_pin.
  by destruct (String.eqb_spec (id x) i).
Qed.

Lemma filter_keep {A} (p : A -> bool) (M : list A) :
  Forall (fun x => p x = true) M -> List.filter p M = M.
Proof. apply filter_all_true. Qed.

Lemma filter_drop {A} (p : A -> bool) (M : list A) :
  Forall (fun x => p x = false) M -> List.filter p M = [].
Proof. induction 1 as [|x M Hx _ IH]; simpl; [done|]. by rewrite Hx. Qed.

Lemma Forall_negb_pinned (M : list tab) :
  Forall (fun x => isPinned x = false) M -> Forall (fun x => negb (isPinned x) = true) M.
Proof. intros H. eapply Forall_impl; [exact H|]. intros x ->. done. Qed.

Lemma Forall_negb_unpinned (M : list tab) :
  Forall (fun x => isPinned x = true) M -> Forall (fun x => negb (isPinned x) = false) M.
Proof. intros H. eapply Forall_impl; [exact H|]. intros x ->. done. Qed.

Lemma find_tab_map (g : tab -> tab) a l :
  (forall x, id (g x) = id x) -> find_tab a (map g l) = g <$> find_tab a l.
Proof.
  intros Hg. unfold find_tab. induction l as [|x l IH]; simpl; [done|].
  rewrite Hg. destruct (String.eqb (id x) a); [done|exact IH].
Qed.

Lemma find_tab_id a l t : find_tab a l = Some t -> id t = a.
Proof. unfold find_tab. intros [_ E]%find_some. by apply String.eqb_eq. Qed.

Lemma active_In s t : active s = Some t -> In t (tabs s).
Proof.
  unfold active. destruct (activeTab s); [|done]. unfold find_tab.
  by intros [? _]%find_some.
Qed.

Lemma active_activeTab s t : active s = Some t -> activeTab s = Some (id t).
Proof.
  unfold active. destruct (activeTab s) as [a|]; [|done].
  intros Hf. by rewrite (find_tab_id _ _ _ Hf).
Qed.

Lemma active_updateTab u t l f hid ts s cur :
  active s = Some cur -> active (updateTab u t l f hid ts s) = Some (merge_visit u t l f cur).
Proof.
  intros Ha. pose proof (active_activeTab _ _ Ha) as Hat.
  unfold active in *. simpl. rewrite Hat in *.
  rewrite find_tab_map by (intros x; by case_bool_decide). rewrite Ha. simpl.
  by rewrite bool_decide_true.
Qed.

(** ** Theorems on the registry *)

(** closing the only tab leaves exactly one tab, a fresh New Tab
    page, and its callback makes it active: the registry never drops to
    zero tabs. *)
Theorem closeTab_last t nid s :
  tabs s = [t] -> timers s = [] ->
  tabs (closeTab (id t) nid s) = [mkTab nid "New Tab" newtab_url false false None] /\
  activeTab (fire (closeTab (id t) nid s)) = Some nid.
Proof.
  intros Ht Htm. unfold closeTab. rewrite Ht. simpl. rewrite String.eqb_refl. simpl.
  unfold fire, schedule, set_tabs. cbn. rewrite Htm. by split.
Qed.

Lemma find_tab_none a l : Forall (fun x => id x <> a) l -> find_tab a l = None.
Proof.
  unfold find_tab. induction 1 as [|x l Hx _ IH]; simpl; [done|].
  by destruct (String.eqb_spec (id x) a).
Qed.

(** C6: closing the active tab removes it; the click's update is
    rendered with no active tab (the pointer still names the closed one),
    and the callback then activates its left neighbour, or the new first
    tab when it was leftmost. *)
Theorem closeTab_active_neighbour L t R nid s :
  tabs s = L ++ t :: R -> ids_ok (tabs s) -> activeTab s = Some (id t) -> timers s = [] -> L ++ R <> [] ->
  tabs (closeTab (id t) nid s) = L ++ R /\ active (closeTab (id t) nid s) = None /\
  tabs (fire (closeTab (id t) nid s)) = L ++ R /\
  activeTab (fire (closeTab (id t) nid s)) =
    id <$> (match last L with Some p => Some p | None => head R end).
Proof.
  intros Ht Hok Ha Htm Hne. rewrite Ht in Hok.
  destruct (ids_ok_split L t R Hok) as (HL & HR & Hids).
  assert (Hc : exists x, closeTab (id t) nid s = schedule x (set_tabs (L ++ R) s) /\
                 Some x = id <$> (match last L with Some p => Some p | None => head R end)).
  { unfold closeTab. rewrite Ht, findIndex_app, filter_ne_app by done.
    destruct (L ++ R) as [|first rest] eqn:E; [done|]. rewrite <- E.
    rewrite bool_decide_true by done. eexists. split; [reflexivity|].
    assert (Hid : forall x, In x (L ++ R) -> (id x || id first)%js = id x).
    { intros x Hx. apply js_or_nonempty. rewrite List.Forall_forall in Hids. rewrite E in Hx. exact (Hids x Hx). }
    destruct L as [|l0 L'] eqn:EL.
    - simpl in *. subst R. simpl. f_equal. rewrite Hid; [done|by left].
    - rewrite last_lookup. simpl length. rewrite Nat.sub_1_r. simpl Nat.pred.
      rewrite (lookup_app_l (l0 :: L')) by (simpl; lia).
      destruct ((l0 :: L') !! length L') as [p|] eqn:Hp.
      + simpl. f_equal. apply Hid, in_or_app. left. by eapply lookup_In.
      + apply lookup_ge_None in Hp. simpl in Hp. lia. }
  destruct Hc as (x & -> & Hx). unfold fire, schedule, active. simpl. rewrite Htm, Ha. simpl.
  split; [done|]. split; [apply find_tab_none, Forall_app; by split|]. by split.
Qed.

(** pinning an unpinned tab moves it to the end of the pinned
    section; every other tab keeps its relative order (for [A;B;C;D],
    pinning [C] gives [C;A;B;D]). *)
Theorem togglePin_pin P U t U' :
  Forall (fun x => isPinned x = true) P -> Forall (fun x => isPinned x = false) U ->
  Forall (fun x => isPinned x = false) U' -> isPinned t = false ->
  Forall (fun x => id x <> id t) (P ++ U ++ U') ->
  togglePin (id t) (P ++ U ++ t :: U') = P ++ flip_pin (id t) t :: U ++ U'.
Proof.
  intros HP HU HU' Ht Hid. apply Forall_app in Hid as [HiP HiUU]. apply Forall_app in HiUU as [HiU HiU'].
  unfold togglePin. rewrite !map_app. simpl. rewrite !map_flip_other by done.
  unfold flip_pin at 1 3. rewrite String.eqb_refl. simpl. rewrite Ht. simpl.
  rewrite !List.filter_app. simpl.
  rewrite (filter_keep isPinned P), (filter_drop isPinned U), (filter_drop isPinned U') by done.
  rewrite (filter_drop _ P), (filter_keep _ U), (filter_keep _ U')
    by (by apply Forall_negb_pinned || by apply Forall_negb_unpinned).
  unfold flip_pin. rewrite String.eqb_refl, Ht. simpl. rewrite ?app_nil_r, <- app_assoc. done.
Qed.

(** ** Witnesses *)

Definition tA := mkTab "a" "A" "https://a.com" false false None.
Definition tB := mkTab "b" "B" "https://b.com" false false None.
Definition tC := mkTab "c" "C" "https://c.com" false false None.
Definition tD := mkTab "d" "D" "https://d.com" false false None.

Definition s_abc : state := mkState [tA; tB; tC] (Some "b") [] [] [] [].

Lemma closeTab_last_witness :
  tabs (closeTab "a" "n" (mkState [tA] (Some "a") [] [] [] []))
    = [mkTab "n" "New Tab" newtab_url false false None] /\
  activeTab (fire (closeTab "a" "n" (mkState [tA] (Some "a") [] [] [] []))) = Some "n".
Proof. exact (closeTab_last tA "n" (mkState [tA] (Some "a") [] [] [] []) eq_refl eq_refl). Defined.

Lemma closeTab_active_neighbour_witness :
  tabs (closeTab "b" "n" s_abc) = [tA; tC] /\ active (closeTab "b" "n" s_abc) = None /\
  tabs (fire (closeTab "b" "n" s_abc)) = [tA; tC] /\ activeTab (fire (closeTab "b" "n" s_abc)) = Some "a".
Proof.
  apply (closeTab_active_neighbour [tA] tB [tC] "n" s_abc); try reflexivity; [|discriminate].
  split; [repeat constructor; simpl; intuition discriminate|repeat constructor; discriminate].
Defined.

Lemma togglePin_pin_witness :
  togglePin "c" [tA; tB; tC; tD] = [flip_pin "c" tC; tA; tB; tD].
Proof.
  apply (togglePin_pin [] [tA; tB] tC [tD]); repeat constructor; discriminate.
Defined.

End App.
