(* ===== verification/Url.v ===== *)
(** * Url: the URL facilities the renderer relies on

    - [UrlApi]: the interface of the platform's [new URL(u)] the code
      uses: whether it throws, and the [hostname] and [pathname] of the
      result.  [whatwg] is an instance that follows the WHATWG URL
      standard's basic parser on the inputs the code meets: scheme
      syntax, special schemes with an authority, opaque paths of other
      schemes, ports, lower-cased host names.  It does not model IDNA,
      percent-decoding of hosts, IPv4/IPv6 canonicalisation or dot
      segments in paths.
    - [encodeURIComponent] (ECMA-262), with its decoder and the round trip.
    - The three regular expressions of TopBar.jsx's [isDomainLike]
      (lines 43-45) and the [/^\d+\./] test (line 51), as matchers. *)

From S2P Require Import Prelude.

(** ** The [new URL] interface *)

Record url_parts := mkUrlParts { protocol : string; hostname : string; pathname : string }.

Class UrlApi := { url_parse : string -> option url_parts }.

(** [validateUrl] of TopBar.jsx (lines 27-34): [new URL(value)] succeeds. *)
Definition validateUrl `{UrlApi} (v : string) : bool := bool_decide (is_Some (url_parse v)).

(** ** A model of the WHATWG basic URL parser *)
Module Whatwg.

Definition chars := list ascii.

Definition c_code (c : ascii) : nat := nat_of_ascii c.

Definition is_scheme_char (c : ascii) : bool :=
  is_alpha c || is_digit c || bool_decide (c = "+"%char) || bool_decide (c = "-"%char)
  || bool_decide (c = "."%char).

(** Leading and trailing C0 controls and spaces are stripped; TAB, LF and
    CR are removed everywhere. *)
Definition strip_c0 (l : chars) : chars :=
  let drop := fix go (l : chars) := match l with
    | c :: l' => if c_code c <=? 32 then go l' else l
    | [] => [] end in
  rev (drop (rev (drop l))).

Definition remove_tab_nl (l : chars) : chars :=
  List.filter (fun c => negb (bool_decide (c_code c = 9 \/ c_code c = 10 \/ c_code c = 13))) l.

(** [scheme ":" rest] when the input starts with a valid scheme. *)
Fixpoint scheme_split (l : chars) (acc : chars) : option (chars * chars) :=
  match l with
  | [] => None
  | c :: l' =>
      if bool_decide (c = ":"%char) then
        match rev acc with
        | c0 :: _ => if is_alpha c0 then Some (rev acc, l') else None
        | [] => None
        end
      else if is_scheme_char c then scheme_split l' (c :: acc) else None
  end.

Definition special_schemes : list string := ["http"; "https"; "ws"; "wss"; "ftp"; "file"].

Definition is_slash (c : ascii) : bool := bool_decide (c = "/"%char) || bool_decide (c = "\"%char).
Definition ends_authority (c : ascii) : bool :=
  is_slash c || bool_decide (c = "?"%char) || bool_decide (c = "#"%char).
Definition ends_path (c : ascii) : bool := bool_decide (c = "?"%char) || bool_decide (c = "#"%char).

Fixpoint split_when (p : ascii -> bool) (l : chars) : chars * chars :=
  match l with
  | [] => ([], [])
  | c :: l' => if p c then ([], l) else let (a, b) := split_when p l' in (c :: a, b)
  end.

(** The part after the last [@] of the authority. *)
Definition drop_userinfo (a : chars) : chars :=
  rev (fst (split_when (fun c => bool_decide (c = "@"%char)) (rev a))).

Definition forbidden_host_char (c : ascii) : bool :=
  (c_code c <=? 32) || bool_decide (c ∈ ["#"; "%"; "/"; ":"; "<"; ">"; "?"; "@"; "["; "\"; "]"; "^"; "|"]%char).

(** The value of a decimal digit string. *)
Definition digits_value (p : chars) : N :=
  fold_left (fun n c => 10 * n + N.of_nat (c_code c - 48))%N p 0%N.

Definition port_ok (p : chars) : bool := forallb is_digit p && (digits_value p <=? 65535)%N.

(** Host and port of an authority; [None] when invalid. *)
Definition parse_host (a : chars) (allow_empty : bool) : option string :=
  let a := drop_userinfo a in
  let (h, rest) := split_when (fun c => bool_decide (c = ":"%char)) a in
  let port_ok' := match rest with [] => true | _ :: p => port_ok p end in
  if negb port_ok' || existsb forbidden_host_char h then None
  else if bool_decide (h = []) && negb allow_empty then None
  else Some (toLowerCase (string_of_list_ascii h)).

Definition path_of (rest : chars) : chars := fst (split_when ends_path rest).

Definition slash_to_fwd (l : chars) : chars :=
  map (fun c => if bool_decide (c = "\"%char) then "/"%char else c) l.

Definition parse (s : string) : option url_parts :=
  let l := remove_tab_nl (strip_c0 (list_ascii_of_string s)) in
  match scheme_split l [] with
  | None => None
  | Some (sch, rest) =>
      let scheme := toLowerCase (string_of_list_ascii sch) in
      if bool_decide (scheme ∈ special_schemes) then
        let rest := snd (split_when (fun c => negb (is_slash c)) rest) in
        let (auth, tail) := split_when ends_authority rest in
        match parse_host auth (bool_decide (scheme = "file")) with
        | None => None
        | Some h =>
            let p := slash_to_fwd (path_of tail) in
            Some (mkUrlParts (scheme +:+ ":") h (if bool_decide (p = []) then "/" else string_of_list_ascii p))
        end
      else match rest with
           | "/"%char :: "/"%char :: r =>
               let (auth, tail) := split_when ends_authority r in
               match parse_host auth true with
               | None => None
               | Some h => Some (mkUrlParts (scheme +:+ ":") h (string_of_list_ascii (path_of tail)))
               end
           | _ => Some (mkUrlParts (scheme +:+ ":") "" (string_of_list_ascii (path_of rest)))
           end
  end.

End Whatwg.

#[export] Instance whatwg : UrlApi := {| url_parse := Whatwg.parse |}.

(** ** [encodeURIComponent] *)

Definition unreserved (c : ascii) : bool :=
  is_alpha c || is_digit c || bool_decide (c ∈ ["-"; "_"; "."; "!"; "~"; "*"; "'"; "("; ")"]%char).

Definition hex_digit (n : nat) : ascii :=
  if n <? 10 then ascii_of_nat (48 + n) else ascii_of_nat (55 + n).

Definition pct (b : nat) : list ascii := ["%"%char; hex_digit (b / 16); hex_digit (b mod 16)].

(** The UTF-8 bytes of a code unit below 256. *)
Definition utf8_bytes (n : nat) : list nat :=
  if n <? 128 then [n] else [192 + n / 64; 128 + n mod 64].

Definition encode_char (c : ascii) : list ascii :=
  if unreserved c then [c] else flat_map pct (utf8_bytes (nat_of_ascii c)).

Definition encodeURIComponent (s : string) : string :=
  string_of_list_ascii (flat_map encode_char (list_ascii_of_string s)).

(** The decoder ([decodeURIComponent]) on the code units below 256. *)
Definition hex_val (c : ascii) : option nat :=
  let n := nat_of_ascii c in
  if (48 <=? n) && (n <=? 57) then Some (n - 48)
  else if (65 <=? n) && (n <=? 70) then Some (n - 55)
  else if (97 <=? n) && (n <=? 102) then Some (n - 87)
  else None.

Definition byte_of (h1 h2 : ascii) : option nat :=
  match hex_val h1, hex_val h2 with Some a, Some b => Some (16 * a + b) | _, _ => None end.

Fixpoint uri_decode (l : list ascii) : option (list ascii) :=
  match l with
  | [] => Some []
  | "%"%char :: h1 :: h2 :: rest =>
      match byte_of h1 h2 with
      | None => None
      | Some b1 =>
          if b1 <? 128 then cons (ascii_of_nat b1) <$> uri_decode rest
          else match rest with
               | "%"%char :: h3 :: h4 :: rest' =>
                   match byte_of h3 h4 with
                   | Some b2 => cons (ascii_of_nat ((b1 - 192) * 64 + (b2 - 128))) <$> uri_decode rest'
                   | None => None
                   end
               | _ => None
               end
      end
  | c :: rest => cons c <$> uri_decode rest
  end.

Lemma uri_decode_encode_char c rest :
  uri_decode (encode_char c ++ rest) = cons c <$> uri_decode rest.
Proof. destruct c as [[] [] [] [] [] [] [] []]; reflexivity. Qed.

Lemma uri_decode_encode (l : list ascii) : uri_decode (flat_map encode_char l) = Some l.
Proof. induction l as [|c l IH]; [done|]. simpl. by rewrite uri_decode_encode_char, IH. Qed.

(** ** The address-bar patterns of TopBar.jsx *)

Fixpoint split_on (sep : ascii) (l : list ascii) : list (list ascii) :=
  match l with
  | [] => [[]]
  | c :: l' =>
      if bool_decide (c = sep) then [] :: split_on sep l'
      else match split_on sep l' with
           | w :: ws => (c :: w) :: ws
           | [] => [[c]]
           end
  end.

Definition is_line_terminator (c : ascii) : bool :=
  bool_decide (nat_of_ascii c = 10 \/ nat_of_ascii c = 13).

(** The optional path group of the patterns: a slash, then any code units
    but line terminators, up to the end. *)
Definition path_part_ok (p : list ascii) : bool :=
  match p with
  | [] => true
  | c :: r => bool_decide (c = "/"%char) && forallb (fun x => negb (is_line_terminator x)) r
  end.

(** [(:\d+)?] *)
Definition port_part_ok (p : list ascii) : bool :=
  match p with
  | [] => true
  | _ :: ds => bool_decide (ds <> []) && forallb is_digit ds
  end.

(** A whole pattern: [^], the host pattern [host_ok], the optional port
    group, the optional path group, [$].  The host patterns
    contain neither [/] nor [:], so the first [/] starts the path and the
    first [:] before it starts the port. *)
Definition host_port_path (host_ok : list ascii -> bool) (s : string) : bool :=
  let (hp, path) := Whatwg.split_when (fun c => bool_decide (c = "/"%char)) (list_ascii_of_string s) in
  let (h, port) := Whatwg.split_when (fun c => bool_decide (c = ":"%char)) hp in
  path_part_ok path && port_part_ok port && host_ok h.

Definition label_char (c : ascii) : bool := is_alpha c || is_digit c || bool_decide (c = "-"%char).

(** [([a-zA-Z0-9-]+\.)+[a-zA-Z]{2,}] *)
Definition domain_host (h : list ascii) : bool :=
  match rev (split_on "." h) with
  | tld :: ((_ :: _) as labels) =>
      (2 <=? length tld) && forallb is_alpha tld &&
      forallb (fun lab => bool_decide (lab <> []) && forallb label_char lab) labels
  | _ => false
  end.

(** [localhost] *)
Definition localhost_host (h : list ascii) : bool := bool_decide (h = list_ascii_of_string "localhost").

(** [\d{1,3}\.\d{1,3}\.\d{1,3}\.\d{1,3}] *)
Definition ip_host (h : list ascii) : bool :=
  match split_on "." h with
  | [_; _; _; _] as parts =>
      forallb (fun p => (1 <=? length p) && (length p <=? 3) && forallb is_digit p) parts
  | _ => false
  end.

(** [isDomainLike] (TopBar.jsx lines 43-45). *)
Definition isDomainLike (s : string) : bool :=
  host_port_path domain_host s || host_port_path localhost_host s || host_port_path ip_host s.

(** [/^\d+\./.test(url)] (TopBar.jsx line 51). *)
Definition starts_digits_dot (s : string) : bool :=
  let (ds, rest) := Whatwg.split_when (fun c => negb (is_digit c)) (list_ascii_of_string s) in
  bool_decide (ds <> []) && match rest with c :: _ => bool_decide (c = "."%char) | [] => false end.
