(* ===== verification/Navigation.v ===== *)
(** * Navigation: address resolution and [smartNavigate]

    - [resolveInput]: what TopBar.jsx's [handleKeyDown] (lines 36-68)
      navigates to when Enter is pressed: the trimmed input as is when
      [new URL] accepts it, [https://] or [http://] in front of a
      domain-like input, otherwise a search-engine query.
    - [newTabResolve]: the search box of NewTab.jsx ([handleSearch], lines
      7-22), which applies a different policy.
    - [normalize] and [smartNavigate] of App.jsx (lines 123-149): singleton
      navigation activates an open tab with the same normalised URL; other
      navigation reuses the active tab when it shows the New Tab page and
      opens a tab otherwise.
    Every definition is parametric in the [UrlApi] instance; the scenario
    theorems use the [whatwg] model.  [app_step] extends the registry's
    transition system with [smartNavigate] and the address bar. *)

From S2P Require Import Prelude History Bookmarks Tabs Url.

Module Navigation.

Definition default_engine : string := "https://www.google.com/search?q=".

Section WithUrl.
Context `{UrlApi}.

(** TopBar [handleKeyDown] on Enter: [None] when the trimmed input is
    empty (the early [return]), else the URL passed on. *)
Definition resolveInput (searchEngine url : string) : option string :=
  let finalUrl := trim url in
  if String.eqb finalUrl "" then None
  else if validateUrl finalUrl then Some finalUrl
  else if isDomainLike finalUrl then
    let f := "http://" +:+ finalUrl in
    if negb (includes f "localhost") && negb (starts_digits_dot url)
    then Some ("https://" +:+ strip_prefix "http://" f)
    else Some f
  else Some ((searchEngine || default_engine)%js +:+ encodeURIComponent finalUrl).

(** [/^https?:\/\//i]. *)
Definition starts_http_ci (s : string) : bool :=
  startsWith (toLowerCase s) "http://" || startsWith (toLowerCase s) "https://".

(** NewTab [handleSearch]. *)
Definition newTabResolve (searchEngine query : string) : option string :=
  let url := trim query in
  if String.eqb url "" then None
  else if starts_http_ci url then Some url
  else if includes url "." && negb (includes url " ") then Some ("https://" +:+ url)
  else Some ((searchEngine || default_engine)%js +:+ encodeURIComponent url).

(** [normalize] inside [smartNavigate] (lines 126-132). *)
Definition normalize (u : string) : string :=
  if negb (js_truthy u) then ""
  else match url_parse u with
       | Some p => replace_first (hostname p) "www." "" +:+ strip_trailing_slash (pathname p)
       | None => strip_trailing_slash (strip_http_scheme u)
       end.

(** The first tab whose normalised URL equals the target's. *)
Definition find_singleton (u : string) (l : list App.tab) : option App.tab :=
  List.find (fun t => String.eqb (normalize (App.url t)) (normalize u)) l.

(** [smartNavigate(url, title, { singleton })]; [nid] is the id [addTab]
    would draw.  The in-place navigation calls [updateTab] with
    [isLoading = true], which never writes history. *)
Definition smartNavigate (u title : string) (singleton : bool) (nid : string)
    (s : App.state) : App.state :=
  match (if singleton then find_singleton u (App.tabs s) else None) with
  | Some t => App.setActiveTab (App.id t) s
  | None =>
      match App.active s with
      | Some cur =>
          if String.eqb (App.url cur) App.newtab_url || String.eqb (App.url cur) ""
          then App.updateTab u (title || u)%js true None "" "" s
          else App.addTab u title false nid s
      | None => App.addTab u title false nid s
      end
  end.

(** Enter in the address bar: [addTab(finalUrl, finalUrl)] without an
    active tab, [onNavigate(finalUrl)] with one; App binds both to
    [smartNavigate] (lines 269 and 271). *)
Definition addressBarEnter (homepage searchEngine input : string) (nid : string)
    (s : App.state) : App.state :=
  match resolveInput searchEngine input with
  | None => s
  | Some f =>
      match App.active s with
      | None => smartNavigate (f || (if String.eqb homepage App.newtab_url then App.newtab_url
                                     else homepage))%js f false nid s
      | Some _ => smartNavigate f f false nid s
      end
  end.

(** ** Lemmas *)

Lemma is_blank_tab_spec (t : App.tab) :
  (String.eqb (App.url t) App.newtab_url || String.eqb (App.url t) "") = true <->
  App.url t = App.newtab_url \/ App.url t = "".
Proof. rewrite orb_true_iff, !String.eqb_eq. done. Qed.

(** [smartNavigate] keeps the invariant of a settled registry when the id
    it draws is fresh, and schedules no callback. *)
Lemma inv_smartNavigate u t sg nid s :
  App.settled s -> ~ In nid (App.ids (App.tabs s)) -> nid <> "" -> App.settled (smartNavigate u t sg nid s).
Proof.
  intros Hi Hf Hn. unfold smartNavigate.
  destruct (if sg then find_singleton u (App.tabs s) else None) as [x|] eqn:E.
  - apply App.inv_setActiveTab; [done|]. apply App.in_ids.
    destruct sg; [|done]. unfold find_singleton in E. by apply find_some in E as [? _].
  - destruct (App.active s) as [cur|];
      [destruct (_ || _); [apply App.inv_updateTab|apply App.inv_addTab]|apply App.inv_addTab]; done.
Qed.

Lemma timers_smartNavigate u t sg nid s : App.timers (smartNavigate u t sg nid s) = App.timers s.
Proof. unfold smartNavigate. by repeat case_match. Qed.

Lemma timers_addressBarEnter hp e x nid s : App.timers (addressBarEnter hp e x nid s) = App.timers s.
Proof. unfold addressBarEnter. repeat case_match; by rewrite ?timers_smartNavigate. Qed.

(** The handlers of the application: the registry's, [smartNavigate] as
    the bookmarks bar, sidebar, New Tab page and toolbar buttons call it,
    and Enter in the address bar, each while no callback is pending. *)
Inductive app_step : App.state -> App.state -> Prop :=
  | app_registry s s' : App.step s s' -> app_step s s'
  | app_navigate s u t sg nid :
      App.timers s = [] -> ~ In nid (App.ids (App.tabs s)) -> nid <> "" -> app_step s (smartNavigate u t sg nid s)
  | app_address s hp e x nid :
      App.timers s = [] -> ~ In nid (App.ids (App.tabs s)) -> nid <> "" -> app_step s (addressBarEnter hp e x nid s).

Lemma app_step_inv s s' : app_step s s' -> App.inv s -> App.inv s'.
Proof.
  destruct 1 as [s s' Hs|s u t sg nid He Hf Hn|s hp e x nid He Hf Hn].
  - by apply (App.step_inv s).
  - apply App.inv_settled_step; [done|by rewrite timers_smartNavigate|]. intros Hi. by apply inv_smartNavigate.
  - apply App.inv_settled_step; [done|by rewrite timers_addressBarEnter|]. intros Hi.
    unfold addressBarEnter. destruct (resolveInput e x); [|done].
    destruct (App.active s); by apply inv_smartNavigate.
Qed.

(** ** Theorems *)

(** C1: in every state the application reaches from its first render,
    through tab handlers, [smartNavigate], the address bar and the
    callbacks [closeTab] schedules, tab ids are distinct and non-empty and
    pinned tabs precede unpinned ones; with no callback pending the
    active pointer names a tab whenever there is one, and in the state
    rendered between closing a tab and its callback, where the pointer may
    still name the closed tab, the one pending callback names an open tab. *)
Theorem app_invariant h b s : star app_step (App.init h b) s -> App.inv s.
Proof. apply star_ind_inv; [apply app_step_inv|apply App.inv_init]. Qed.

(** C7: a singleton navigation to a URL whose normalised form matches an
    open tab opens nothing: the tab list is unchanged and a matching tab
    becomes active. *)
Theorem smartNavigate_singleton_focus u ti nid s :
  (exists t, In t (App.tabs s) /\ normalize (App.url t) = normalize u) ->
  App.tabs (smartNavigate u ti true nid s) = App.tabs s /\
  exists t, In t (App.tabs s) /\ normalize (App.url t) = normalize u /\
            App.activeTab (smartNavigate u ti true nid s) = Some (App.id t).
Proof.
  intros [t0 [Hin0 Heq0]]. unfold smartNavigate.
  destruct (find_singleton u (App.tabs s)) as [t|] eqn:E.
  - unfold find_singleton in E. apply find_some in E as [Hin Heq].
    split; [done|]. exists t. split; [done|]. split; [by apply String.eqb_eq|done].
  - unfold find_singleton in E. eapply find_none in E; [|exact Hin0].
    by rewrite Heq0, String.eqb_refl in E.
Qed.

(** a navigation while the active tab shows the New Tab page (or no
    URL) loads the target in that tab: no tab is added, the active tab
    takes the URL and the loading flag, and no history is written. *)
Theorem smartNavigate_reuses_blank u ti nid s cur :
  App.active s = Some cur -> (App.url cur = App.newtab_url \/ App.url cur = "") ->
  length (App.tabs (smartNavigate u ti false nid s)) = length (App.tabs s) /\
  App.active (smartNavigate u ti false nid s) = Some (App.merge_visit u (ti || u)%js true None cur) /\
  App.stored_history (smartNavigate u ti false nid s) = App.stored_history s.
Proof.
  intros Ha Hb. unfold smartNavigate. rewrite Ha.
  apply is_blank_tab_spec in Hb. rewrite Hb. simpl. split; [by rewrite length_map|split; [|done]].
  by apply App.active_updateTab.
Qed.

(** a navigation while the active tab shows a page (or with no active
    tab) appends a new tab with the target URL and activates it. *)
Theorem smartNavigate_opens_tab u ti nid s :
  (forall cur, App.active s = Some cur -> App.url cur <> App.newtab_url /\ App.url cur <> "") ->
  App.tabs (smartNavigate u ti false nid s) =
    App.tabs s ++ [App.mkTab nid (ti || "New Tab")%js u false false None] /\
  App.activeTab (smartNavigate u ti false nid s) = Some nid.
Proof.
  intros Hnb. unfold smartNavigate. destruct (App.active s) as [cur|] eqn:Ha; [|done].
  destruct (Hnb cur eq_refl) as [H1 H2].
  destruct (String.eqb_spec (App.url cur) App.newtab_url); [done|].
  by destruct (String.eqb_spec (App.url cur) "").
Qed.

(** C8: an input that [new URL] rejects and that is not domain-like goes
    to the search engine, URL-encoded, and the query is recovered from the
    URL by decoding: the encoding loses nothing. *)
Theorem search_roundtrip e x :
  trim x <> "" -> validateUrl (trim x) = false -> isDomainLike (trim x) = false ->
  exists q, resolveInput e x = Some ((e || default_engine)%js +:+ q) /\
            uri_decode (list_ascii_of_string q) = Some (list_ascii_of_string (trim x)).
Proof.
  intros Hne Hv Hd. exists (encodeURIComponent (trim x)). unfold resolveInput.
  destruct (String.eqb_spec (trim x) ""); [done|]. rewrite Hv, Hd. split; [done|].
  unfold encodeURIComponent. rewrite list_ascii_of_string_of_list_ascii. apply uri_decode_encode.
Qed.

(** C9: [normalize] deletes the first [www.] wherever it starts in the
    host, not only a leading one.  For any host [a ++ "www." ++ b] in which
    no [www.] starts earlier, and the host [a ++ b] with the same path, the
    two URLs normalise alike although their hosts differ, so a singleton
    navigation to the second focuses a tab showing the first instead of
    loading it.  With [a] non-empty these are unrelated sites. *)
Theorem singleton_www_confusion u v pu pv a b t R ti nid s :
  url_parse u = Some pu -> url_parse v = Some pv -> u <> "" -> v <> "" ->
  hostname pu = a +:+ "www." +:+ b -> hostname pv = a +:+ b -> pathname pu = pathname pv ->
  includes (a +:+ "www") "www." = false -> includes (a +:+ b) "www." = false ->
  App.tabs s = t :: R -> App.url t = u ->
  hostname pu <> hostname pv /\ normalize u = normalize v /\
  App.tabs (smartNavigate v ti true nid s) = App.tabs s /\
  App.activeTab (smartNavigate v ti true nid s) = Some (App.id t).
Proof.
  intros Hpu Hpv Hu Hv Hhu Hhv Hp Ha Hb Hs Ht.
  assert (Hn : normalize u = normalize v).
  { unfold normalize. apply js_truthy_true in Hu, Hv. rewrite Hu, Hv, Hpu, Hpv, Hhu, Hhv, Hp.
    simpl. by rewrite replace_first_www, replace_first_absent. }
  split; [|split; [done|]].
  - rewrite Hhu, Hhv. intros E. apply string_app_inv_l, (f_equal String.length) in E.
    rewrite string_app_length in E. simpl in E. lia.
  - unfold smartNavigate, find_singleton. rewrite Hs. simpl. by rewrite Ht, Hn, String.eqb_refl.
Qed.

End WithUrl.

(** ** Scenarios under the WHATWG model of [new URL] *)

(** the address bar sends [example.com] to [https://example.com] and
    [how to bake bread] to the search engine as [how%20to%20bake%20bread]. *)
Theorem resolveInput_scenarios e :
  resolveInput e "example.com" = Some "https://example.com" /\
  resolveInput e "how to bake bread" = Some ((e || default_engine)%js +:+ "how%20to%20bake%20bread").
Proof. split; reflexivity. Qed.

(** [localhost:3000/app] is a valid URL with scheme [localhost:] for
    [new URL], so the address bar passes it on unchanged instead of
    prefixing [http://]; the bare [localhost] does get [http://]. *)
Theorem resolveInput_localhost_port e :
  resolveInput e "localhost:3000/app" = Some "localhost:3000/app" /\
  resolveInput e "localhost" = Some "http://localhost".
Proof. split; reflexivity. Qed.

(** the New Tab search box and the address bar disagree: the same
    input [localhost:3000] is a web search in one and a URL in the other. *)
Theorem newTab_vs_addressBar e :
  newTabResolve e "localhost:3000" = Some ((e || default_engine)%js +:+ "localhost%3A3000") /\
  resolveInput e "localhost:3000" = Some "localhost:3000".
Proof. split; reflexivity. Qed.

(** [normalize] is not idempotent: one trailing slash is dropped per
    application, so [http://a.com//] normalises to [a.com/] and then to
    [a.com]. *)
Theorem normalize_not_idempotent :
  normalize "http://a.com//" = "a.com/" /\ normalize (normalize "http://a.com//") = "a.com".
Proof. split; reflexivity. Qed.

Definition www_state : App.state :=
  App.mkState [App.mkTab "t1" "A" "http://awww.b.com/" false false None;
               App.mkTab "t2" "N" App.newtab_url false false None] (Some "t2") [] [] [] [].

(** ** Witnesses *)

Lemma app_invariant_witness :
  App.inv (smartNavigate "https://b.com" "B" false "b" (App.mount "a" (App.init [] []))).
Proof.
  apply (app_invariant [] []).
  apply (star_step _ _ (App.mount "a" (App.init [] []))).
  - apply star_one, app_registry, App.step_mount; [reflexivity|reflexivity|discriminate].
  - apply app_navigate; [reflexivity|simpl; intros [H|[]]; discriminate|discriminate].
Defined.

Lemma smartNavigate_singleton_focus_witness :
  App.tabs (smartNavigate "http://ab.com" "" true "n" www_state) = App.tabs www_state /\
  exists t, In t (App.tabs www_state) /\ normalize (App.url t) = normalize "http://ab.com" /\
            App.activeTab (smartNavigate "http://ab.com" "" true "n" www_state) = Some (App.id t).
Proof.
  apply smartNavigate_singleton_focus.
  exists (App.mkTab "t1" "A" "http://awww.b.com/" false false None). split; [left; reflexivity|reflexivity].
Defined.

Lemma smartNavigate_reuses_blank_witness :
  length (App.tabs (smartNavigate "https://c.com" "" false "n" www_state)) = length (App.tabs www_state) /\
  App.active (smartNavigate "https://c.com" "" false "n" www_state) =
    Some (App.merge_visit "https://c.com" ("" || "https://c.com")%js true None
            (App.mkTab "t2" "N" App.newtab_url false false None)) /\
  App.stored_history (smartNavigate "https://c.com" "" false "n" www_state) = App.stored_history www_state.
Proof. apply smartNavigate_reuses_blank; [reflexivity|by left]. Defined.

Lemma smartNavigate_opens_tab_witness :
  App.tabs (smartNavigate "https://c.com" "C" false "n" (App.setActiveTab "t1" www_state)) =
    App.tabs (App.setActiveTab "t1" www_state) ++
      [App.mkTab "n" ("C" || "New Tab")%js "https://c.com" false false None] /\
  App.activeTab (smartNavigate "https://c.com" "C" false "n" (App.setActiveTab "t1" www_state)) = Some "n".
Proof.
  apply smartNavigate_opens_tab. intros cur Hc. vm_compute in Hc. injection Hc as <-.
  split; discriminate.
Defined.

Lemma search_roundtrip_witness :
  exists q, resolveInput "" "how to bake bread" = Some (("" || default_engine)%js +:+ q) /\
            uri_decode (list_ascii_of_string q) = Some (list_ascii_of_string (trim "how to bake bread")).
Proof. apply search_roundtrip; [discriminate|reflexivity|reflexivity]. Defined.

Lemma singleton_www_confusion_witness :
  hostname (mkUrlParts "http:" "awww.b.com" "/") <> hostname (mkUrlParts "http:" "ab.com" "/") /\
  normalize "http://awww.b.com/" = normalize "http://ab.com" /\
  App.tabs (smartNavigate "http://ab.com" "http://ab.com" true "n" www_state) = App.tabs www_state /\
  App.activeTab (smartNavigate "http://ab.com" "http://ab.com" true "n" www_state) = Some "t1".
Proof.
  apply (singleton_www_confusion _ _ _ _ "a" "b.com" (App.mkTab "t1" "A" "http://awww.b.com/" false false None)
           [App.mkTab "t2" "N" App.newtab_url false false None]);
    first [reflexivity | discriminate].
Defined.

End Navigation.
