(* ===== verification/Coordinator.v ===== *)
(** * Coordinator: the webview event handlers of BrowserWindow.jsx

    BrowserWindow renders the active tab: an internal page for
    [browser://] URLs, otherwise a [<webview>] with an error overlay.  A
    [useEffect] with an empty dependency list (lines 87-203) is meant to
    bind eight listeners to the webview; it runs once, after the first
    commit, and returns early when no webview is rendered.  BrowserWindow
    mounts in App's first render, when there is no tab yet (App's own mount
    effect, which runs after its children's, creates the first one), so
    the effect finds no webview and the listeners are never bound
    ([first_commit], [bw_step], [listeners_never_bound]).  The handlers
    are modelled as written: they would read the latest tab through
    [tabRef] and report through [onVisit] (App's [updateTab]).  Values they use from the closure ([zoomLevel],
    [adBlockEnabled]) are the ones of that first render.

    Here a handler is a function from the event, the tab [tabRef] holds,
    the webview and the current error to its [effects]: the new [error]
    state, the [onVisit] calls and the webview commands, in order.  A
    webview method that throws (any of them before [dom-ready]) aborts the
    handler unless a [try] catches it; the effects issued before it stay.
    [deliver] composes a handler with [App.updateTab].  Also modelled: the
    mount-once binding, the page chosen for a URL, the title polling
    interval (lines 205-227), the internal page titles (lines 230-239), the
    toolbar events (lines 56-85) and the Retry button. *)

From S2P Require Import Prelude History Bookmarks Tabs.

Module Coordinator.

(** The webview as the handlers observe it. *)
Record webview := mkWebview {
  attached : bool;        (** [dom-ready] has fired: its methods do not throw *)
  wv_url : string;        (** [getURL()] *)
  wv_title : string;      (** [getTitle()] *)
  canGoBack : bool;
  canGoForward : bool
}.

Inductive wv_event :=
  | DidStartLoading
  | DidStopLoading
  | PageFaviconUpdated (favicons : list string)
  | DidFailLoad (errorCode : Z) (errorDescription validatedURL : string)
  | DidNavigate (url : string)
  | DidNavigateInPage (url : string)
  | DidGetResponseDetails (httpResponseCode : Z) (resourceType newURL originalURL statusText : string)
  | DomReady.

(** The [error] state: [{ description, code, url }]. *)
Record page_error := mkError { code : Z; description : string; err_url : string }.

Inductive command :=
  | SetZoomFactor (z : Z)
  | InsertCSS
  | ExecuteJavaScript (script : string)
  | GoBack | GoForward | Reload.

(** An [onVisit(url, title, isLoading, favicon)] call. *)
Record visit := mkVisit { v_url : string; v_title : string; v_loading : bool; v_favicon : option string }.

Record effects := mkEffects { e_error : option page_error; e_visits : list visit; e_cmds : list command }.

(** What the listeners captured at mount. *)
Record binding := mkBinding { b_zoom : Z; b_adblock : bool }.

(** The reserved "aborted by a new navigation" code, [ERR_ABORTED]. *)
Definition ERR_ABORTED : Z := -3.

(** The content script, as an opaque string. *)
Definition AD_BLOCKER_SCRIPT : string := "AD_BLOCKER_SCRIPT".

Definition tab_favicon (tab : option App.tab) : option string :=
  match tab with Some t => App.favicon t | None => None end.

(** [handleDidStartLoading] (lines 91-97). *)
Definition handleDidStartLoading (tab : option App.tab) : effects :=
  mkEffects None
    (match tab with
     | Some t => if js_truthy (App.url t) then [mkVisit (App.url t) (App.title t) true (App.favicon t)] else []
     | None => []
     end) [].

(** [handleDidStopLoading] (lines 99-110): the URL and title are read from
    the webview; the whole body is in a [try]. *)
Definition handleDidStopLoading (b : binding) (tab : option App.tab) (wv : webview)
    (err : option page_error) : effects :=
  if negb (attached wv) then mkEffects err [] []
  else mkEffects err
         (if js_truthy (wv_url wv) then [mkVisit (wv_url wv) (wv_title wv) false (tab_favicon tab)] else [])
         [SetZoomFactor (b_zoom b)].

(** [handlePageFaviconUpdated] (lines 112-116). *)
Definition handlePageFaviconUpdated (tab : option App.tab) (favicons : list string)
    (err : option page_error) : effects :=
  mkEffects err
    (match tab with
     | Some t => [mkVisit (App.url t) (App.title t) false (head favicons)]
     | None => []
     end) [].

(** [handleDidFailLoad] (lines 118-131). *)
Definition handleDidFailLoad (tab : option App.tab) (c : Z) (desc vurl : string)
    (err : option page_error) : effects :=
  if bool_decide (c = ERR_ABORTED) then mkEffects err [] []
  else mkEffects (Some (mkError c desc vurl))
         (match tab with
          | Some t => [mkVisit vurl "Error loading page" false (App.favicon t)]
          | None => []
          end) [].

(** [handleDidNavigate] and [handleDidNavigateInPage] (lines 133-143):
    [getTitle()] throws before [dom-ready], outside any [try]. *)
Definition handleNavigate (loading : bool) (tab : option App.tab) (wv : webview) (u : string)
    (err : option page_error) : effects :=
  if js_truthy u && attached wv
  then mkEffects err [mkVisit u (wv_title wv) loading (tab_favicon tab)] []
  else mkEffects err [] [].

(** [handleDidGetResponseDetails] (lines 145-159). *)
Definition handleDidGetResponseDetails (tab : option App.tab) (c : Z) (rtype newURL origURL statusText : string)
    (err : option page_error) : effects :=
  match tab with
  | Some t =>
      if bool_decide (400 <= c)%Z then
        let isMainFrame := includes (toLowerCase rtype) "main" in
        let isTabUrl := String.eqb newURL (App.url t) || String.eqb origURL (App.url t) in
        if isMainFrame || isTabUrl
        then mkEffects (Some (mkError c (statusText || "HTTP Error")%js (newURL || App.url t)%js)) [] []
        else mkEffects err [] []
      else mkEffects err [] []
  | None => mkEffects err [] []
  end.

(** [handleDomReady] (lines 161-176): the script injection's rejection is
    caught and logged, so the command is issued and nothing else follows. *)
Definition handleDomReady (b : binding) (err : option page_error) : effects :=
  mkEffects err []
    ([InsertCSS; SetZoomFactor (b_zoom b)] ++
     (if b_adblock b then [ExecuteJavaScript AD_BLOCKER_SCRIPT] else [])).

Definition handle (b : binding) (tab : option App.tab) (wv : webview) (err : option page_error)
    (ev : wv_event) : effects :=
  match ev with
  | DidStartLoading => handleDidStartLoading tab
  | DidStopLoading => handleDidStopLoading b tab wv err
  | PageFaviconUpdated fs => handlePageFaviconUpdated tab fs err
  | DidFailLoad c d u => handleDidFailLoad tab c d u err
  | DidNavigate u => handleNavigate true tab wv u err
  | DidNavigateInPage u => handleNavigate false tab wv u err
  | DidGetResponseDetails c r n o st => handleDidGetResponseDetails tab c r n o st err
  | DomReady => handleDomReady b err
  end.

(** ** The component *)

Record bw_state := mkBW {
  bound : option binding;     (** listeners attached at mount, with what they captured *)
  error : option page_error;
  showFind : bool
}.

(** What the render shows for the active tab (lines 241-328). *)
Inductive page :=
  | NoPage
  | NewTabPage | SettingsPage | HistoryPage | DownloadsPage
  | NotFoundPage (u : string)
  | WebPage (u : string) (overlay : option page_error).

Definition page_of (tab : option App.tab) (err : option page_error) : page :=
  match tab with
  | None => NoPage
  | Some t =>
      let u := App.url t in
      if negb (js_truthy u) then NoPage
      else if startsWith u "browser://" then
        if String.eqb u "browser://newtab" then NewTabPage
        else if String.eqb u "browser://settings" then SettingsPage
        else if String.eqb u "browser://history" then HistoryPage
        else if String.eqb u "browser://downloads" then DownloadsPage
        else NotFoundPage u
      else WebPage u err
  end.

(** [webviewRef.current] is set exactly when a [<webview>] is rendered. *)
Definition webview_rendered (tab : option App.tab) : bool :=
  match page_of tab None with WebPage _ _ => true | _ => false end.

(** Mounting BrowserWindow: the empty-dependency effect runs once after
    the first commit and returns early when there is no webview. *)
Definition mount (tab_at_mount : option App.tab) (zoomLevel : Z) (adBlockEnabled : bool) : bw_state :=
  mkBW (if webview_rendered tab_at_mount then Some (mkBinding zoomLevel adBlockEnabled) else None)
       None false.

(** The [onVisit] calls of one handler, applied to App ([hid], [ts]: the
    id and timestamp [addEntry] would draw). *)
Definition apply_visits (hid ts : string) (vs : list visit) (s : App.state) : App.state :=
  fold_left (fun s v => App.updateTab (v_url v) (v_title v) (v_loading v) (v_favicon v) hid ts s) vs s.

(** A webview event reaching BrowserWindow: unbound listeners see nothing. *)
Definition deliver (hid ts : string) (wv : webview) (ev : wv_event) (bw : bw_state) (s : App.state)
    : bw_state * App.state * list command :=
  match bound bw with
  | None => (bw, s, [])
  | Some b =>
      let e := handle b (App.active s) wv (error bw) ev in
      (mkBW (bound bw) (e_error e) (showFind bw), apply_visits hid ts (e_visits e) s, e_cmds e)
  end.

(** The toolbar's window events (lines 56-85). *)
Inductive ui_event := BrowserGoBack | BrowserGoForward | BrowserReload | BrowserFind.

Definition handle_ui (wv : option webview) (ev : ui_event) (bw : bw_state) : bw_state * list command :=
  match ev with
  | BrowserGoBack => (bw, match wv with Some w => if canGoBack w then [GoBack] else [] | None => [] end)
  | BrowserGoForward => (bw, match wv with Some w => if canGoForward w then [GoForward] else [] | None => [] end)
  | BrowserReload => (bw, match wv with Some _ => [Reload] | None => [] end)
  | BrowserFind => (mkBW (bound bw) (error bw) (negb (showFind bw)), [])
  end.

(** The Retry button of the error overlay (lines 300-306). *)
Definition retry (wv : option webview) (bw : bw_state) : bw_state * list command :=
  match wv with
  | Some _ => (mkBW (bound bw) None (showFind bw), [Reload])
  | None => (bw, [])
  end.

(** The zoom effect (lines 48-53): a new [zoomLevel] is applied at once. *)
Definition zoom_effect (wv : option webview) (zoomLevel : Z) : list command :=
  match wv with Some _ => [SetZoomFactor zoomLevel] | None => [] end.

(** The internal page titles effect (lines 230-239). *)
Definition internal_title (tab : option App.tab) : option visit :=
  match tab with
  | None => None
  | Some t =>
      let u := App.url t in
      if String.eqb u "browser://settings" && negb (String.eqb (App.title t) "Settings")
      then Some (mkVisit u "Settings" false None)
      else if String.eqb u "browser://history" && negb (String.eqb (App.title t) "History")
      then Some (mkVisit u "History" false None)
      else if String.eqb u "browser://downloads" && negb (String.eqb (App.title t) "Downloads")
      then Some (mkVisit u "Downloads" false None)
      else None
  end.

(** The title polling interval (lines 205-227), started for the tab
    object of a render when a webview exists.  At tick [k] (every 100 ms)
    it reads [getTitle()] ([titles k]; [None] when it throws, which leaves
    the interval running); at the first title different from the tab's it
    calls [onVisit] and clears itself.  [poll fuel k] looks at the ticks
    from [k] on, [fuel] of them, and says how the interval stands after
    them: it fired (and was cleared), it was cleared without firing (a
    path the code does not have: only the effect's cleanup, on a new
    [tab], clears it otherwise), or it is still set. *)
Inductive poll_status :=
  | Fired (k : nat) (v : visit)
  | Cleared (k : nat)
  | Running (k : nat).

Fixpoint poll (fuel k : nat) (t : App.tab) (titles : nat -> option string) : poll_status :=
  match fuel with
  | 0 => Running k
  | S f =>
      match titles k with
      | Some ti => if String.eqb (App.title t) ti then poll f (S k) t titles
                   else Fired k (mkVisit (App.url t) ti false (App.favicon t))
      | None => poll f (S k) t titles
      end
  end.

(** [None]: no interval is started (no tab, or no webview). *)
Definition title_poll (tab : option App.tab) (titles : nat -> option string) (fuel : nat)
    : option poll_status :=
  match tab with
  | Some t => if webview_rendered tab then Some (poll fuel 0 t titles) else None
  | None => None
  end.

(** React runs a component's effects after its children's: in App's
    first commit BrowserWindow's mount-once effect runs before App's mount
    effect creates the first tab (App.jsx lines 28-41).  BrowserWindow is
    rendered by every render of App (App.jsx line 292), so it is never
    mounted again, and its effect, with no dependencies, never runs again. *)
Definition first_commit (h : list HistoryManager.entry) (bk : list BookmarksManager.bookmark) (nid : string)
    (zoomLevel : Z) (adBlockEnabled : bool) : bw_state * App.state :=
  (mount (App.active (App.init h bk)) zoomLevel adBlockEnabled, App.mount nid (App.init h bk)).

(** After the first commit: App changes its state in any way (BrowserWindow
    re-renders and keeps its listeners), or the webview fires an event. *)
Inductive bw_step : bw_state * App.state -> bw_state * App.state -> Prop :=
  | bw_app bw s s' : bw_step (bw, s) (bw, s')
  | bw_event bw s hid ts wv ev :
      bw_step (bw, s) ((deliver hid ts wv ev bw s).1.1, (deliver hid ts wv ev bw s).1.2).

(** ** Lemmas *)

Lemma mkBW_eta bw : mkBW (bound bw) (error bw) (showFind bw) = bw.
Proof. by destruct bw. Qed.

Lemma deliver_bound hid ts wv ev bw s b :
  bound bw = Some b ->
  deliver hid ts wv ev bw s =
    (mkBW (bound bw) (e_error (handle b (App.active s) wv (error bw) ev)) (showFind bw),
     apply_visits hid ts (e_visits (handle b (App.active s) wv (error bw) ev)) s,
     e_cmds (handle b (App.active s) wv (error bw) ev)).
Proof. intros Hb. unfold deliver. by rewrite Hb. Qed.

(** A handler with no visits, no commands and the old error changes nothing. *)
Lemma deliver_quiet hid ts wv ev bw s :
  (forall b, bound bw = Some b -> handle b (App.active s) wv (error bw) ev = mkEffects (error bw) [] []) ->
  deliver hid ts wv ev bw s = (bw, s, []).
Proof.
  intros H. unfold deliver. destruct (bound bw) as [b|] eqn:Hb; [|done].
  rewrite (H b eq_refl). simpl. by rewrite <- Hb, mkBW_eta.
Qed.

Lemma apply_one hid ts v s :
  apply_visits hid ts [v] s = App.updateTab (v_url v) (v_title v) (v_loading v) (v_favicon v) hid ts s.
Proof. reflexivity. Qed.

Lemma history_of_updateTab u t l f hid ts s :
  App.stored_history (App.updateTab u t l f hid ts s) =
    if negb l && js_truthy u && js_truthy t && negb (startsWith u "browser://")
    then HistoryManager.addEntry t u f hid ts (App.stored_history s) else App.stored_history s.
Proof. reflexivity. Qed.

(** A run of webview events. *)
Definition run (evs : list (string * string * webview * wv_event)) (bw : bw_state) (s : App.state)
    : bw_state * App.state * list command :=
  fold_left (fun acc x =>
    let '(bw, s, cmds) := acc in
    let '(hid, ts, wv, ev) := x in
    let '(bw', s', cmds') := deliver hid ts wv ev bw s in (bw', s', cmds ++ cmds'))
    evs (bw, s, []).

Lemma run_unbound evs bw s : bound bw = None -> run evs bw s = (bw, s, []).
Proof.
  destruct bw as [bnd er sf]. simpl. intros ->. unfold run. generalize (@nil command) as cmds.
  induction evs as [|[[[hid ts] wv] ev] evs IH]; intros cmds; simpl; [done|].
  rewrite app_nil_r. apply IH.
Qed.

Lemma poll_from fuel k n t titles ti :
  k <= n -> n < k + fuel ->
  (forall j, k <= j < n -> titles j = None \/ titles j = Some (App.title t)) ->
  titles n = Some ti -> ti <> App.title t ->
  poll fuel k t titles = Fired n (mkVisit (App.url t) ti false (App.favicon t)).
Proof.
  revert k. induction fuel as [|f IH]; intros k Hk Hf Hbefore Hn Hti; [lia|]. simpl.
  destruct (decide (k = n)) as [->|Hne].
  - rewrite Hn. by destruct (String.eqb_spec (App.title t) ti) as [<-|].
  - destruct (Hbefore k ltac:(lia)) as [-> | ->].
    + apply IH; [lia|lia|intros j Hj; apply Hbefore; lia|done|done].
    + rewrite String.eqb_refl. apply IH; [lia|lia|intros j Hj; apply Hbefore; lia|done|done].
Qed.

(** ** Theorems *)

(** C10: a load failure with the reserved code [-3] (aborted by a new
    navigation) sets no error, calls no [onVisit] and so writes no history. *)
Theorem aborted_load_ignored hid ts wv d u bw s :
  deliver hid ts wv (DidFailLoad ERR_ABORTED d u) bw s = (bw, s, []).
Proof. apply deliver_quiet. intros b _. reflexivity. Qed.

(** an HTTP status of 400 or more on a subresource (resource type
    without [main], URLs other than the tab's) changes nothing, while the
    same status on the main frame sets the page error. *)
Theorem http_error_main_frame_only hid ts wv c rtype newURL origURL st bw s t b :
  bound bw = Some b -> App.active s = Some t -> (400 <= c)%Z ->
  newURL <> App.url t -> origURL <> App.url t ->
  (includes (toLowerCase rtype) "main" = false ->
     deliver hid ts wv (DidGetResponseDetails c rtype newURL origURL st) bw s = (bw, s, [])) /\
  (includes (toLowerCase rtype) "main" = true ->
     error (fst (fst (deliver hid ts wv (DidGetResponseDetails c rtype newURL origURL st) bw s)))
       = Some (mkError c (st || "HTTP Error")%js (newURL || App.url t)%js)).
Proof.
  intros Hb Ha Hc Hn Ho. split.
  - intros Hm. apply deliver_quiet. intros b' _. unfold handle, handleDidGetResponseDetails.
    rewrite Ha, bool_decide_true, Hm by done. by case_streq.
  - intros Hm. rewrite (deliver_bound _ _ _ _ _ _ b Hb). unfold handle, handleDidGetResponseDetails.
    rewrite Ha, bool_decide_true, Hm by done. reflexivity.
Qed.

(** a load failure other than [-3] sets the error overlay and, through
    [onVisit(validatedURL, "Error loading page", false, ...)], records a
    history entry titled "Error loading page" for the failed URL. *)
Theorem failed_load_records_history hid ts wv c d u bw s t b :
  bound bw = Some b -> App.active s = Some t -> c <> ERR_ABORTED ->
  HistoryManager.recordable u ->
  (forall e, head (App.stored_history s) = Some e -> HistoryManager.url e <> u) ->
  error (fst (fst (deliver hid ts wv (DidFailLoad c d u) bw s))) = Some (mkError c d u) /\
  App.stored_history (snd (fst (deliver hid ts wv (DidFailLoad c d u) bw s))) =
    take HistoryManager.cap
      (HistoryManager.mkEntry hid "Error loading page" u (App.favicon t) ts :: App.stored_history s).
Proof.
  intros Hb Ha Hc [Hu Hi] Hh. rewrite (deliver_bound _ _ _ _ _ _ b Hb).
  unfold handle, handleDidFailLoad. rewrite bool_decide_false by done. rewrite Ha.
  cbn [fst snd e_error e_visits error]. split; [done|].
  rewrite apply_one, history_of_updateTab. cbn [v_url v_title v_loading v_favicon].
  assert (Hs : startsWith u "browser://" = false) by exact Hi.
  apply js_truthy_true in Hu. rewrite Hu, Hs. simpl.
  rewrite HistoryManager.addEntry_record; [done|split; [by apply js_truthy_true|done]|exact Hh].
Qed.

(** at [did-stop-loading] the URL and title are read from the webview,
    not from the event: the active tab takes the webview's URL and (when
    non-empty) its title, stops loading, the finished load is recorded in
    history when the title is non-empty and the URL not internal, and the
    zoom captured at mount is re-applied. *)
Theorem stop_loading_commits hid ts wv bw s cur b :
  bound bw = Some b -> attached wv = true -> wv_url wv <> "" -> App.active s = Some cur ->
  App.active (snd (fst (deliver hid ts wv DidStopLoading bw s))) =
    Some (App.mkTab (App.id cur) (wv_title wv || App.title cur)%js (wv_url wv) (App.isPinned cur)
            false (App.favicon cur)) /\
  App.stored_history (snd (fst (deliver hid ts wv DidStopLoading bw s))) =
    (if js_truthy (wv_title wv) && negb (startsWith (wv_url wv) "browser://")
     then HistoryManager.addEntry (wv_title wv) (wv_url wv) (App.favicon cur) hid ts (App.stored_history s)
     else App.stored_history s) /\
  snd (deliver hid ts wv DidStopLoading bw s) = [SetZoomFactor (b_zoom b)].
Proof.
  intros Hb Hatt Hu Ha. rewrite (deliver_bound _ _ _ _ _ _ b Hb).
  unfold handle, handleDidStopLoading. rewrite Hatt, Ha. apply js_truthy_true in Hu. rewrite Hu.
  cbn [fst snd e_visits e_cmds negb]. rewrite apply_one. cbn [v_url v_title v_loading v_favicon tab_favicon].
  split; [|split; [|done]].
  - rewrite (App.active_updateTab _ _ _ _ _ _ _ cur Ha). unfold App.merge_visit.
    rewrite (js_or_nonempty (wv_url wv)) by (by apply js_truthy_true).
    unfold js_or_opt. by destruct (App.favicon cur) as [f|]; [case_streq|].
  - rewrite history_of_updateTab, Hu. reflexivity.
Qed.

(** a favicon update calls [onVisit] with [isLoading = false]: a
    favicon that arrives while the page is still loading clears the tab's
    loading flag and records the unfinished load in history. *)
Theorem favicon_update_ends_loading hid ts wv fs bw s cur b :
  bound bw = Some b -> App.active s = Some cur ->
  App.active (snd (fst (deliver hid ts wv (PageFaviconUpdated fs) bw s))) =
    Some (App.merge_visit (App.url cur) (App.title cur) false (head fs) cur) /\
  App.isLoading (App.merge_visit (App.url cur) (App.title cur) false (head fs) cur) = false /\
  App.stored_history (snd (fst (deliver hid ts wv (PageFaviconUpdated fs) bw s))) =
    (if js_truthy (App.url cur) && js_truthy (App.title cur) && negb (startsWith (App.url cur) "browser://")
     then HistoryManager.addEntry (App.title cur) (App.url cur) (head fs) hid ts (App.stored_history s)
     else App.stored_history s).
Proof.
  intros Hb Ha. rewrite (deliver_bound _ _ _ _ _ _ b Hb).
  unfold handle, handlePageFaviconUpdated. rewrite Ha. cbn [fst snd e_visits].
  rewrite apply_one. cbn [v_url v_title v_loading v_favicon].
  split; [by apply App.active_updateTab|split; [done|]]. by rewrite history_of_updateTab.
Qed.

(** Unbound listeners stay unbound whatever App and the webview do. *)
Lemma bw_step_unbound x y : bw_step x y -> bound x.1 = None -> bound y.1 = None.
Proof. destruct 1 as [bw s s'|bw s hid ts wv ev]; simpl; [done|]. intros Hb. unfold deliver. by rewrite Hb. Qed.

(** C11: BrowserWindow's mount-once effect runs in App's first commit,
    before App's mount effect (React runs children's effects first), when
    App has no tab and so no webview is rendered; had it run after, the
    first tab is the internal New Tab page, which renders no webview
    either.  Its listeners are therefore never bound: in every state
    reached afterwards, whatever App does, no webview event changes the
    tabs, the history or the error state, or issues a command. *)
Theorem listeners_never_bound h bk nid z a x :
  star bw_step (first_commit h bk nid z a) x ->
  bound (mount (App.active (App.mount nid (App.init h bk))) z a) = None /\
  bound x.1 = None /\ (forall hid ts wv ev, deliver hid ts wv ev x.1 x.2 = (x.1, x.2, [])).
Proof.
  intros Hr. split; [unfold mount, App.active, App.find_tab; simpl; by rewrite String.eqb_refl|].
  assert (Hb : bound x.1 = None).
  { apply (star_ind_inv bw_step (fun y => bound y.1 = None) (first_commit h bk nid z a) x bw_step_unbound);
      [reflexivity|exact Hr]. }
  split; [done|]. intros hid ts wv ev. unfold deliver. rewrite Hb. by destruct x.
Qed.

(** a [browser://] URL never renders the webview (so no webview
    event or error overlay concerns it); the four reserved pages are
    selected by exact match and any other [browser://] URL shows the
    "Page Not Found" page, never an error state. *)
Theorem internal_pages t err :
  startsWith (App.url t) "browser://" = true ->
  webview_rendered (Some t) = false /\
  (page_of (Some t) err = NotFoundPage (App.url t) <->
   ~ In (App.url t) ["browser://newtab"; "browser://settings"; "browser://history"; "browser://downloads"]).
Proof.
  intros Hs. assert (Hne : js_truthy (App.url t) = true).
  { apply js_truthy_true. intros E. by rewrite E in Hs. }
  unfold webview_rendered, page_of. rewrite Hne, Hs. simpl.
  split; [by repeat case_match|].
  destruct (String.eqb_spec (App.url t) "browser://newtab") as [E|E1];
    [split; [discriminate|intros H; exfalso; apply H; rewrite E; simpl; tauto]|].
  destruct (String.eqb_spec (App.url t) "browser://settings") as [E|E2];
    [split; [discriminate|intros H; exfalso; apply H; rewrite E; simpl; tauto]|].
  destruct (String.eqb_spec (App.url t) "browser://history") as [E|E3];
    [split; [discriminate|intros H; exfalso; apply H; rewrite E; simpl; tauto]|].
  destruct (String.eqb_spec (App.url t) "browser://downloads") as [E|E4];
    [split; [discriminate|intros H; exfalso; apply H; rewrite E; simpl; tauto]|].
  split; [intros _|done]. simpl. intros [H|[H|[H|[H|[]]]]]; congruence.
Qed.

(** C12: the title poll calls [onVisit] at the first tick whose
    [getTitle()] differs from the tab's title, with that title, provided it
    runs long enough to reach that tick. *)
Theorem title_poll_first_change t titles n ti fuel :
  (forall j, j < n -> titles j = None \/ titles j = Some (App.title t)) ->
  titles n = Some ti -> ti <> App.title t -> n < fuel ->
  poll fuel 0 t titles = Fired n (mkVisit (App.url t) ti false (App.favicon t)).
Proof. intros Hb Hn Hti Hf. apply poll_from; [lia|lia| |done|done]. intros j Hj. apply Hb. lia. Qed.

(** C19: the interval has no attempt ceiling: while [getTitle()] keeps
    returning the tab's title (or throwing) it neither fires nor clears
    itself, so after any number of ticks it is still set. *)
Theorem title_poll_unbounded t titles fuel :
  (forall j, titles j = None \/ titles j = Some (App.title t)) -> poll fuel 0 t titles = Running fuel.
Proof.
  intros Hall. change fuel with (0 + fuel) at 2. generalize 0.
  induction fuel as [|f IH]; intros k; simpl; [by rewrite Nat.add_0_r|].
  rewrite <- Nat.add_succ_comm. destruct (Hall k) as [-> | ->]; [apply IH|]. rewrite String.eqb_refl. apply IH.
Qed.

(** ** Witnesses *)

Definition tabA : App.tab := App.mkTab "a" "A" "https://a.com/" false true None.
Definition stA : App.state := App.mkState [tabA] (Some "a") [] [] [] [].
Definition bwA : bw_state := mkBW (Some (mkBinding 100 false)) None false.
Definition wvA : webview := mkWebview true "https://a.com/" "A page" false false.

Lemma http_error_main_frame_only_witness :
  (includes (toLowerCase "image") "main" = false ->
     deliver "h" "t" wvA (DidGetResponseDetails 404 "image" "https://a.com/x.png" "https://a.com/x.png" "Not Found") bwA stA
       = (bwA, stA, [])) /\
  (includes (toLowerCase "image") "main" = true ->
     error (fst (fst (deliver "h" "t" wvA (DidGetResponseDetails 404 "image" "https://a.com/x.png" "https://a.com/x.png" "Not Found") bwA stA)))
       = Some (mkError 404 ("Not Found" || "HTTP Error")%js ("https://a.com/x.png" || App.url tabA)%js)).
Proof. apply (http_error_main_frame_only _ _ _ _ _ _ _ _ _ _ _ (mkBinding 100 false)); done || lia. Defined.

Lemma failed_load_records_history_witness :
  error (fst (fst (deliver "h" "t" wvA (DidFailLoad (-105) "NAME_NOT_RESOLVED" "https://a.com/") bwA stA)))
    = Some (mkError (-105) "NAME_NOT_RESOLVED" "https://a.com/") /\
  App.stored_history (snd (fst (deliver "h" "t" wvA (DidFailLoad (-105) "NAME_NOT_RESOLVED" "https://a.com/") bwA stA))) =
    take HistoryManager.cap
      (HistoryManager.mkEntry "h" "Error loading page" "https://a.com/" (App.favicon tabA) "t" :: App.stored_history stA).
Proof.
  apply (failed_load_records_history _ _ _ _ _ _ _ _ _ (mkBinding 100 false));
    (done || (unfold ERR_ABORTED; lia) || (split; [discriminate|reflexivity])).
Defined.

Lemma stop_loading_commits_witness :
  App.active (snd (fst (deliver "h" "t" wvA DidStopLoading bwA stA))) =
    Some (App.mkTab (App.id tabA) (wv_title wvA || App.title tabA)%js (wv_url wvA) (App.isPinned tabA)
            false (App.favicon tabA)) /\
  App.stored_history (snd (fst (deliver "h" "t" wvA DidStopLoading bwA stA))) =
    (if js_truthy (wv_title wvA) && negb (startsWith (wv_url wvA) "browser://")
     then HistoryManager.addEntry (wv_title wvA) (wv_url wvA) (App.favicon tabA) "h" "t" (App.stored_history stA)
     else App.stored_history stA) /\
  snd (deliver "h" "t" wvA DidStopLoading bwA stA) = [SetZoomFactor 100].
Proof. apply (stop_loading_commits _ _ _ _ _ _ (mkBinding 100 false)); done. Defined.

Lemma favicon_update_ends_loading_witness :
  App.active (snd (fst (deliver "h" "t" wvA (PageFaviconUpdated ["https://a.com/f.ico"]) bwA stA))) =
    Some (App.merge_visit (App.url tabA) (App.title tabA) false (head ["https://a.com/f.ico"]) tabA) /\
  App.isLoading (App.merge_visit (App.url tabA) (App.title tabA) false (head ["https://a.com/f.ico"]) tabA) = false /\
  App.stored_history (snd (fst (deliver "h" "t" wvA (PageFaviconUpdated ["https://a.com/f.ico"]) bwA stA))) =
    (if js_truthy (App.url tabA) && js_truthy (App.title tabA) && negb (startsWith (App.url tabA) "browser://")
     then HistoryManager.addEntry (App.title tabA) (App.url tabA) (head ["https://a.com/f.ico"]) "h" "t" (App.stored_history stA)
     else App.stored_history stA).
Proof. apply (favicon_update_ends_loading _ _ _ _ _ _ _ (mkBinding 100 false)); done. Defined.

Definition tabS : App.tab := App.mkTab "s" "Settings" "browser://settings/x" false false None.

Lemma internal_pages_witness :
  webview_rendered (Some tabS) = false /\
  (page_of (Some tabS) None = NotFoundPage (App.url tabS) <->
   ~ In (App.url tabS) ["browser://newtab"; "browser://settings"; "browser://history"; "browser://downloads"]).
Proof. apply internal_pages. reflexivity. Defined.

Definition titles_change (j : nat) : option string := if j =? 0 then None else Some "A page".

(** One webview event after the first commit. *)
Lemma listeners_never_bound_witness :
  let x := ((deliver "h" "0" wvA DomReady (first_commit [] [] "a" 100 false).1 (first_commit [] [] "a" 100 false).2).1.1,
            (deliver "h" "0" wvA DomReady (first_commit [] [] "a" 100 false).1 (first_commit [] [] "a" 100 false).2).1.2) in
  star bw_step (first_commit [] [] "a" 100 false) x /\
  bound (mount (App.active (App.mount "a" (App.init [] []))) 100 false) = None /\
  bound x.1 = None /\ (forall hid ts wv ev, deliver hid ts wv ev x.1 x.2 = (x.1, x.2, [])).
Proof.
  cbv zeta. assert (Hr : star bw_step (first_commit [] [] "a" 100 false)
    ((deliver "h" "0" wvA DomReady (first_commit [] [] "a" 100 false).1 (first_commit [] [] "a" 100 false).2).1.1,
     (deliver "h" "0" wvA DomReady (first_commit [] [] "a" 100 false).1 (first_commit [] [] "a" 100 false).2).1.2)).
  { apply star_one. destruct (first_commit [] [] "a" 100 false) as [bw s]. apply bw_event. }
  split; [exact Hr|]. exact (listeners_never_bound [] [] "a" 100 false _ Hr).
Defined.

Lemma title_poll_first_change_witness :
  poll 5 0 tabA titles_change = Fired 1 (mkVisit (App.url tabA) "A page" false (App.favicon tabA)).
Proof. apply title_poll_first_change; [intros j Hj; left; destruct j; [done|lia]|done|discriminate|lia]. Defined.

Lemma title_poll_unbounded_witness : poll 1000 0 tabA (fun _ => Some "A") = Running 1000.
Proof. apply title_poll_unbounded. intros _. by right. Defined.

End Coordinator.
