(* ===== verification/Downloads.v ===== *)
(** * Downloads: the download tracker of main.js, Downloads.jsx and
    DownloadsManager.js

    The main process handles Electron's [will-download] (main.js lines
    231-286): it draws an id ([Date.now() + random]), sets the save path
    when a download folder is configured, and sends [download-update]
    messages to the window: one at the start, one per [updated] event
    (interrupted, or progressing and not paused) and one at [done]
    (registered with [once]).  Each message is a one-element array.  The
    renderer re-dispatches it (App.jsx lines 201-207) and the Downloads
    page, while mounted, replaces its whole list with it (Downloads.jsx
    lines 8-17).  [DownloadsManager] (persisted list, capped at 100) is
    modelled too; no code calls its [addDownload] or [updateDownload].

    Electron's [DownloadItem] is the record [item] of what the handlers
    read; its events are the arguments of [on_updated] and [on_done]. *)

From S2P Require Import Prelude.

Module Downloads.

Inductive dl_state := Progressing | Completed | Cancelled | Interrupted.

#[export] Instance dl_state_eq_dec : EqDecision dl_state.
Proof. solve_decision. Defined.

Definition is_terminal (st : dl_state) : bool :=
  match st with Progressing => false | _ => true end.

(** ** The main process *)

(** What the handlers read from Electron's [DownloadItem]. *)
Record item := mkItem {
  getFilename : string;
  getSavePath : string;
  getTotalBytes : Z;
  getReceivedBytes : Z;
  isPaused : bool
}.

(** A [download-update] record. *)
Record message := mkMessage {
  m_id : string;
  m_filename : string;
  m_path : option string;
  m_total : Z;
  m_received : Z;
  m_state : dl_state;
  m_startTime : option Z
}.

(** The per-download closure: the id, whether a window existed
    ([BrowserWindow.getAllWindows()[0]]), whether [done] has fired. *)
Record tracker := mkTracker { dl_id : string; dl_win : bool; dl_done : bool }.

(** [path.join(downloadPath, filename)] for a folder without trailing slash. *)
Definition path_join (dir f : string) : string := dir +:+ "/" +:+ f.

(** [win?.webContents.send('download-update', [m])] *)
Definition send (tr : tracker) (m : message) : list (list message) :=
  if dl_win tr then [[m]] else [].

(** [will-download] (lines 231-249): the configured folder, the id drawn,
    [Date.now()], whether a window exists. *)
Definition will_download (downloadPath : string) (it : item) (id : string) (now : Z) (win : bool)
    : item * tracker * list (list message) :=
  let it := if js_truthy downloadPath
            then mkItem (getFilename it) (path_join downloadPath (getFilename it))
                        (getTotalBytes it) (getReceivedBytes it) (isPaused it)
            else it in
  let tr := mkTracker id win false in
  (it, tr, send tr (mkMessage id (getFilename it) (Some (getSavePath it)) (getTotalBytes it)
                      (getReceivedBytes it) Progressing (Some now))).

(** The [state] argument of [updated]. *)
Inductive upd_state := UProgressing | UInterrupted.

(** [item.on('updated', ...)] (lines 251-273). *)
Definition on_updated (tr : tracker) (it : item) (st : upd_state) : list (list message) :=
  match st with
  | UInterrupted =>
      send tr (mkMessage (dl_id tr) (getFilename it) None (getTotalBytes it) (getReceivedBytes it) Interrupted None)
  | UProgressing =>
      if isPaused it then []
      else send tr (mkMessage (dl_id tr) (getFilename it) None (getTotalBytes it) (getReceivedBytes it) Progressing None)
  end.

(** [item.once('done', ...)] (lines 275-285): only the first [done] runs. *)
Definition on_done (tr : tracker) (it : item) (st : dl_state) : tracker * list (list message) :=
  if dl_done tr then (tr, [])
  else (mkTracker (dl_id tr) (dl_win tr) true,
        send tr (mkMessage (dl_id tr) (getFilename it) (Some (getSavePath it)) (getTotalBytes it)
                   (getReceivedBytes it) st None)).

(** ** The renderer *)

(** The Downloads page: whether it is mounted, and its [downloads] state. *)
Record view := mkView { mounted : bool; shown : list message }.

(** The [downloads-updated] listener: [setDownloads(e.detail)]. *)
Definition receive (detail : list message) (v : view) : view :=
  if mounted v then mkView true detail else v.

(** ** [DownloadsManager] *)

Record download := mkDownload {
  id : string;
  filename : string;
  path : string;
  url : string;
  totalBytes : Z;
  receivedBytes : Z;
  state : dl_state;
  startTime : Z;
  endTime : option Z
}.

Definition cap : nat := 100.

(** [addDownload(id, filename, path, url, totalBytes)]; [now] is [Date.now()]. *)
Definition addDownload (i f p u : string) (total now : Z) (ds : list download) : list download :=
  take cap (mkDownload i f p u total 0 Progressing now None :: ds).

(** [updateDownload(id, receivedBytes, state)]: [endTime] is [Date.now()]
    for a terminal state and [null] otherwise. *)
Definition updateDownload (i : string) (received : Z) (st : dl_state) (now : Z) (ds : list download)
    : list download :=
  map (fun d => if String.eqb (id d) i
                then mkDownload (id d) (filename d) (path d) (url d) (totalBytes d) received st
                       (startTime d) (if is_terminal st then Some now else None)
                else d) ds.

Definition clearDownloads (ds : list download) : list download := [].

(** The Downloads page mounting: [setDownloads(DownloadsManager.getDownloads())]. *)
Definition to_message (d : download) : message :=
  mkMessage (id d) (filename d) (Some (path d)) (totalBytes d) (receivedBytes d) (state d) (Some (startTime d)).

Definition mount_view (stored : list download) : view := mkView true (map to_message stored).

(** The Clear List button after [confirm]: both the view and the store empty. *)
Definition clear (v : view) (stored : list download) : view * list download :=
  (mkView (mounted v) (map to_message (clearDownloads stored)), clearDownloads stored).

(** ** Runs *)

Inductive item_event := EvUpdated (it : item) (st : upd_state) | EvDone (it : item) (st : dl_state).

(** The messages one download sends after its start, for Electron's events. *)
Fixpoint main_run (tr : tracker) (evs : list item_event) : tracker * list (list message) :=
  match evs with
  | [] => (tr, [])
  | EvUpdated it st :: evs' => let '(tr', ms) := main_run tr evs' in (tr', on_updated tr it st ++ ms)
  | EvDone it st :: evs' =>
      let '(tr1, m1) := on_done tr it st in
      let '(tr', ms) := main_run tr1 evs' in (tr', m1 ++ ms)
  end.

(** The renderer receiving a sequence of messages. *)
Definition receive_all (msgs : list (list message)) (v : view) : view := fold_left (fun v d => receive d v) msgs v.

(** ** Lemmas *)

Lemma send_id tr m i : m_id m = i -> Forall (Forall (fun m' => m_id m' = i)) (send tr m).
Proof. intros <-. unfold send. destruct (dl_win tr); repeat constructor. Qed.

Lemma on_done_id tr it st : dl_id (fst (on_done tr it st)) = dl_id tr.
Proof. unfold on_done. by destruct (dl_done tr). Qed.

Lemma on_updated_id tr it st : Forall (Forall (fun m => m_id m = dl_id tr)) (on_updated tr it st).
Proof. destruct st; simpl; [destruct (isPaused it)|]; first [constructor | by apply send_id]. Qed.

Lemma on_done_msgs_id tr it st : Forall (Forall (fun m => m_id m = dl_id tr)) (snd (on_done tr it st)).
Proof. unfold on_done. destruct (dl_done tr); simpl; first [constructor | by apply send_id]. Qed.

Lemma main_run_id tr evs :
  dl_id (fst (main_run tr evs)) = dl_id tr /\
  Forall (Forall (fun m => m_id m = dl_id tr)) (snd (main_run tr evs)).
Proof.
  revert tr. induction evs as [|[it st|it st] evs IH]; intros tr; cbn [main_run]; [done|..].
  - destruct (main_run tr evs) as [tr' ms] eqn:E. specialize (IH tr). rewrite E in IH.
    destruct IH as [IH1 IH2]. split; [done|]. apply Forall_app; split; auto using on_updated_id.
  - destruct (on_done tr it st) as [tr1 m1] eqn:E1.
    destruct (main_run tr1 evs) as [tr' ms] eqn:E. specialize (IH tr1). rewrite E in IH.
    destruct IH as [IH1 IH2]. simpl in *.
    assert (Hid : dl_id tr1 = dl_id tr) by (by rewrite <- (on_done_id tr it st), E1).
    rewrite Hid in IH1, IH2. split; [done|].
    apply Forall_app; split; auto.
    pose proof (on_done_msgs_id tr it st) as H. by rewrite E1 in H.
Qed.

(** Messages that carry a save path: the start message and the [done] message. *)
Definition with_path (ms : list (list message)) : list message :=
  filter (fun m => is_Some (m_path m)) (concat ms).

Lemma with_path_app a b : with_path (a ++ b) = with_path a ++ with_path b.
Proof. unfold with_path. by rewrite concat_app, filter_app. Qed.

Lemma with_path_updated tr it st : with_path (on_updated tr it st) = [].
Proof.
  unfold with_path, on_updated, send. destruct st; [destruct (isPaused it)|];
    destruct (dl_win tr); cbn [concat app]; done.
Qed.

Lemma with_path_send tr m : length (with_path (send tr m)) <= 1.
Proof.
  unfold with_path, send. destruct (dl_win tr); cbn [concat app]; [|simpl; lia].
  destruct (decide (is_Some (m_path m))); [rewrite filter_cons_True|rewrite filter_cons_False]; simpl; auto.
Qed.

Lemma receive_all_app msgs msgs' v :
  receive_all (msgs ++ msgs') v = receive_all msgs' (receive_all msgs v).
Proof. unfold receive_all. by rewrite fold_left_app. Qed.

Lemma receive_all_mounted msgs v : mounted (receive_all msgs v) = mounted v.
Proof.
  revert v. induction msgs as [|d msgs IH]; intros v; [done|].
  simpl. rewrite IH. unfold receive. by destruct (mounted v) eqn:E.
Qed.

Lemma updateDownload_ids i r st now ds : map id (updateDownload i r st now ds) = map id ds.
Proof.
  induction ds as [|d ds IH]; [done|]. simpl. rewrite IH. by destruct (String.eqb (id d) i).
Qed.

Lemma updateDownload_nth i r st now ds n :
  nth_error (updateDownload i r st now ds) n =
  option_map (fun d => if String.eqb (id d) i
                       then mkDownload (id d) (filename d) (path d) (url d) (totalBytes d) r st
                              (startTime d) (if is_terminal st then Some now else None)
                       else d) (nth_error ds n).
Proof. apply nth_error_map. Qed.

(** ** Theorems *)

(** C22: Every [download-update] message of a download, the start message and
    those of any sequence of Electron events after it, carries the id drawn
    at [will-download]. *)
Theorem download_messages_carry_id dp it i now win evs :
  let '(_, tr, ms0) := will_download dp it i now win in
  Forall (Forall (fun m => m_id m = i)) (ms0 ++ snd (main_run tr evs)).
Proof.
  unfold will_download. cbn zeta. apply Forall_app. split; [by apply send_id|].
  exact (proj2 (main_run_id (mkTracker i win false) evs)).
Qed.

(** C23: Whatever events Electron delivers after the start, at most one
    message with a save path (the [done] report) is sent, and none once
    [done] has fired. *)
Theorem done_reported_once tr evs :
  length (with_path (snd (main_run tr evs))) <= if dl_done tr then 0 else 1.
Proof.
  revert tr. induction evs as [|[it st|it st] evs IH]; intros tr; simpl.
  - destruct (dl_done tr); simpl; lia.
  - specialize (IH tr). destruct (main_run tr evs) as [tr' ms]. simpl in *.
    by rewrite with_path_app, with_path_updated.
  - unfold on_done. destruct (dl_done tr) eqn:D.
    + specialize (IH tr). rewrite D in IH. by destruct (main_run tr evs).
    + match goal with |- context [main_run ?t evs] => specialize (IH t); destruct (main_run t evs) end.
      simpl in *. rewrite with_path_app, length_app. pose proof (with_path_send tr
        (mkMessage (dl_id tr) (getFilename it) (Some (getSavePath it)) (getTotalBytes it)
           (getReceivedBytes it) st None)). lia.
Qed.

(** With a window open, an [updated] event is silent exactly when it
    reports a paused progressing transfer; an interruption is always
    committed. *)
Theorem updated_commit_policy tr it st :
  dl_win tr = true ->
  (on_updated tr it st = [] <-> st = UProgressing /\ isPaused it = true).
Proof.
  intros W. unfold on_updated, send. rewrite W.
  destruct st, (isPaused it); split; intros H; try done; by destruct H.
Qed.

(** An interruption reported by [updated] is not terminal in the main
    process: a later progressing [updated] event for the same download is
    sent after it, so the renderer sees [interrupted] then [progressing]. *)
Theorem interrupted_then_progressing tr it it' :
  dl_win tr = true -> isPaused it' = false ->
  map m_state (concat (snd (main_run tr [EvUpdated it UInterrupted; EvUpdated it' UProgressing])))
  = [Interrupted; Progressing].
Proof. intros W P. cbn. unfold send. rewrite W, P. reflexivity. Qed.

(** C24: While the Downloads page is mounted, a message replaces the whole
    list: after any earlier messages, the page shows the one record of the
    last message, so a concurrent download disappears from the view. *)
Theorem downloads_view_last_only v msgs tr m :
  mounted v = true -> dl_win tr = true ->
  shown (receive_all (msgs ++ send tr m) v) = [m].
Proof.
  intros Hm W. rewrite receive_all_app. unfold send. rewrite W. simpl.
  unfold receive. by rewrite receive_all_mounted, Hm.
Qed.

(** [addDownload] puts the new record, progressing with nothing
    received, first and keeps at most 100 records, dropping the oldest. *)
Theorem addDownload_spec i f p u total now ds :
  addDownload i f p u total now ds = mkDownload i f p u total 0 Progressing now None :: take 99 ds /\
  length (addDownload i f p u total now ds) <= cap.
Proof. split; [reflexivity|]. unfold addDownload. rewrite length_take. lia. Qed.

(** Replaying an [updateDownload] with the same clock changes nothing,
    and the ids of the list are kept. *)
Theorem updateDownload_idem i r st now ds :
  updateDownload i r st now (updateDownload i r st now ds) = updateDownload i r st now ds /\
  map id (updateDownload i r st now ds) = map id ds.
Proof.
  split; [|apply updateDownload_ids].
  induction ds as [|d ds IH]; [done|]. simpl. rewrite IH.
  destruct (String.eqb (id d) i) eqn:E; simpl; by rewrite ?E.
Qed.

(** A terminal commit applied a second time at another instant changes
    the record: [endTime] is stamped again. *)
Theorem terminal_commit_restamps i r st now1 now2 ds d :
  is_terminal st = true -> now1 <> now2 -> In d ds -> id d = i ->
  updateDownload i r st now2 (updateDownload i r st now1 ds) <> updateDownload i r st now1 ds.
Proof.
  intros T Hne Hin Hid Heq. apply In_nth_error in Hin as [n Hn].
  apply (f_equal (fun l => nth_error l n)) in Heq.
  rewrite !updateDownload_nth, Hn in Heq. simpl in Heq.
  rewrite Hid, String.eqb_refl, T in Heq. simpl in Heq. rewrite String.eqb_refl in Heq.
  injection Heq. congruence.
Qed.

(** ** Witnesses *)

Definition itA := mkItem "a.zip" "/dl/a.zip" 100 10 false.
Definition itB := mkItem "b.iso" "/dl/b.iso" 900 0 true.
Definition trA := mkTracker "1700000000000.25" true false.
Definition trB := mkTracker "1700000000007.91" true false.

Lemma updated_commit_policy_witness :
  dl_win trB = true /\ (on_updated trB itB UProgressing = [] <-> UProgressing = UProgressing /\ isPaused itB = true).
Proof. split; [reflexivity|]. apply (updated_commit_policy trB itB UProgressing). reflexivity. Defined.

Lemma interrupted_then_progressing_witness :
  map m_state (concat (snd (main_run trA [EvUpdated itA UInterrupted; EvUpdated itA UProgressing])))
  = [Interrupted; Progressing].
Proof. apply (interrupted_then_progressing trA itA itA); reflexivity. Defined.

(** Download A is shown, then B starts: only B remains on the page. *)
Lemma downloads_view_last_only_witness :
  shown (receive_all (snd (will_download "/dl" itA (dl_id trA) 1 true)
                      ++ send trB (mkMessage (dl_id trB) "b.iso" (Some "/dl/b.iso") 900 0 Progressing (Some 2%Z)))
           (mkView true []))
  = [mkMessage (dl_id trB) "b.iso" (Some "/dl/b.iso") 900 0 Progressing (Some 2%Z)].
Proof. apply downloads_view_last_only; reflexivity. Defined.

Definition storedA := [mkDownload "7" "a.zip" "/dl/a.zip" "https://example.com/a.zip" 100 0 Progressing 1 None].

Lemma terminal_commit_restamps_witness :
  updateDownload "7" 100 Completed 6 (updateDownload "7" 100 Completed 5 storedA)
  <> updateDownload "7" 100 Completed 5 storedA.
Proof.
  apply (terminal_commit_restamps "7" 100 Completed 5 6 storedA (hd (mkDownload "" "" "" "" 0 0 Progressing 0 None) storedA));
    [reflexivity | lia | left; reflexivity | reflexivity].
Defined.

End Downloads.
