(* ===== verification/Settings.v ===== *)
(** * Settings: persisted preferences and the main process's configuration

    App.jsx keeps ten preferences in React state, initialised from
    [localStorage] (lines 151-155, 191-193, 245-247) and written back by
    its handlers (lines 157-230, 249-261), which Settings.jsx calls
    (lines 44-51, 148, 169, 190, 204).  Three of them (ad blocking,
    Do-Not-Track, download folder) are also sent over IPC to main.js,
    whose handlers (lines 117-143) keep them in module variables read by
    the request filters (lines 213-229) and by [will-download].

    [localStorage] is a [gmap] from keys to the strings [setItem] stores
    ([String(v)] of the value).  A number is kept in hundredths (the zoom
    factor [1.1] is [110]); [parseFloat] reads decimal literals with an
    optional sign and keeps two fractional digits, which is all the code
    writes.  IPC messages are delivered in the order they are sent, and
    each is handled before the next renderer event. *)

From stdpp Require Import gmap.
From S2P Require Import Prelude Url Downloads.

Module Settings.

Definition storage := gmap string string.

(** ** Values as [localStorage] stores them *)

(** [String(b)] *)
Definition bool_string (b : bool) : string := if b then "true" else "false".

Definition digit_char (d : N) : ascii := ascii_of_N (48 + d).

(** The decimal digits of [n], before [acc]; [fuel] bounds the digit count. *)
Fixpoint digits_of (fuel : nat) (n : N) (acc : list ascii) : list ascii :=
  match fuel with
  | O => acc
  | S f => let acc' := digit_char (n mod 10) :: acc in
           if (n <? 10)%N then acc' else digits_of f (n / 10) acc'
  end.

Definition N_digits (n : N) : list ascii := digits_of (S (N.to_nat n)) n [].

(** The fractional part [String] writes for [f] hundredths: none for
    zero, no trailing zero. *)
Definition frac_digits (f : N) : list ascii :=
  if (f =? 0)%N then []
  else "."%char :: digit_char (f / 10) :: (if (f mod 10 =? 0)%N then [] else [digit_char (f mod 10)]).

(** [String(z / 100)] *)
Definition num_string (z : Z) : string :=
  let n := Z.to_N (Z.abs z) in
  string_of_list_ascii ((if (z <? 0)%Z then ["-"%char] else []) ++ N_digits (n / 100) ++ frac_digits (n mod 100)).

(** The leading digits of a list and the rest. *)
Definition span_digits (l : list ascii) : list ascii * list ascii :=
  Whatwg.split_when (fun c => negb (is_digit c)) l.

(** The first two fractional digits as hundredths. *)
Definition frac_value (ds : list ascii) : N :=
  match ds with
  | [] => 0
  | [d1] => 10 * Whatwg.digits_value [d1]
  | d1 :: d2 :: _ => Whatwg.digits_value [d1; d2]
  end.

(** An optional sign: whether it is [-], and the rest. *)
Definition sign_split (l : list ascii) : bool * list ascii :=
  match l with
  | "-"%char :: r => (true, r)
  | "+"%char :: r => (false, r)
  | _ => (false, l)
  end.

(** A decimal literal without sign, in hundredths: [None] when it has no digit. *)
Definition parse_decimal (l : list ascii) : option N :=
  let '(ip, rest) := span_digits l in
  let '(fp, _) := match rest with
                  | "."%char :: r => span_digits r
                  | _ => ([], rest)
                  end in
  if bool_decide (ip = []) && bool_decide (fp = []) then None
  else Some (100 * Whatwg.digits_value ip + frac_value fp)%N.

(** [parseFloat(s)]: [None] is [NaN]. *)
Definition parseFloat (s : string) : option Z :=
  let '(neg, l) := sign_split (list_ascii_of_string (trim_start s)) in
  (fun v => if neg then (- Z.of_N v)%Z else Z.of_N v) <$> parse_decimal l.

(** [parseFloat(localStorage.getItem('zoomLevel')) || 1.0]: [NaN] and [0] are falsy. *)
Definition zoom_of (v : option string) : Z :=
  match v ≫= parseFloat with
  | Some z => if (z =? 0)%Z then 100 else z
  | None => 100
  end.

(** [localStorage.getItem(k) || d] *)
Definition or_default (v : option string) (d : string) : string :=
  match v with Some s => (s || d)%js | None => d end.

(** ** Renderer preferences (App.jsx) *)

Record prefs := mkPrefs {
  theme : option string;
  showBookmarksBar : bool;
  zoomLevel : Z;
  homepage : string;
  searchEngine : string;
  downloadPath : string;
  adBlockEnabled : bool;
  dntEnabled : bool;
  layoutMode : string;
  isSidebarOpen : bool
}.

Definition newtab_home : string := "browser://newtab".
Definition google : string := "https://www.google.com/search?q=".

(** The [useState] initialisers. *)
Definition load (st : storage) : prefs :=
  mkPrefs (Some "light")
    (bool_decide (st !! "showBookmarksBar" <> Some "false"))
    (zoom_of (st !! "zoomLevel"))
    (or_default (st !! "homepage") newtab_home)
    (or_default (st !! "searchEngine") google)
    (or_default (st !! "downloadPath") "")
    (bool_decide (st !! "adBlockEnabled" = Some "true"))
    (bool_decide (st !! "dntEnabled" = Some "true"))
    (or_default (st !! "layoutMode") "sidebar")
    (bool_decide (st !! "isSidebarOpen" <> Some "false")).

Definition set_theme (t : option string) (p : prefs) : prefs :=
  mkPrefs t (showBookmarksBar p) (zoomLevel p) (homepage p) (searchEngine p) (downloadPath p)
    (adBlockEnabled p) (dntEnabled p) (layoutMode p) (isSidebarOpen p).
Definition set_showBookmarksBar (b : bool) (p : prefs) : prefs :=
  mkPrefs (theme p) b (zoomLevel p) (homepage p) (searchEngine p) (downloadPath p)
    (adBlockEnabled p) (dntEnabled p) (layoutMode p) (isSidebarOpen p).
Definition set_zoomLevel (z : Z) (p : prefs) : prefs :=
  mkPrefs (theme p) (showBookmarksBar p) z (homepage p) (searchEngine p) (downloadPath p)
    (adBlockEnabled p) (dntEnabled p) (layoutMode p) (isSidebarOpen p).
Definition set_homepage (u : string) (p : prefs) : prefs :=
  mkPrefs (theme p) (showBookmarksBar p) (zoomLevel p) u (searchEngine p) (downloadPath p)
    (adBlockEnabled p) (dntEnabled p) (layoutMode p) (isSidebarOpen p).
Definition set_searchEngine (u : string) (p : prefs) : prefs :=
  mkPrefs (theme p) (showBookmarksBar p) (zoomLevel p) (homepage p) u (downloadPath p)
    (adBlockEnabled p) (dntEnabled p) (layoutMode p) (isSidebarOpen p).
Definition set_downloadPath (d : string) (p : prefs) : prefs :=
  mkPrefs (theme p) (showBookmarksBar p) (zoomLevel p) (homepage p) (searchEngine p) d
    (adBlockEnabled p) (dntEnabled p) (layoutMode p) (isSidebarOpen p).
Definition set_adBlockEnabled (b : bool) (p : prefs) : prefs :=
  mkPrefs (theme p) (showBookmarksBar p) (zoomLevel p) (homepage p) (searchEngine p) (downloadPath p)
    b (dntEnabled p) (layoutMode p) (isSidebarOpen p).
Definition set_dntEnabled (b : bool) (p : prefs) : prefs :=
  mkPrefs (theme p) (showBookmarksBar p) (zoomLevel p) (homepage p) (searchEngine p) (downloadPath p)
    (adBlockEnabled p) b (layoutMode p) (isSidebarOpen p).
Definition set_isSidebarOpen (b : bool) (p : prefs) : prefs :=
  mkPrefs (theme p) (showBookmarksBar p) (zoomLevel p) (homepage p) (searchEngine p) (downloadPath p)
    (adBlockEnabled p) (dntEnabled p) (layoutMode p) b.

(** ** The main process's configuration (main.js lines 117-143) *)

Record config := mkConfig { cfg_adBlock : bool; cfg_downloadPath : string; cfg_dnt : bool }.

(** [adBlockEnabled = false], [downloadPath = app.getPath('downloads')],
    [dntEnabled = false]. *)
Definition config_init (downloads_dir : string) : config := mkConfig false downloads_dir false.

Inductive ipc := SetDownloadPath (p : string) | SetAdBlockEnabled (b : bool) | SetDntEnabled (b : bool).

(** The [set-download-path], [set-adblock-enabled] and [set-dnt-enabled] handlers. *)
Definition ipc_handle (m : ipc) (c : config) : config :=
  match m with
  | SetDownloadPath p => mkConfig (cfg_adBlock c) p (cfg_dnt c)
  | SetAdBlockEnabled b => mkConfig b (cfg_downloadPath c) (cfg_dnt c)
  | SetDntEnabled b => mkConfig (cfg_adBlock c) (cfg_downloadPath c) b
  end.

(** The renderer's preferences, [localStorage] and the main process. *)
Record world := mkWorld { ui : prefs; store : storage; main : config }.

(** The mount effect (App.jsx lines 195-212), but for the downloads
    listener, which [Downloads] models. *)
Definition mount_effect (w : world) : world :=
  let p := ui w in
  let c := main w in
  let c := if js_truthy (downloadPath p) then ipc_handle (SetDownloadPath (downloadPath p)) c else c in
  let c := ipc_handle (SetAdBlockEnabled (adBlockEnabled p)) c in
  let c := ipc_handle (SetDntEnabled (dntEnabled p)) c in
  (* [localStorage.getItem('theme') !== undefined] holds for [null] and for strings *)
  mkWorld (set_theme (store w !! "theme") p) (store w) c.

(** A start of the application on a stored profile. *)
Definition boot (st : storage) (c : config) : world := mount_effect (mkWorld (load st) st c).

(** ** The handlers of App.jsx *)

Definition toggleTheme (w : world) : world :=
  if bool_decide (theme (ui w) = Some "light") then
    mkWorld (set_theme (Some "dark") (ui w)) (<["theme" := "dark"]> (store w)) (main w)
  else if bool_decide (theme (ui w) = Some "dark") then
    mkWorld (set_theme (Some "light") (ui w)) (<["theme" := "light"]> (store w)) (main w)
  else w.

Definition handleSetShowBookmarksBar (b : bool) (w : world) : world :=
  mkWorld (set_showBookmarksBar b (ui w)) (<["showBookmarksBar" := bool_string b]> (store w)) (main w).

Definition handleSetZoomLevel (z : Z) (w : world) : world :=
  mkWorld (set_zoomLevel z (ui w)) (<["zoomLevel" := num_string z]> (store w)) (main w).

Definition handleSetHomepage (u : string) (w : world) : world :=
  mkWorld (set_homepage u (ui w)) (<["homepage" := u]> (store w)) (main w).

Definition handleSetSearchEngine (u : string) (w : world) : world :=
  mkWorld (set_searchEngine u (ui w)) (<["searchEngine" := u]> (store w)) (main w).

Definition handleSetDownloadPath (d : string) (w : world) : world :=
  mkWorld (set_downloadPath d (ui w)) (<["downloadPath" := d]> (store w)) (ipc_handle (SetDownloadPath d) (main w)).

Definition handleSetAdBlockEnabled (b : bool) (w : world) : world :=
  mkWorld (set_adBlockEnabled b (ui w)) (<["adBlockEnabled" := bool_string b]> (store w))
    (ipc_handle (SetAdBlockEnabled b) (main w)).

Definition handleSetDntEnabled (b : bool) (w : world) : world :=
  mkWorld (set_dntEnabled b (ui w)) (<["dntEnabled" := bool_string b]> (store w))
    (ipc_handle (SetDntEnabled b) (main w)).

Definition toggleSidebarVisibility (w : world) : world :=
  if isSidebarOpen (ui w) then
    mkWorld (set_isSidebarOpen false (ui w)) (<["isSidebarOpen" := "false"]> (store w)) (main w)
  else mkWorld (set_isSidebarOpen true (ui w)) (<["isSidebarOpen" := "true"]> (store w)) (main w).

(** ** The controls of Settings.jsx and TopBar.jsx *)

(** The options of the Page Zoom and Default Search Engine selects. *)
Definition zoom_options : list string := ["0.8"; "0.9"; "1.0"; "1.1"; "1.25"; "1.5"].
Definition engine_options : list string :=
  [google; "https://www.bing.com/search?q="; "https://duckduckgo.com/?q="].

Inductive action :=
  | AToggleTheme
  | AToggleBookmarksBar
  | ASelectZoom (v : string)
  | ASaveHomepage (temp : string)
  | ASelectEngine (v : string)
  | ASelectDownloadFolder (chosen : option string)
  | AToggleAdBlock
  | AToggleDnt
  | AToggleSidebar.

(** What the control does.  [ASelectZoom] with a value that [parseFloat]
    rejects is not reachable: every option parses. *)
Definition act (a : action) (w : world) : world :=
  match a with
  | AToggleTheme => toggleTheme w
  | AToggleBookmarksBar => handleSetShowBookmarksBar (negb (showBookmarksBar (ui w))) w
  | ASelectZoom v => match parseFloat v with Some z => handleSetZoomLevel z w | None => w end
  | ASaveHomepage temp => handleSetHomepage temp w
  | ASelectEngine v => handleSetSearchEngine v w
  | ASelectDownloadFolder chosen =>
      match chosen with Some d => if js_truthy d then handleSetDownloadPath d w else w | None => w end
  | AToggleAdBlock => handleSetAdBlockEnabled (negb (adBlockEnabled (ui w))) w
  | AToggleDnt => handleSetDntEnabled (negb (dntEnabled (ui w))) w
  | AToggleSidebar => toggleSidebarVisibility w
  end.

(** The values a select can deliver. *)
Definition action_ok (a : action) : bool :=
  match a with
  | ASelectZoom v => bool_decide (v ∈ zoom_options)
  | ASelectEngine v => bool_decide (v ∈ engine_options)
  | _ => true
  end.

Definition run (acts : list action) (w : world) : world := fold_left (fun w a => act a w) acts w.

(** ** The request filters (main.js lines 172-229) *)

(** The [adUrls] match patterns [*://*.host/path*], as (host, path). *)
Definition adUrls : list (string * string) :=
  [("doubleclick.net", ""); ("googlesyndication.com", ""); ("googleadservices.com", "");
   ("adtago.s3.amazonaws.com", ""); ("adnxs.com", ""); ("ads.google.com", "");
   ("google-analytics.com", ""); ("facebook.com", "tr"); ("hotjar.com", ""); ("criteo.com", "");
   ("moatads.com", ""); ("taboola.com", ""); ("outbrain.com", ""); ("amazon-adsystem.com", "");
   ("scorecardresearch.com", ""); ("zedo.com", ""); ("pubmatic.com", ""); ("openx.net", "");
   ("adroll.com", ""); ("quantserve.com", ""); ("rubiconproject.com", ""); ("chartbeat.com", "");
   ("clicktale.net", ""); ("clarity.ms", ""); ("adservice.google.com", ""); ("adsystem.com", "");
   ("advertising.com", ""); ("carbonads.net", ""); ("adligature.com", ""); ("adcolony.com", "");
   ("admob.com", ""); ("appsflyer.com", ""); ("unityads.unity3d.com", ""); ("applovin.com", "");
   ("vungle.com", ""); ("ironsource.com", "")].

Definition endsWith (s suf : string) : bool :=
  String.eqb (substring (String.length s - String.length suf) (String.length suf) s) suf.

(** A host pattern [*.h] matches [h] and its subdomains. *)
Definition host_matches (h host : string) : bool := String.eqb host h || endsWith host ("." +:+ h).

(** Electron's match of a request URL against the list: scheme [*] is
    [http] or [https]; the path glob [/p*] is a prefix of the path (no
    pattern path contains [?], so the query does not matter). *)
Definition ad_match `{UrlApi} (u : string) : bool :=
  match url_parse u with
  | Some pr =>
      bool_decide (protocol pr ∈ ["http:"; "https:"]) &&
      existsb (fun '(h, pth) => host_matches h (hostname pr) && startsWith (pathname pr) ("/" +:+ pth)) adUrls
  | None => false
  end.

(** [onBeforeRequest({ urls: adUrls }, ...)]: whether the request is
    cancelled.  The listener runs only for matching requests. *)
Definition onBeforeRequest `{UrlApi} (c : config) (u : string) : bool :=
  if ad_match u then (if cfg_adBlock c then true else false) else false.

Definition headers := gmap string string.

(** [onBeforeSendHeaders]: the headers sent. *)
Definition onBeforeSendHeaders (c : config) (h : headers) : headers :=
  if cfg_dnt c then <["Sec-GPC" := "1"]> (<["DNT" := "1"]> h) else h.

(** [will-download] reads [downloadPath] of the main process. *)
Definition start_download (c : config) (it : Downloads.item) (id : string) (now : Z) (win : bool) :=
  Downloads.will_download (cfg_downloadPath c) it id now win.

(** The main process agrees with the renderer: ad blocking and
    Do-Not-Track as the UI shows them, and the download folder the UI
    shows or, when none is set, the default folder [d0]. *)
Definition synced (d0 : string) (w : world) : Prop :=
  cfg_adBlock (main w) = adBlockEnabled (ui w) /\ cfg_dnt (main w) = dntEnabled (ui w) /\
  cfg_downloadPath (main w) = (downloadPath (ui w) || d0)%js.

(** The preferences a restart reads from [localStorage]. *)
Definition reload (st : storage) : prefs := set_theme (st !! "theme") (load st).

(** ** Lemmas on numbers *)

Definition digit_step (n : N) (c : ascii) : N := (10 * n + N.of_nat (Whatwg.c_code c - 48))%N.

Lemma digit_char_code d : (d < 10)%N -> nat_of_ascii (digit_char d) = 48 + N.to_nat d.
Proof.
  intros Hd. unfold nat_of_ascii, digit_char. rewrite N_ascii_embedding by lia. lia.
Qed.

Lemma digit_char_is_digit d : (d < 10)%N -> is_digit (digit_char d) = true.
Proof.
  intros Hd. unfold is_digit. rewrite digit_char_code by done.
  apply andb_true_intro; split; apply Nat.leb_le; lia.
Qed.

Lemma digit_step_char n d : (d < 10)%N -> digit_step n (digit_char d) = (10 * n + d)%N.
Proof. intros Hd. unfold digit_step, Whatwg.c_code. rewrite digit_char_code by done. lia. Qed.

Lemma digits_of_value fuel n acc :
  N.to_nat n < fuel -> fold_left digit_step (digits_of fuel n acc) 0%N = fold_left digit_step acc n.
Proof.
  revert n acc. induction fuel as [|f IH]; intros n acc Hf; [lia|]. simpl.
  destruct (n <? 10)%N eqn:E.
  - apply N.ltb_lt in E. simpl. rewrite digit_step_char by (apply N.mod_lt; lia).
    rewrite N.mod_small by done. by rewrite N.mul_0_r.
  - apply N.ltb_ge in E. rewrite IH by (assert (n / 10 < n)%N by (apply N.div_lt; lia); lia).
    simpl. rewrite digit_step_char by (apply N.mod_lt; lia).
    by rewrite <- N.div_mod by lia.
Qed.

Lemma digits_of_shape fuel n acc :
  exists D, digits_of fuel n acc = D ++ acc /\ (fuel <> 0 -> D <> []) /\ forallb is_digit D = true.
Proof.
  revert n acc. induction fuel as [|f IH]; intros n acc; simpl; [by exists []|].
  assert (Hd : is_digit (digit_char (n mod 10)) = true) by (apply digit_char_is_digit, N.mod_lt; lia).
  destruct (n <? 10)%N.
  - exists [digit_char (n mod 10)]. simpl. by rewrite Hd.
  - destruct (IH (n / 10)%N (digit_char (n mod 10) :: acc)) as (D & HD & _ & Hdig).
    exists (D ++ [digit_char (n mod 10)]). rewrite HD, <- app_assoc. split; [done|].
    split; [by destruct D|]. by rewrite forallb_app, Hdig; simpl; rewrite Hd.
Qed.

Lemma span_digits_app l1 l2 :
  forallb is_digit l1 = true -> (match l2 with c :: _ => is_digit c = false | [] => True end) ->
  span_digits (l1 ++ l2) = (l1, l2).
Proof.
  unfold span_digits. intros H1 H2. induction l1 as [|c l1 IH]; simpl in *.
  - destruct l2 as [|c l2]; simpl; [done|]. by rewrite H2.
  - apply andb_prop in H1 as [Hc H1]. by rewrite Hc, IH.
Qed.

Lemma digits_value_fold l : Whatwg.digits_value l = fold_left digit_step l 0%N.
Proof. reflexivity. Qed.

Lemma digit_not_space c : is_digit c = true -> is_js_space c = false.
Proof. destruct c as [[] [] [] [] [] [] [] []]; (reflexivity || discriminate). Qed.

Lemma sign_split_digit c l : is_digit c = true -> sign_split (c :: l) = (false, c :: l).
Proof. destruct c as [[] [] [] [] [] [] [] []]; (reflexivity || discriminate). Qed.



(** The fractional digits [num_string] writes, read back. *)
Lemma frac_roundtrip f :
  (f < 100)%N -> (f =? 0)%N = false ->
  let fr := digit_char (f / 10) :: (if (f mod 10 =? 0)%N then [] else [digit_char (f mod 10)]) in
  span_digits fr = (fr, []) /\ frac_value fr = f.
Proof.
  intros Hf Hz fr. assert (Hd1 : (f / 10 < 10)%N) by (apply N.Div0.div_lt_upper_bound; lia).
  assert (Hd2 : (f mod 10 < 10)%N) by (apply N.mod_lt; lia).
  pose proof (N.div_mod f 10).
  unfold fr. destruct (f mod 10 =? 0)%N eqn:E; [apply N.eqb_eq in E|]; split.
  - apply (span_digits_app [_] []); [simpl; by rewrite digit_char_is_digit|done].
  - simpl. rewrite digits_value_fold. simpl. rewrite digit_step_char by done. lia.
  - apply (span_digits_app [_; _] []); [simpl; by rewrite !digit_char_is_digit|done].
  - simpl. rewrite digits_value_fold. simpl. rewrite !digit_step_char by done. lia.
Qed.

Lemma N_digits_shape i :
  exists c D, N_digits i = c :: D /\ is_digit c = true /\ forallb is_digit D = true /\
              Whatwg.digits_value (c :: D) = i.
Proof.
  unfold N_digits. destruct (digits_of_shape (S (N.to_nat i)) i []) as (D & HD & Hne & Hdig).
  pose proof (digits_of_value (S (N.to_nat i)) i [] ltac:(lia)) as Hv.
  rewrite app_nil_r in HD. rewrite HD in Hv |- *.
  destruct D as [|c D]; [by destruct Hne|]. simpl in Hdig. apply andb_prop in Hdig as [Hc Hd].
  exists c, D. by rewrite digits_value_fold.
Qed.

Lemma parse_decimal_num i f :
  (f < 100)%N -> parse_decimal (N_digits i ++ frac_digits f) = Some (100 * i + f)%N.
Proof.
  intros Hf. destruct (N_digits_shape i) as (c & D & -> & Hc & HD & Hv).
  unfold parse_decimal, frac_digits. destruct (f =? 0)%N eqn:Ef.
  - apply N.eqb_eq in Ef. subst f.
    rewrite (span_digits_app (c :: D) []) by (cbn [forallb]; by rewrite ?Hc, ?HD). rewrite Hv. f_equal; lia.
  - destruct (frac_roundtrip f Hf Ef) as [Hs Hfv].
    rewrite (span_digits_app (c :: D) (_ :: _)) by (cbn [forallb]; by rewrite ?Hc, ?HD). rewrite Hs, Hv, Hfv.
    by destruct D.
Qed.


Lemma parseFloat_list c l :
  is_js_space c = false ->
  parseFloat (string_of_list_ascii (c :: l)) =
  let '(neg, l') := sign_split (c :: l) in
  (fun v => if neg then (- Z.of_N v)%Z else Z.of_N v) <$> parse_decimal l'.
Proof.
  intros H. unfold parseFloat. cbn [string_of_list_ascii trim_start]. rewrite H.
  cbn [list_ascii_of_string]. by rewrite list_ascii_of_string_of_list_ascii.
Qed.

(** [parseFloat] reads back exactly the number [String] wrote, for
    every number in hundredths: the zoom level survives [localStorage]. *)
Theorem parseFloat_num_string z : parseFloat (num_string z) = Some z.
Proof.
  unfold num_string. set (n := Z.to_N (Z.abs z)).
  assert (Hn : n = (100 * (n / 100) + n mod 100)%N) by (apply N.div_mod; lia).
  assert (Hf : (n mod 100 < 100)%N) by (apply N.mod_lt; lia).
  pose proof (parse_decimal_num (n / 100) (n mod 100) Hf) as Hp. rewrite <- Hn in Hp.
  destruct (N_digits_shape (n / 100)) as (c & D & HD & Hc & _).
  rewrite HD in Hp |- *. cbn [app] in Hp. destruct (z <? 0)%Z eqn:Ez; cbn [app].
  - rewrite parseFloat_list by reflexivity. cbn [sign_split]. rewrite Hp. simpl.
    apply Z.ltb_lt in Ez. f_equal. lia.
  - rewrite parseFloat_list by (by apply digit_not_space).
    rewrite sign_split_digit by done. rewrite Hp. simpl.
    apply Z.ltb_ge in Ez. f_equal. lia.
Qed.

(** ** Lemmas on the preferences *)

Ltac store_simpl :=
  repeat match goal with
  | |- context [<[?k := ?v]> ?m !! ?k] => rewrite (lookup_insert_eq m k v)
  | |- context [<[?k := ?v]> ?m !! ?j] => rewrite (lookup_insert_ne m k j v) by discriminate
  end.

Lemma zoom_of_num_string z : z <> 0%Z -> zoom_of (Some (num_string z)) = z.
Proof.
  intros Hz. unfold zoom_of. simpl. rewrite parseFloat_num_string.
  by destruct (Z.eqb_spec z 0).
Qed.

Lemma zoom_options_parse v :
  v ∈ zoom_options -> exists z, parseFloat v = Some z /\ z <> 0%Z.
Proof.
  rewrite list_elem_of_In. simpl.
  intros Hv; repeat destruct Hv as [<-|Hv]; try done;
    (match goal with |- exists z, parseFloat ?v = Some z /\ _ => exists (default 0%Z (parseFloat v)) end;
     split; [reflexivity | vm_compute; discriminate]).
Qed.

Lemma ui_boot st c : ui (boot st c) = reload st.
Proof. reflexivity. Qed.

Lemma store_boot st c : store (boot st c) = st.
Proof. reflexivity. Qed.

Lemma js_or_idem (a b : string) : b <> "" -> ((a || b) || b)%js = (a || b)%js.
Proof. intros Hb. unfold js_or. destruct (String.eqb_spec a ""); [|by rewrite (proj2 (String.eqb_neq _ _) n)].
  by rewrite (proj2 (String.eqb_neq _ _) Hb). Qed.

Lemma boot_synced st d0 : synced d0 (boot st (config_init d0)).
Proof.
  unfold synced, boot, mount_effect. simpl. destruct (st !! "theme"); simpl; repeat split;
  generalize (or_default (st !! "downloadPath") ""); intros d;
  destruct (js_truthy d) eqn:E; simpl.
  all: first [apply js_truthy_true in E; by rewrite js_or_nonempty
             | unfold js_truthy in E; apply negb_false_iff, String.eqb_eq in E; by rewrite E].
Qed.

Lemma act_synced d0 a w : synced d0 w -> synced d0 (act a w).
Proof.
  destruct w as [p st c]. unfold synced. simpl. intros (H1 & H2 & H3).
  destruct a; simpl; unfold toggleTheme, toggleSidebarVisibility; simpl;
    repeat (case_bool_decide || case_match); simpl; try done.
  match goal with H : js_truthy _ = true |- _ => apply js_truthy_true in H end.
  by rewrite js_or_nonempty.
Qed.

Lemma run_synced d0 acts w : synced d0 w -> synced d0 (run acts w).
Proof.
  unfold run. revert w. induction acts as [|a acts IH]; intros w H; simpl; [done|].
  by apply IH, act_synced.
Qed.

(** Every preference is as [localStorage] holds it, the homepage falling
    back to the New Tab page when it is empty. *)
Definition persisted (w : world) : Prop :=
  reload (store w) = set_homepage (homepage (ui w) || newtab_home)%js (ui w).

Lemma boot_persisted st c : persisted (boot st c).
Proof.
  unfold persisted. rewrite ui_boot, store_boot. unfold reload, load. simpl.
  f_equal. unfold or_default. destruct (st !! "homepage"); rewrite ?js_or_idem; done.
Qed.

(** What a restart reads after one [setItem] of each handler. *)
Lemma reload_theme st v : reload (<["theme" := v]> st) = set_theme (Some v) (reload st).
Proof. unfold reload, load. store_simpl. reflexivity. Qed.

Lemma reload_showBookmarksBar st b :
  reload (<["showBookmarksBar" := bool_string b]> st) = set_showBookmarksBar b (reload st).
Proof. unfold reload, load. store_simpl. by destruct b. Qed.

Lemma reload_zoomLevel st z : z <> 0%Z ->
  reload (<["zoomLevel" := num_string z]> st) = set_zoomLevel z (reload st).
Proof. intros Hz. unfold reload, load. store_simpl. by rewrite zoom_of_num_string. Qed.

Lemma reload_homepage st u :
  reload (<["homepage" := u]> st) = set_homepage (u || newtab_home)%js (reload st).
Proof. unfold reload, load. store_simpl. reflexivity. Qed.

Lemma reload_searchEngine st u : u <> "" ->
  reload (<["searchEngine" := u]> st) = set_searchEngine u (reload st).
Proof. intros Hu. unfold reload, load. store_simpl. simpl. by rewrite js_or_nonempty. Qed.

Lemma reload_downloadPath st d : d <> "" ->
  reload (<["downloadPath" := d]> st) = set_downloadPath d (reload st).
Proof. intros Hd. unfold reload, load. store_simpl. simpl. by rewrite js_or_nonempty. Qed.

Lemma reload_adBlockEnabled st b :
  reload (<["adBlockEnabled" := bool_string b]> st) = set_adBlockEnabled b (reload st).
Proof. unfold reload, load. store_simpl. by destruct b. Qed.

Lemma reload_dntEnabled st b :
  reload (<["dntEnabled" := bool_string b]> st) = set_dntEnabled b (reload st).
Proof. unfold reload, load. store_simpl. by destruct b. Qed.

Lemma reload_isSidebarOpen st b :
  reload (<["isSidebarOpen" := bool_string b]> st) = set_isSidebarOpen b (reload st).
Proof. unfold reload, load. store_simpl. by destruct b. Qed.

Lemma act_persisted a w : action_ok a = true -> persisted w -> persisted (act a w).
Proof.
  destruct w as [p st c]. unfold persisted. simpl. intros Hok H.
  destruct a; simpl in *.
  - unfold toggleTheme. simpl. repeat case_bool_decide; simpl; rewrite ?reload_theme, ?H; try done;
      by destruct p.
  - change (if negb (showBookmarksBar p) then "true" else "false") with (bool_string (negb (showBookmarksBar p))).
    unfold handleSetShowBookmarksBar. simpl. rewrite reload_showBookmarksBar, H. by destruct p.
  - apply bool_decide_eq_true in Hok. destruct (zoom_options_parse v Hok) as (z & -> & Hz).
    unfold handleSetZoomLevel. simpl. rewrite reload_zoomLevel, H by done. by destruct p.
  - unfold handleSetHomepage. simpl. rewrite reload_homepage, H. by destruct p.
  - apply bool_decide_eq_true, list_elem_of_In in Hok.
    assert (v <> "") by (simpl in Hok; intuition subst; discriminate).
    unfold handleSetSearchEngine. simpl. rewrite reload_searchEngine, H by done. by destruct p.
  - destruct chosen as [d|]; [|done]. destruct (js_truthy d) eqn:E; [|done].
    apply js_truthy_true in E. unfold handleSetDownloadPath. simpl.
    rewrite reload_downloadPath, H by done. by destruct p.
  - change (if negb (adBlockEnabled p) then "true" else "false") with (bool_string (negb (adBlockEnabled p))).
    unfold handleSetAdBlockEnabled. simpl. rewrite reload_adBlockEnabled, H. by destruct p.
  - change (if negb (dntEnabled p) then "true" else "false") with (bool_string (negb (dntEnabled p))).
    unfold handleSetDntEnabled. simpl. rewrite reload_dntEnabled, H. by destruct p.
  - unfold toggleSidebarVisibility. destruct (isSidebarOpen p) eqn:E; simpl;
      [pose proof (reload_isSidebarOpen st false) as R | pose proof (reload_isSidebarOpen st true) as R];
      cbn [bool_string] in R; rewrite E; simpl; rewrite R, H; by destruct p.
Qed.

Lemma run_persisted acts w :
  Forall (fun a => action_ok a = true) acts -> persisted w -> persisted (run acts w).
Proof.
  unfold run. revert w. induction acts as [|a acts IH]; intros w Hok H; simpl; [done|].
  inversion Hok; subst. by apply IH, act_persisted.
Qed.

Lemma act_theme_none a w :
  theme (ui w) = None -> store w !! "theme" = None ->
  theme (ui (act a w)) = None /\ store (act a w) !! "theme" = None.
Proof.
  destruct w as [p st c]. simpl. intros Hp Hs.
  destruct a; simpl; unfold toggleTheme, handleSetShowBookmarksBar, handleSetZoomLevel,
    handleSetHomepage, handleSetSearchEngine, handleSetDownloadPath, handleSetAdBlockEnabled,
    handleSetDntEnabled, toggleSidebarVisibility; simpl; rewrite ?Hp;
    repeat (case_bool_decide || case_match); simplify_eq; simpl; store_simpl; auto.
Qed.

(** ** Theorems *)

(** C27: Whatever the stored profile and whatever settings the user then
    changes, the main process's ad-blocking and Do-Not-Track flags equal
    the renderer's, and its download folder is the renderer's or, when
    none is set, the default downloads folder. *)
Theorem config_follows_ui st d0 acts : synced d0 (run acts (boot st (config_init d0))).
Proof. apply run_synced, boot_synced. Qed.

(** C29: The request filters enforce what the Settings page shows: a
    request is cancelled exactly when ad blocking is on and it matches an
    [adUrls] pattern, and the DNT and Sec-GPC headers are added exactly
    when Do-Not-Track is on. *)
Theorem requests_follow_settings `{UrlApi} st d0 acts u h :
  let w := run acts (boot st (config_init d0)) in
  onBeforeRequest (main w) u = adBlockEnabled (ui w) && ad_match u /\
  onBeforeSendHeaders (main w) h = if dntEnabled (ui w) then <["Sec-GPC" := "1"]> (<["DNT" := "1"]> h) else h.
Proof.
  intros w. destruct (config_follows_ui st d0 acts) as (Ha & Hd & _). fold w in Ha, Hd.
  unfold onBeforeRequest, onBeforeSendHeaders. rewrite Ha, Hd.
  split; [|done]. by destruct (ad_match u), (adBlockEnabled (ui w)).
Qed.

(** With a non-empty default folder, every download is saved in the
    folder the Settings page shows, or in the default folder when none
    was chosen. *)
Theorem download_folder_follows_settings st d0 acts it id now win :
  d0 <> "" ->
  let w := run acts (boot st (config_init d0)) in
  Downloads.getSavePath (fst (fst (start_download (main w) it id now win))) =
  Downloads.path_join (downloadPath (ui w) || d0)%js (Downloads.getFilename it).
Proof.
  intros Hd0 w. destruct (config_follows_ui st d0 acts) as (_ & _ & Hp). fold w in Hp.
  unfold start_download, Downloads.will_download. rewrite Hp. simpl.
  assert (Hne : js_truthy (downloadPath (ui w) || d0)%js = true).
  { apply js_truthy_true. unfold js_or. by destruct (String.eqb_spec (downloadPath (ui w)) ""). }
  by rewrite Hne.
Qed.

(** C30: After any settings changes the controls allow, a restart reads
    back every preference from [localStorage], but an empty saved
    homepage, which comes back as the New Tab page. *)
Theorem reload_restores_prefs st c c' acts :
  Forall (fun a => action_ok a = true) acts ->
  let w := run acts (boot st c) in
  ui (boot (store w) c') = set_homepage (homepage (ui w) || newtab_home)%js (ui w).
Proof. intros Hok w. rewrite ui_boot. apply run_persisted; [done | apply boot_persisted]. Qed.

(** C31: On a profile with no stored theme the mount effect sets the theme
    to [null] ([getItem] never returns [undefined]), and then no control
    changes it: the theme toggle does nothing, forever. *)
Theorem fresh_theme_stuck st c acts :
  st !! "theme" = None ->
  theme (ui (run acts (boot st c))) = None /\ store (run acts (boot st c)) !! "theme" = None.
Proof.
  intros Hst. assert (H0 : theme (ui (boot st c)) = None /\ store (boot st c) !! "theme" = None) by done.
  unfold run. revert H0. generalize (boot st c) as w.
  induction acts as [|a acts IH]; intros w [H1 H2]; simpl; [done|].
  by apply IH, act_theme_none.
Qed.

(** ** Witnesses *)

Definition profile : storage := <["theme" := "dark"]> (<["zoomLevel" := "1.25"]> ∅).
Definition session_acts : list action :=
  [AToggleAdBlock; ASelectZoom "1.1"; ASaveHomepage ""; ASelectDownloadFolder (Some "/home/u/dl"); AToggleTheme].

Lemma download_folder_follows_settings_witness :
  "/home/u/Downloads" <> "" /\
  (let w := run session_acts (boot profile (config_init "/home/u/Downloads")) in
   Downloads.getSavePath (fst (fst (start_download (main w) (Downloads.mkItem "a.zip" "" 10 0 false) "1" 0 true))) =
   Downloads.path_join (downloadPath (ui w) || "/home/u/Downloads")%js "a.zip").
Proof. split; [discriminate | apply (download_folder_follows_settings profile "/home/u/Downloads" session_acts); discriminate]. Defined.

Lemma reload_restores_prefs_witness :
  Forall (fun a => action_ok a = true) session_acts /\
  (let w := run session_acts (boot profile (config_init "/d")) in
   ui (boot (store w) (config_init "/d")) = set_homepage (homepage (ui w) || newtab_home)%js (ui w)).
Proof.
  split; [repeat constructor | apply (reload_restores_prefs profile (config_init "/d") (config_init "/d") session_acts)];
  repeat constructor.
Defined.

Lemma fresh_theme_stuck_witness :
  (∅ : storage) !! "theme" = None /\
  theme (ui (run [AToggleTheme; AToggleTheme] (boot ∅ (config_init "/d")))) = None /\
  store (run [AToggleTheme; AToggleTheme] (boot ∅ (config_init "/d"))) !! "theme" = None.
Proof. split; [reflexivity | apply (fresh_theme_stuck ∅ (config_init "/d") [AToggleTheme; AToggleTheme]); reflexivity]. Defined.

End Settings.
