(* ===== verification/FindBar.v ===== *)
(** * FindBar: find in page (FindBar.jsx)

    BrowserWindow renders the find bar whenever [showFind] is set (line
    245), on web pages and on internal pages alike.  The bar keeps the
    query and the last match count; its mount effect (lines 9-33) binds
    [found-in-page] to the webview [webviewRef] holds at mount, and its
    cleanup stops the search on that webview.  The handlers (lines 35-55)
    call methods of the webview [webviewRef] holds at the time of the call:
    [null] on an internal page, which throws a [TypeError]; a webview
    before [dom-ready] throws as well ([Coordinator] models the same rule).

    A handler's outcome is the bar's new state with the webview commands
    it issued, the request to close the bar ([onClose]), or the exception
    it threw with the state updates queued before it. *)

From S2P Require Import Prelude History Bookmarks Tabs Coordinator Settings.

Module FindBar.

Record matches := mkMatches { activeMatchOrdinal : Z; total : Z }.

Record find_state := mkFind {
  query : string;
  found : matches;
  listening : bool  (** a webview existed at mount: [found-in-page] is bound *)
}.

(** [findInPage(text, { findNext, forward })] and [stopFindInPage('clearSelection')]. *)
Inductive find_cmd := FindInPage (text : string) (findNext forward : bool) | StopFindInPage.

Inductive exn := NullRef | NotReady.

Inductive outcome :=
  | Ok (s : find_state) (cmds : list find_cmd)
  | Close (s : find_state)
  | Throw (e : exn) (s : find_state).

(** [webviewRef.current] while BrowserWindow shows [tab]: the webview
    when one is rendered, [null] otherwise. *)
Definition webview_ref (tab : option App.tab) (w : Coordinator.webview) : option Coordinator.webview :=
  if Coordinator.webview_rendered tab then Some w else None.

(** Whether a method call on [webviewRef.current] throws. *)
Definition webview_call (wv : option Coordinator.webview) : option exn :=
  match wv with
  | None => Some NullRef
  | Some w => if Coordinator.attached w then None else Some NotReady
  end.

(** One call: its command, or the exception. *)
Definition call (wv : option Coordinator.webview) (s : find_state) (c : find_cmd) (s' : find_state) : outcome :=
  match webview_call wv with
  | Some e => Throw e s
  | None => Ok s' [c]
  end.

Definition no_matches : matches := mkMatches 0 0.

(** The mount effect: the query is empty, the listener bound when a
    webview exists. *)
Definition mount (wv : option Coordinator.webview) : find_state :=
  mkFind "" no_matches (bool_decide (is_Some wv)).

Definition set_query (t : string) (s : find_state) : find_state := mkFind t (found s) (listening s).

(** [handleSearch(text)] (lines 35-43). *)
Definition handleSearch (wv : option Coordinator.webview) (text : string) (s : find_state) : outcome :=
  let s1 := set_query text s in
  if negb (js_truthy text) then call wv s1 StopFindInPage (mkFind text no_matches (listening s))
  else call wv s1 (FindInPage text false true) s1.

(** [findNext] and [findPrev] (lines 45-46). *)
Definition findNext (wv : option Coordinator.webview) (s : find_state) : outcome :=
  call wv s (FindInPage (query s) true true) s.

Definition findPrev (wv : option Coordinator.webview) (s : find_state) : outcome :=
  call wv s (FindInPage (query s) true false) s.

(** [handleKeyDown] (lines 48-55). *)
Definition handleKeyDown (wv : option Coordinator.webview) (key : string) (shiftKey : bool) (s : find_state)
    : outcome :=
  if String.eqb key "Enter" then (if shiftKey then findPrev wv s else findNext wv s)
  else if String.eqb key "Escape" then Close s
  else Ok s [].

(** A [found-in-page] event's [result]. *)
Record find_result := mkResult { requestId : Z; r_ordinal : Z; r_matches : Z; finalUpdate : bool }.

(** [handleFoundInPage] (lines 12-20), reached only when bound. *)
Definition handleFoundInPage (result : option find_result) (s : find_state) : find_state :=
  if listening s then
    match result with
    | Some r => mkFind (query s) (mkMatches (r_ordinal r) (r_matches r)) (listening s)
    | None => s
    end
  else s.

(** The cleanup (lines 27-32): the commands to the webview of the mount. *)
Definition unmount (s : find_state) : list find_cmd := if listening s then [StopFindInPage] else [].

(** [String(n)] for a count. *)
Definition count_string (n : Z) : string :=
  (if (n <? 0)%Z then "-" else "") +:+ string_of_list_ascii (Settings.N_digits (Z.to_N (Z.abs n))).

(** The match counter (line 68). *)
Definition match_label (m : matches) : string :=
  if (0 <? total m)%Z then count_string (activeMatchOrdinal m) +:+ "/" +:+ count_string (total m) else "0/0".

(** ** Sessions of the bar *)

Inductive find_event :=
  | Typed (text : string)
  | KeyDown (key : string) (shiftKey : bool)
  | ClickNext | ClickPrev
  | Found (result : option find_result).

(** One event with the webview [webviewRef] holds at that time. *)
Definition step (wv : option Coordinator.webview) (ev : find_event) (s : find_state) : outcome :=
  match ev with
  | Typed t => handleSearch wv t s
  | KeyDown k sh => handleKeyDown wv k sh s
  | ClickNext => findNext wv s
  | ClickPrev => findPrev wv s
  | Found r => Ok (handleFoundInPage r s) []
  end.

Definition outcome_state (o : outcome) : find_state :=
  match o with Ok s _ => s | Close s => s | Throw _ s => s end.

(** A run of events until the bar closes; an exception in a handler is
    reported by React and the bar stays open. *)
Fixpoint run (evs : list (option Coordinator.webview * find_event)) (s : find_state) : find_state :=
  match evs with
  | [] => s
  | (wv, ev) :: evs' =>
      match step wv ev s with
      | Close s' => s'
      | o => run evs' (outcome_state o)
      end
  end.

(** ** Lemmas *)

Lemma internal_no_webview t w :
  startsWith (App.url t) "browser://" = true -> webview_ref (Some t) w = None.
Proof.
  intros H. unfold webview_ref, Coordinator.webview_rendered, Coordinator.page_of.
  destruct (negb (js_truthy (App.url t))); [done|]. rewrite H. by repeat case_match.
Qed.

Lemma call_null s c s' : call None s c s' = Throw NullRef s.
Proof. reflexivity. Qed.

Lemma call_ready w s c s' : Coordinator.attached w = true -> call (Some w) s c s' = Ok s' [c].
Proof. intros H. unfold call, webview_call. by rewrite H. Qed.

Lemma find_step_unbound wv ev s :
  listening s = false -> found s = no_matches ->
  listening (outcome_state (step wv ev s)) = false /\ found (outcome_state (step wv ev s)) = no_matches.
Proof.
  intros Hl Hf. destruct ev as [t|k sh| | |r]; simpl.
  - unfold handleSearch, call. by destruct (negb (js_truthy t)), (webview_call wv).
  - unfold handleKeyDown, findPrev, findNext, call.
    by destruct (String.eqb k "Enter"), sh, (webview_call wv), (String.eqb k "Escape").
  - unfold findNext, call. by destruct (webview_call wv).
  - unfold findPrev, call. by destruct (webview_call wv).
  - unfold handleFoundInPage. by rewrite Hl.
Qed.

Lemma find_run_unbound evs s :
  listening s = false -> found s = no_matches ->
  listening (run evs s) = false /\ found (run evs s) = no_matches.
Proof.
  revert s. induction evs as [|[wv ev] evs IH]; intros s Hl Hf; simpl; [done|].
  destruct (find_step_unbound wv ev s Hl Hf) as [Hl' Hf'].
  destruct (step wv ev s) eqn:E; simpl in *; auto.
Qed.

(** ** Theorems *)

(** C32: With the find bar open on an internal page, typing, Enter,
    Shift+Enter and the arrow buttons all throw a [TypeError]: the
    handlers call a method of [webviewRef.current], which is [null]. *)
Theorem find_on_internal_page_throws t w s text sh :
  startsWith (App.url t) "browser://" = true ->
  let wv := webview_ref (Some t) w in
  handleSearch wv text s = Throw NullRef (set_query text s) /\
  handleKeyDown wv "Enter" sh s = Throw NullRef s /\
  findNext wv s = Throw NullRef s /\ findPrev wv s = Throw NullRef s.
Proof.
  intros H wv. unfold wv. rewrite internal_no_webview by done.
  unfold handleSearch, handleKeyDown. simpl. destruct (negb (js_truthy text)), sh; done.
Qed.

(** On a ready webview, typing a non-empty text starts a new search
    for it, and clearing the field stops the search and resets the
    counter to 0/0. *)
Theorem search_commands w s text :
  Coordinator.attached w = true ->
  handleSearch (Some w) text s =
    (if js_truthy text then Ok (set_query text s) [FindInPage text false true]
     else Ok (mkFind text no_matches (listening s)) [StopFindInPage]) /\
  (js_truthy text = false -> match_label (found (outcome_state (handleSearch (Some w) text s))) = "0/0").
Proof.
  intros H. unfold handleSearch. destruct (js_truthy text); simpl; rewrite call_ready by done; done.
Qed.

(** C33: A find bar opened while no webview was rendered never shows a
    match count: its [found-in-page] listener was never bound, so even
    after the tab loads a web page and searches run, the counter stays
    0/0. *)
Theorem unbound_counter_stuck evs :
  found (run evs (mount None)) = no_matches /\ match_label (found (run evs (mount None))) = "0/0".
Proof.
  destruct (find_run_unbound evs (mount None) eq_refl eq_refl) as [_ Hf]. by rewrite Hf.
Qed.

(** The [found-in-page] handler does not compare the result's
    [requestId] with the current search: a late result of the search for
    "ab" is shown as the count of the search for "abc". *)
Theorem stale_result_shown w :
  Coordinator.attached w = true ->
  let s := run [(Some w, Typed "ab"); (Some w, Typed "abc"); (Some w, Found (Some (mkResult 1 1 7 true)))]
               (mount (Some w)) in
  query s = "abc" /\ match_label (found s) = "1/7".
Proof. intros H. cbn. unfold handleSearch. cbn. rewrite !call_ready by done. done. Qed.

(** ** Witnesses *)

Definition settings_tab : App.tab := App.mkTab "t1" "Settings" "browser://settings" false false None.
Definition ready_wv : Coordinator.webview := Coordinator.mkWebview true "https://example.com/" "Example" false false.

Lemma find_on_internal_page_throws_witness :
  startsWith (App.url settings_tab) "browser://" = true /\
  (let wv := webview_ref (Some settings_tab) ready_wv in
   handleSearch wv "x" (mount None) = Throw NullRef (set_query "x" (mount None)) /\
   handleKeyDown wv "Enter" false (mount None) = Throw NullRef (mount None) /\
   findNext wv (mount None) = Throw NullRef (mount None) /\ findPrev wv (mount None) = Throw NullRef (mount None)).
Proof. split; [reflexivity | apply find_on_internal_page_throws; reflexivity]. Defined.

Lemma search_commands_witness :
  Coordinator.attached ready_wv = true /\
  handleSearch (Some ready_wv) "" (mount (Some ready_wv)) =
    (if js_truthy "" then Ok (set_query "" (mount (Some ready_wv))) [FindInPage "" false true]
     else Ok (mkFind "" no_matches (listening (mount (Some ready_wv)))) [StopFindInPage]) /\
  (js_truthy "" = false ->
   match_label (found (outcome_state (handleSearch (Some ready_wv) "" (mount (Some ready_wv))))) = "0/0").
Proof. split; [reflexivity | apply search_commands; reflexivity]. Defined.

Lemma stale_result_shown_witness :
  Coordinator.attached ready_wv = true /\
  (let s := run [(Some ready_wv, Typed "ab"); (Some ready_wv, Typed "abc");
                 (Some ready_wv, Found (Some (mkResult 1 1 7 true)))] (mount (Some ready_wv)) in
   query s = "abc" /\ match_label (found s) = "1/7").
Proof. split; [reflexivity | apply stale_result_shown; reflexivity]. Defined.

End FindBar.
