(* ===== verification/HistoryPage.v ===== *)
(** * HistoryPage: the History page (components/History.jsx)

    The page loads the stored history at mount (lines 9-11), filters it by
    the search box (lines 27-34: a case-insensitive substring test on the
    title and on the URL) and groups the result by day (lines 36-51): the
    label is ["Today"], ["Yesterday"] or [new Date(ts).toDateString()],
    and the groups are the keys of a plain object, which keep the order in
    which they were first created.  Delete and Clear go through
    [HistoryManager] (lines 13-25).

    [toDateString] depends on the time zone and [today]/[yesterday] on the
    clock: they are the variables of the section.  The grouping is proved
    equal to a reference definition: one group per label, in order of
    first appearance, holding the entries with that label in list order.

    [history_step] composes the page's events with App's state: the page
    and App share the stored history, and a click on an entry is App's
    [updateTab] on the active tab. *)

From stdpp Require Import sets.
From S2P Require Import Prelude History Bookmarks Tabs.

Module HistoryPage.

Import HistoryManager.

(** The page's state: [history] and [searchTerm]. *)
Record page := mkPage { items : list entry; searchTerm : string }.

(** The mount effect: [setHistory(HistoryManager.getHistory())]. *)
Definition mount (stored : list entry) : page := mkPage stored "".

(** [clearHistory] after [confirm]: the page and the store both empty. *)
Definition clearHistory_page (confirmed : bool) (p : page) (stored : list entry) : page * list entry :=
  if confirmed then (mkPage (HistoryManager.clearHistory stored) (searchTerm p), HistoryManager.clearHistory stored)
  else (p, stored).

(** [deleteItem(e, id)]: the store without the entry, shown as is. *)
Definition deleteItem (i : string) (p : page) (stored : list entry) : page * list entry :=
  let updated := HistoryManager.deleteEntry i stored in (mkPage updated (searchTerm p), updated).

Definition setSearchTerm (t : string) (p : page) : page := mkPage (items p) t.

(** [(item.title || "").toLowerCase().includes(lower) || (item.url || "")...] *)
Definition matches_term (lower : string) (e : entry) : bool :=
  includes (toLowerCase (title e || "")%js) lower || includes (toLowerCase (url e || "")%js) lower.

(** [filteredHistory] *)
Definition filteredHistory (term : string) (h : list entry) : list entry :=
  if negb (js_truthy term) then h else List.filter (matches_term (toLowerCase term)) h.

(** [if (!groups[label]) groups[label] = []; groups[label].push(item)] on
    an object whose keys keep their creation order. *)
Fixpoint group_insert (lab : string) (e : entry) (gs : list (string * list entry)) : list (string * list entry) :=
  match gs with
  | [] => [(lab, [e])]
  | (l, es) :: gs' => if String.eqb l lab then (l, es ++ [e]) :: gs' else (l, es) :: group_insert lab e gs'
  end.

(** ** The page beside App

    The page and App share the [history] key of [localStorage]: App's
    [updateTab] appends to it ([App.stored_history]) and the page's
    handlers read and write it through [HistoryManager]. *)

Definition set_stored_history (h : list entry) (s : App.state) : App.state :=
  App.mkState (App.tabs s) (App.activeTab s) (App.bookmarks s) h (App.stored_bookmarks s) (App.timers s).

(** The page's events: typing in the search box or clearing it (lines
    67-77), Clear Data with the [confirm] answer (line 79), a click on an
    entry (line 100) and on its delete button (line 115), which stops the
    click's propagation. *)
Inductive history_event :=
  | Search (t : string) | ClearSearch | ClearData (confirmed : bool)
  | ItemClick (e : entry) | ItemDelete (i : string).

(** BrowserWindow's [onNavigate] for the page is [onVisit(url, url, true,
    null)] (BrowserWindow.jsx line 275): App's [updateTab] on the active
    tab, loading, so no history is written ([hid] and [ts] are unused). *)
Definition history_step (ev : history_event) (p : page) (s : App.state) : page * App.state :=
  match ev with
  | Search t => (setSearchTerm t p, s)
  | ClearSearch => (setSearchTerm "" p, s)
  | ClearData ok =>
      let '(p', h) := clearHistory_page ok p (App.stored_history s) in (p', set_stored_history h s)
  | ItemClick e => (p, App.updateTab (url e) (url e) true None "" "" s)
  | ItemDelete i => let '(p', h) := deleteItem i p (App.stored_history s) in (p', set_stored_history h s)
  end.

Section Grouping.

(** [new Date(ts).toDateString()] in the local time zone, and the strings
    it gives for now and for 24 hours ago. *)
Variable toDateString : string -> string.
Variables today yesterday : string.

Definition label_of (e : entry) : string :=
  let d := toDateString (timestamp e) in
  if String.eqb d today then "Today" else if String.eqb d yesterday then "Yesterday" else d.

(** [groupedHistory] *)
Definition groupedHistory (items : list entry) : list (string * list entry) :=
  fold_left (fun gs e => group_insert (label_of e) e gs) items [].

(** The reference: the distinct labels in order of first appearance, each
    with the entries that carry it. *)
Definition first_labels (items : list entry) : list string :=
  fold_left (fun ls e => if bool_decide (label_of e ∈ ls) then ls else ls ++ [label_of e]) items [].

Definition with_label (items : list entry) (l : string) : list entry :=
  List.filter (fun x => String.eqb (label_of x) l) items.

Definition groups_spec (items : list entry) : list (string * list entry) :=
  map (fun l => (l, with_label items l)) (first_labels items).

(** The empty state (lines 87-93): shown when no group is left. *)
Definition empty_message (p : page) : option string :=
  if bool_decide (groupedHistory (filteredHistory (searchTerm p) (items p)) = []) then
    Some (if js_truthy (searchTerm p) then "No search results found" else "No history yet")
  else None.

Lemma with_label_snoc items e l :
  with_label (items ++ [e]) l = with_label items l ++ (if String.eqb (label_of e) l then [e] else []).
Proof. unfold with_label. rewrite List.filter_app. simpl. by destruct (String.eqb (label_of e) l). Qed.

Lemma group_insert_spec ks items e :
  NoDup ks ->
  (label_of e ∉ ks -> with_label items (label_of e) = []) ->
  group_insert (label_of e) e (map (fun l => (l, with_label items l)) ks) =
  map (fun l => (l, with_label (items ++ [e]) l))
      (if bool_decide (label_of e ∈ ks) then ks else ks ++ [label_of e]).
Proof.
  induction ks as [|k ks IH]; intros Hnd Hnew.
  - rewrite bool_decide_false by set_solver. cbn [map group_insert app].
    rewrite with_label_snoc, Hnew by set_solver. by rewrite String.eqb_refl.
  - apply NoDup_cons in Hnd as [Hk Hnd]. cbn [map group_insert].
    destruct (String.eqb_spec k (label_of e)) as [->|Hne].
    + rewrite bool_decide_true by set_solver. cbn [map]. rewrite with_label_snoc, String.eqb_refl.
      f_equal. apply map_ext_in. intros l Hl. rewrite with_label_snoc.
      destruct (String.eqb_spec (label_of e) l) as [<-|]; [|by rewrite app_nil_r].
      exfalso. apply Hk. by apply list_elem_of_In.
    + rewrite IH by (done || set_solver).
      destruct (decide (label_of e ∈ ks)).
      * rewrite !bool_decide_true by set_solver. cbn [map].
        rewrite (with_label_snoc items e k). destruct (String.eqb_spec (label_of e) k); [congruence|].
        by rewrite app_nil_r.
      * rewrite !bool_decide_false by set_solver. cbn [map app].
        rewrite (with_label_snoc items e k). destruct (String.eqb_spec (label_of e) k); [congruence|].
        by rewrite app_nil_r.
Qed.

Lemma first_labels_snoc items e :
  first_labels (items ++ [e]) =
  if bool_decide (label_of e ∈ first_labels items) then first_labels items
  else first_labels items ++ [label_of e].
Proof. unfold first_labels. by rewrite fold_left_app. Qed.

Lemma first_labels_ok items :
  NoDup (first_labels items) /\ (forall x, In x items -> label_of x ∈ first_labels items).
Proof.
  induction items as [|e items IH] using rev_ind; [split; [constructor|done]|].
  destruct IH as [Hnd Hin]. rewrite first_labels_snoc.
  case_bool_decide as H; split.
  - done.
  - intros x Hx. apply in_app_or in Hx as [Hx|[<-|[]]]; auto.
  - apply NoDup_app. split; [done|]. split; [|apply NoDup_singleton]. set_solver.
  - intros x Hx. apply in_app_or in Hx as [Hx|[<-|[]]]; set_solver.
Qed.

Lemma with_label_absent items l :
  (forall x, In x items -> label_of x <> l) -> with_label items l = [].
Proof.
  induction items as [|x items IH]; intros H; simpl; [done|].
  destruct (String.eqb_spec (label_of x) l); [exfalso; by apply (H x); [left|]|].
  apply IH. intros y Hy. apply H. by right.
Qed.

(** C37: The grouping of the History page equals its reference: one group
    per day label, in the order the labels first appear, each holding
    exactly the entries with that label in their list order. *)
Theorem groupedHistory_spec items : groupedHistory items = groups_spec items.
Proof.
  induction items as [|e items IH] using rev_ind; [done|].
  unfold groupedHistory. rewrite fold_left_app. fold (groupedHistory items). rewrite IH.
  unfold groups_spec. rewrite first_labels_snoc.
  destruct (first_labels_ok items) as [Hnd Hin].
  apply group_insert_spec; [done|]. intros Hl. apply with_label_absent.
  intros x Hx Heq. apply Hl. rewrite <- Heq. by apply Hin.
Qed.


End Grouping.

(** Every event of the page is a transition of the registry, or leaves
    the tab list, the active pointer and the timers as they are. *)
Lemma history_step_app ev p s :
  App.timers s = [] ->
  (App.tabs (history_step ev p s).2 = App.tabs s /\ App.activeTab (history_step ev p s).2 = App.activeTab s /\
   App.timers (history_step ev p s).2 = App.timers s) \/
  App.step s (history_step ev p s).2.
Proof.
  intros Ht. destruct ev as [t| |ok|e|i]; simpl; [by left|by left| | |].
  - left. unfold clearHistory_page. by destruct ok.
  - right. by apply App.step_visit.
  - by left.
Qed.

(** The History search ignores the case of the search term: any
    term filters the history exactly as its lower-case form does. *)
Theorem search_case_insensitive term h :
  filteredHistory (toLowerCase term) h = filteredHistory term h.
Proof. unfold filteredHistory. by autorewrite with browser_rw. Qed.

End HistoryPage.
