(* ===== verification/TabViews.v ===== *)
(** * TabViews: the tab strip (TabBar.jsx), the sidebar (Sidebar.jsx), the
    bookmarks bar (BookmarksBar.jsx) and the New Tab page (NewTab.jsx)

    Both views split the tab list into [pinnedTabs] and [regularTabs]
    (TabBar.jsx lines 4-5, Sidebar.jsx lines 16-17) and render the first
    before the second.  Each tab item shows an icon ([tabbar_icon],
    [sidebar_icon]) and offers a click (select), a context menu (toggle
    pin) and, on unpinned tabs only, a close button; [tab_click] is the
    registry handler each calls, modelled in [Tabs].  The sidebar also
    shows the first eight bookmarks as shortcuts (lines 130-153), with a
    favicon taken from the bookmark or from the host of its URL, a context
    menu that removes a bookmark (lines 32-50), and New Tab and footer
    buttons that call App's [addTab]; [sidebar_step] is one of its events.
    The bookmarks bar navigates with [smartNavigate] in singleton mode and
    removes a bookmark after [confirm] ([bar_step]); the New Tab page
    resolves its query with [Navigation.newTabResolve] ([newtab_step]).

    Theorems: in every reachable state the views show the tabs in the
    registry's order; a pinned tab has no close button; every event of
    the sidebar, the bar and the page is a registry transition or leaves the registry unchanged (used
    by [AddressBar]'s refinement). *)

From S2P Require Import Prelude History Bookmarks Tabs Url Navigation.

Module TabViews.

Definition pinnedTabs (l : list App.tab) : list App.tab := List.filter App.isPinned l.
Definition regularTabs (l : list App.tab) : list App.tab := List.filter (fun t => negb (App.isPinned t)) l.

(** The order in which both views render the tabs. *)
Definition rendered_order (l : list App.tab) : list App.tab := pinnedTabs l ++ regularTabs l.

(** [bookmarks.slice(0, 8)] *)
Definition shortcuts (bms : list BookmarksManager.bookmark) : list BookmarksManager.bookmark := take 8 bms.

(** The shortcut icon (lines 131-139): the bookmark's favicon, else the
    favicon service for the host of its URL, else none when [new URL]
    throws. *)
Definition shortcut_favicon `{UrlApi} (b : BookmarksManager.bookmark) : option string :=
  let fav := BookmarksManager.favicon b in
  if negb (match fav with Some f => js_truthy f | None => false end) && js_truthy (BookmarksManager.url b) then
    match url_parse (BookmarksManager.url b) with
    | Some p => Some ("https://www.google.com/s2/favicons?domain=" +:+ hostname p +:+ "&sz=64")
    | None => None
    end
  else fav.

(** The bookmark context menu. *)
Record sidebar := mkSidebar { contextMenu : option BookmarksManager.bookmark }.

Definition handleContextMenu (b : BookmarksManager.bookmark) (sb : sidebar) : sidebar := mkSidebar (Some b).

(** [handleRemoveBookmark]: App's [onRemoveBookmark] is
    [setBookmarks(BookmarksManager.removeBookmark(url))]. *)
Definition handleRemoveBookmark (sb : sidebar) (bms : list BookmarksManager.bookmark)
    : sidebar * list BookmarksManager.bookmark :=
  match contextMenu sb with
  | Some b => (mkSidebar None, BookmarksManager.removeBookmark (BookmarksManager.url b) bms)
  | None => (mkSidebar None, bms)
  end.

Definition closeContextMenu (sb : sidebar) : sidebar := mkSidebar None.

(** ** The tab items (TabBar.jsx lines 11-59, Sidebar.jsx lines 52-79) *)

Inductive tab_icon := FaviconImg (f : string) | SettingsIcon | ClockIcon | DownloadIcon | FileIcon | GlobeIcon.

(** [tab.favicon ? <img/> : ...] *)
Definition favicon_img (t : App.tab) : option string :=
  match App.favicon t with Some f => if js_truthy f then Some f else None | None => None end.

(** A pinned tab in the tab strip (lines 19-24). *)
Definition tabbar_pinned_icon (t : App.tab) : tab_icon :=
  match favicon_img t with
  | Some f => FaviconImg f
  | None => if String.eqb (App.url t) "browser://settings" then SettingsIcon
            else if String.eqb (App.url t) "browser://history" then ClockIcon else GlobeIcon
  end.

(** A regular tab in the tab strip (lines 38-46). *)
Definition tabbar_icon (t : App.tab) : tab_icon :=
  match favicon_img t with
  | Some f => FaviconImg f
  | None =>
      if js_truthy (App.url t) && startsWith (App.url t) "browser://" then
        (if String.eqb (App.url t) "browser://settings" then SettingsIcon
         else if String.eqb (App.url t) "browser://history" then ClockIcon else FileIcon)
      else GlobeIcon
  end.

(** A tab in the sidebar (lines 60-67), with its title. *)
Definition sidebar_icon (t : App.tab) : tab_icon :=
  match favicon_img t with
  | Some f => FaviconImg f
  | None => if String.eqb (App.url t) "browser://settings" then SettingsIcon
            else if String.eqb (App.url t) "browser://history" then ClockIcon
            else if String.eqb (App.url t) "browser://downloads" then DownloadIcon else GlobeIcon
  end.

Definition sidebar_title (t : App.tab) : string := (App.title t || "New Tab")%js.

(** What a tab item lets the user do: click it, open its context menu,
    and, on an unpinned tab only, click its close button. *)
Inductive tab_control := SelectTab (i : string) | TogglePin (i : string) | CloseTab (i : string).

Definition item_controls (t : App.tab) : list tab_control :=
  [SelectTab (App.id t); TogglePin (App.id t)] ++ (if App.isPinned t then [] else [CloseTab (App.id t)]).

(** The controls of both views, in their rendered order. *)
Definition view_controls (l : list App.tab) : list tab_control := flat_map item_controls (rendered_order l).

(** The registry handler a control calls; the close button stops the
    click's propagation, so the item is not also selected. *)
Definition tab_click (c : tab_control) (nid : string) (s : App.state) : App.state :=
  match c with
  | SelectTab i => App.setActiveTab i s
  | TogglePin i => App.togglePinTab i s
  | CloseTab i => App.closeTab i nid s
  end.

(** ** The sidebar's events (Sidebar.jsx lines 81-193) *)

Inductive sidebar_event :=
  | OnTab (c : tab_control)
  | ShortcutClick (b : BookmarksManager.bookmark)
  | ShortcutMenu (b : BookmarksManager.bookmark)
  | RemoveClick
  | Background
  | NewTabClick | SettingsClick | HistoryClick | DownloadsClick.

(** The [addTab] prop App gives the sidebar (App.jsx line 334): App's own
    [addTab], not [smartNavigate]; [null] is [""]. *)
Definition sidebar_addTab (homepage u title nid : string) (s : App.state) : App.state :=
  App.addTab (u || (if negb (String.eqb homepage App.newtab_url) then homepage else ""))%js title false nid s.

(** [setBookmarks] with what [removeBookmark] stored. *)
Definition set_bookmarks (bms : list BookmarksManager.bookmark) (s : App.state) : App.state :=
  App.mkState (App.tabs s) (App.activeTab s) bms (App.stored_history s) bms (App.timers s).

(** An event; a click that reaches the container also closes the
    shortcut menu (line 82). *)
Definition sidebar_step `{UrlApi} (homepage nid : string) (ev : sidebar_event) (sb : sidebar) (s : App.state)
    : sidebar * App.state :=
  match ev with
  | OnTab (SelectTab i) => (closeContextMenu sb, tab_click (SelectTab i) nid s)
  | OnTab c => (sb, tab_click c nid s)
  | ShortcutClick b =>
      (closeContextMenu sb, Navigation.smartNavigate (BookmarksManager.url b) (BookmarksManager.url b) true nid s)
  | ShortcutMenu b => (handleContextMenu b sb, s)
  | RemoveClick =>
      match contextMenu sb with
      | Some _ => let '(sb', bms) := handleRemoveBookmark sb (App.stored_bookmarks s) in (sb', set_bookmarks bms s)
      | None => (closeContextMenu sb, s)
      end
  | Background => (closeContextMenu sb, s)
  | NewTabClick => (closeContextMenu sb, sidebar_addTab homepage App.newtab_url "New Tab" nid s)
  | SettingsClick => (closeContextMenu sb, sidebar_addTab homepage "browser://settings" "Settings" nid s)
  | HistoryClick => (closeContextMenu sb, sidebar_addTab homepage "browser://history" "History" nid s)
  | DownloadsClick => (closeContextMenu sb, sidebar_addTab homepage "browser://downloads" "Downloads" nid s)
  end.

(** The events the sidebar can deliver in a state: a control or a
    shortcut that is on screen. *)
Definition sidebar_rendered (ev : sidebar_event) (s : App.state) : Prop :=
  match ev with
  | OnTab c => In c (view_controls (App.tabs s))
  | ShortcutClick b | ShortcutMenu b => In b (shortcuts (App.bookmarks s))
  | _ => True
  end.

(** ** The bookmarks bar (BookmarksBar.jsx) *)

(** App renders the bar outside sidebar mode when it is switched on
    (App.jsx line 284), and the bar renders nothing without bookmarks
    (line 5). *)
Definition bookmarks_bar_shown (layoutMode : string) (showBookmarksBar : bool)
    (bms : list BookmarksManager.bookmark) : bool :=
  negb (String.eqb layoutMode "sidebar") && showBookmarksBar && negb (bool_decide (bms = [])).

Inductive bar_icon := BarFavicon (f : string) | BarGlobe.

(** [b.favicon ? <img/> : <Globe/>] (lines 22-26). *)
Definition bar_item_icon (b : BookmarksManager.bookmark) : bar_icon :=
  match BookmarksManager.favicon b with Some f => if js_truthy f then BarFavicon f else BarGlobe | None => BarGlobe end.

(** A click on an item, or its context menu with the [confirm] answer
    (lines 13-19). *)
Inductive bar_event := BarClick (b : BookmarksManager.bookmark) | BarRemove (b : BookmarksManager.bookmark) (confirmed : bool).

(** App's [onNavigate] is [smartNavigate(url, url, { singleton: true })]
    and [onRemove] is [setBookmarks(BookmarksManager.removeBookmark(url))]
    (App.jsx lines 287-288). *)
Definition bar_step `{UrlApi} (nid : string) (ev : bar_event) (s : App.state) : App.state :=
  match ev with
  | BarClick b => Navigation.smartNavigate (BookmarksManager.url b) (BookmarksManager.url b) true nid s
  | BarRemove b ok =>
      if ok then set_bookmarks (BookmarksManager.removeBookmark (BookmarksManager.url b) (App.stored_bookmarks s)) s else s
  end.

(** ** The New Tab page (NewTab.jsx) *)

Record newtab := mkNewTab { query : string }.

(** The [shortcuts] cards (lines 24-29), by name and URL. *)
Definition newtab_shortcuts : list (string * string) :=
  [("Google", "https://google.com"); ("YouTube", "https://youtube.com");
   ("Twitter", "https://twitter.com"); ("GitHub", "https://github.com")].

Inductive newtab_event := NTType (q : string) | NTSubmit | NTShortcut (u : string).

(** The page's events with [searchEngine]; BrowserWindow's [onNavigate] is
    [onSmartNavigate(url, url)] (BrowserWindow.jsx lines 247-250). *)
Definition newtab_step `{UrlApi} (searchEngine nid : string) (ev : newtab_event) (p : newtab) (s : App.state)
    : newtab * App.state :=
  match ev with
  | NTType q => (mkNewTab q, s)
  | NTSubmit =>
      match Navigation.newTabResolve searchEngine (query p) with
      | Some u => (p, Navigation.smartNavigate u u false nid s)
      | None => (p, s)
      end
  | NTShortcut u => (p, Navigation.smartNavigate u u false nid s)
  end.

(** The items a user can click: an item of the bar, a card of the page. *)
Definition bar_rendered (ev : bar_event) (s : App.state) : Prop :=
  match ev with BarClick b | BarRemove b _ => In b (App.bookmarks s) end.

Definition newtab_rendered (ev : newtab_event) : Prop :=
  match ev with NTShortcut u => In u (map snd newtab_shortcuts) | _ => True end.

(** ** Lemmas *)

Lemma rendered_order_pinned_first l : App.pinned_first l = true -> rendered_order l = l.
Proof.
  unfold rendered_order, pinnedTabs, regularTabs.
  induction l as [|t l IH]; simpl; [done|]. intros H.
  simpl in H. destruct (App.isPinned t) eqn:Ht; simpl.
  - by rewrite IH.
  - assert (Hu : forall x, In x l -> App.isPinned x = false).
    { intros x Hx. apply negb_true_iff. exact (proj1 (forallb_forall _ _) H x Hx). }
    rewrite (List.filter_ext_in _ (fun _ => false)), List.filter_false by (intros x Hx; by rewrite Hu).
    rewrite (filter_all_true (fun t => negb (App.isPinned t)) l); [done|].
    apply List.Forall_forall. intros x Hx. by rewrite Hu.
Qed.

Lemma rendered_order_In t l : In t (rendered_order l) -> In t l.
Proof.
  unfold rendered_order, pinnedTabs, regularTabs. rewrite in_app_iff, !List.filter_In. tauto.
Qed.

Lemma view_controls_In c l :
  In c (view_controls l) ->
  exists t, In t l /\ (c = SelectTab (App.id t) \/ c = TogglePin (App.id t) \/ c = CloseTab (App.id t)).
Proof.
  unfold view_controls. rewrite in_flat_map. intros (t & Ht & Hc). exists t. split; [by apply rendered_order_In|].
  unfold item_controls in Hc. destruct (App.isPinned t); simpl in Hc; intuition congruence.
Qed.

Lemma view_controls_close i l : In (CloseTab i) (view_controls l) -> exists t, In t l /\ App.id t = i /\ App.isPinned t = false.
Proof.
  unfold view_controls. rewrite in_flat_map. intros (t & Ht & Hc). exists t. split; [by apply rendered_order_In|].
  unfold item_controls in Hc. destruct (App.isPinned t); simpl in Hc; intuition congruence.
Qed.

Lemma ids_inj l t t' : List.NoDup (App.ids l) -> In t l -> In t' l -> App.id t = App.id t' -> t = t'.
Proof.
  induction l as [|x l IH]; simpl; [done|]. intros Hnd Ht Ht' E. inversion Hnd as [|? ? Hx Hnd']; subst.
  destruct Ht as [<-|Ht], Ht' as [<-|Ht']; auto.
  - exfalso. apply Hx. rewrite E. by apply App.in_ids.
  - exfalso. apply Hx. rewrite <- E. by apply App.in_ids.
Qed.


Section WithUrl.

Context `{U : UrlApi}.

Lemma tab_click_app c nid s :
  App.timers s = [] -> In c (view_controls (App.tabs s)) -> nid <> "" -> Navigation.app_step s (tab_click c nid s).
Proof.
  intros He Hc Hn. apply Navigation.app_registry. destruct (view_controls_In _ _ Hc) as (t & Ht & Hk).
  destruct c as [i|i|i]; simpl.
  - apply App.step_select; [done|]. destruct Hk as [[=->]|[[=]|[=]]]. by apply App.in_ids.
  - by apply App.step_pin.
  - by apply App.step_close.
Qed.

(** Every sidebar event is a transition of the registry, or leaves the
    tab list, the active pointer and the timers as they are. *)
Lemma sidebar_step_app hp nid ev sb s :
  App.timers s = [] -> ~ In nid (App.ids (App.tabs s)) -> nid <> "" -> sidebar_rendered ev s ->
  (App.tabs (sidebar_step hp nid ev sb s).2 = App.tabs s /\
   App.activeTab (sidebar_step hp nid ev sb s).2 = App.activeTab s /\
   App.timers (sidebar_step hp nid ev sb s).2 = App.timers s) \/
  Navigation.app_step s (sidebar_step hp nid ev sb s).2.
Proof.
  intros He Hf Hn Hr. destruct ev as [c|b|b| | | | | |]; simpl.
  - right. assert (H : Navigation.app_step s (tab_click c nid s)) by by apply tab_click_app.
    by destruct c.
  - right. by apply Navigation.app_navigate.
  - by left.
  - left. by destruct sb as [[]].
  - by left.
  - right. by apply Navigation.app_registry, App.step_add.
  - right. by apply Navigation.app_registry, App.step_add.
  - right. by apply Navigation.app_registry, App.step_add.
  - right. by apply Navigation.app_registry, App.step_add.
Qed.

Lemma bar_step_app nid ev s :
  App.timers s = [] -> ~ In nid (App.ids (App.tabs s)) -> nid <> "" ->
  (App.tabs (bar_step nid ev s) = App.tabs s /\ App.activeTab (bar_step nid ev s) = App.activeTab s /\
   App.timers (bar_step nid ev s) = App.timers s) \/
  Navigation.app_step s (bar_step nid ev s).
Proof.
  intros He Hf Hn. destruct ev as [b|b []]; simpl; [right; by apply Navigation.app_navigate|by left|by left].
Qed.

Lemma newtab_step_app se nid ev p s :
  App.timers s = [] -> ~ In nid (App.ids (App.tabs s)) -> nid <> "" ->
  (App.tabs (newtab_step se nid ev p s).2 = App.tabs s /\
   App.activeTab (newtab_step se nid ev p s).2 = App.activeTab s /\
   App.timers (newtab_step se nid ev p s).2 = App.timers s) \/
  Navigation.app_step s (newtab_step se nid ev p s).2.
Proof.
  intros He Hf Hn. destruct ev as [q| |u]; simpl; [by left| |right; by apply Navigation.app_navigate].
  destruct (Navigation.newTabResolve se (query p)); simpl; [right; by apply Navigation.app_navigate|by left].
Qed.

End WithUrl.

(** ** Theorems *)

(** C36: In every state reachable from the first render through the tab
    handlers, [smartNavigate] and the address bar, the tab strip and the
    sidebar show the tabs in exactly the registry's order. *)
Theorem rendered_order_reachable h b s :
  star Navigation.app_step (App.init h b) s -> rendered_order (App.tabs s) = App.tabs s.
Proof.
  intros Hr. apply rendered_order_pinned_first.
  assert (Hi : App.inv s) by (revert Hr; apply star_ind_inv; [apply Navigation.app_step_inv | apply App.inv_init]).
  apply Hi.
Qed.

(** C34: A pinned tab cannot be closed from the tab strip or the sidebar:
    neither view renders a close button for it, so it must be unpinned
    first. *)
Theorem pinned_tab_not_closable l t :
  App.ids_ok l -> In t l -> App.isPinned t = true -> ~ In (CloseTab (App.id t)) (view_controls l).
Proof.
  intros [Hnd _] Ht Hp Hc. destruct (view_controls_close _ _ Hc) as (t' & Ht' & E & Hu).
  rewrite (ids_inj l t t' Hnd Ht Ht' (eq_sym E)) in Hp. congruence.
Qed.

(** ** Witnesses *)

(** The first tab navigated to a page, a second tab opened by a
    navigation from there, then pinned. *)
Definition s_loaded : App.state :=
  Navigation.smartNavigate "https://a.com" "A" false "x" (App.mount "a" (App.init [] [])).
Definition s_two_tabs : App.state := Navigation.smartNavigate "https://c.com" "C" false "b" s_loaded.
Definition s_pinned : App.state := App.togglePinTab "b" s_two_tabs.

Lemma s_pinned_reachable : star Navigation.app_step (App.init [] []) s_pinned.
Proof.
  apply (star_step _ _ s_two_tabs); [apply (star_step _ _ s_loaded); [apply (star_step _ _ (App.mount "a" (App.init [] [])))|]|].
  - apply star_one, Navigation.app_registry, App.step_mount; [reflexivity|reflexivity|discriminate].
  - apply Navigation.app_navigate; [reflexivity|simpl; intros [Hb|[]]; discriminate|discriminate].
  - apply Navigation.app_navigate; [reflexivity|simpl; intros [Hb|[]]; discriminate|discriminate].
  - apply Navigation.app_registry, App.step_pin. reflexivity.
Qed.

Lemma rendered_order_reachable_witness :
  star Navigation.app_step (App.init [] []) s_pinned /\
  rendered_order (App.tabs s_pinned) = App.tabs s_pinned.
Proof. split; [exact s_pinned_reachable | apply (rendered_order_reachable [] [] s_pinned s_pinned_reachable)]. Defined.

Lemma pinned_tab_not_closable_witness :
  App.ids_ok (App.tabs s_pinned) /\ In (App.mkTab "b" "C" "https://c.com" true false None) (App.tabs s_pinned) /\
  App.isPinned (App.mkTab "b" "C" "https://c.com" true false None) = true /\
  ~ In (CloseTab "b") (view_controls (App.tabs s_pinned)).
Proof.
  assert (Hok : App.ids_ok (App.tabs s_pinned)).
  { split; [vm_compute; repeat constructor; simpl; intuition discriminate|].
    repeat constructor; discriminate. }
  assert (Hin : In (App.mkTab "b" "C" "https://c.com" true false None) (App.tabs s_pinned)) by (vm_compute; tauto).
  split; [exact Hok|]. split; [exact Hin|]. split; [reflexivity|].
  exact (pinned_tab_not_closable _ _ Hok Hin eq_refl).
Defined.

End TabViews.
