(* ===== verification/RegistrySpec.v ===== *)
(** * RegistrySpec: the Session Registry's contract and its refinement

    The specification (section 4.1) describes the registry abstractly: an
    ordered collection of sessions, each an id with a pin flag, and one
    active pointer, with four operations: [createSession] appends and
    activates; [closeSession] removes, synthesises a default session when
    the registry becomes empty, and otherwise activates the neighbour at
    [max(0, index - 1)] of the post-removal list when the active session
    was closed, falling back to index 0, and is a no-op on an unknown id;
    [togglePin] flips the flag and re-partitions stably; [setActive] is a
    no-op on an unknown id.  [registry] and its operations below state
    that contract, with [spec_step] its transition relation.

    [abs] forgets everything of App's state but the ids, pin flags and the
    active pointer, where the pointer is the one the pending [closeTab]
    callback will set, if there is one ([pointer]): the click's update of
    [closeTab] is the contract's [closeSession], whose effect on the
    pointer the code commits one step later, and the callback is a
    stuttering step.  The state rendered in between shows no active tab
    (Tabs.v, [closeTab_active_neighbour]); the contract has no such state.
    Each handler of App commutes with [abs] and the matching abstract
    operation ([updateTab] and [handleToggleBookmark] leave the
    abstraction unchanged), under the registry invariant; so every run of
    the application is matched by a run of the specification (a
    simulation diagram, after cdf-mech-sem's Simulation.v). *)

From stdpp Require Import sets.
From S2P Require Import Prelude History Bookmarks Tabs Url Navigation.

Module RegistrySpec.

Record session := mkSession { sid : string; spinned : bool }.
Record registry := mkRegistry { sessions : list session; current : option string }.

Definition sids (r : registry) : list string := map sid (sessions r).

(** [createSession(url, title, pinned) -> id] *)
Definition create (nid : string) (pinned : bool) (r : registry) : registry :=
  mkRegistry (sessions r ++ [mkSession nid pinned]) (Some nid).

Fixpoint position (i : string) (l : list session) : option nat :=
  match l with
  | [] => None
  | x :: l' => if String.eqb (sid x) i then Some 0 else S <$> position i l'
  end.

(** [closeSession(id)]; [nid] is the id of the synthesised default session. *)
Definition close (i nid : string) (r : registry) : registry :=
  match position i (sessions r) with
  | None => r
  | Some k =>
      let rest := List.filter (fun x => negb (String.eqb (sid x) i)) (sessions r) in
      match rest with
      | [] => mkRegistry [mkSession nid false] (Some nid)
      | first :: _ =>
          if bool_decide (current r = Some i)
          then mkRegistry rest (Some (sid (default first (rest !! (k - 1)))))
          else mkRegistry rest (current r)
      end
  end.

Definition flip (i : string) (x : session) : session :=
  if String.eqb (sid x) i then mkSession (sid x) (negb (spinned x)) else x.

(** [togglePin(id)] *)
Definition togglePin (i : string) (r : registry) : registry :=
  let l := map (flip i) (sessions r) in
  mkRegistry (List.filter spinned l ++ List.filter (fun x => negb (spinned x)) l) (current r).

(** [setActive(id)] *)
Definition setActive (i : string) (r : registry) : registry :=
  if bool_decide (i ∈ sids r) then mkRegistry (sessions r) (Some i) else r.

Inductive spec_step : registry -> registry -> Prop :=
  | sp_create r nid pinned : nid ∉ sids r -> nid <> "" -> spec_step r (create nid pinned r)
  | sp_close r i nid : nid <> "" -> spec_step r (close i nid r)
  | sp_pin r i : spec_step r (togglePin i r)
  | sp_select r i : spec_step r (setActive i r).

(** The abstraction of App's state. *)
Definition abs_tab (t : App.tab) : session := mkSession (App.id t) (App.isPinned t).

(** The active pointer once the pending callbacks have run. *)
Definition pointer (s : App.state) : option string :=
  match last (App.timers s) with Some x => Some x | None => App.activeTab s end.

Definition abs (s : App.state) : registry := mkRegistry (map abs_tab (App.tabs s)) (pointer s).

(** ** Commutation lemmas *)

Lemma abs_registry_eq s s' :
  App.tabs s' = App.tabs s -> App.activeTab s' = App.activeTab s -> App.timers s' = App.timers s -> abs s' = abs s.
Proof. unfold abs, pointer. by intros -> -> ->. Qed.

(** With no callback pending the abstract pointer is App's. *)
Lemma pointer_settled s : App.timers s = [] -> pointer s = App.activeTab s.
Proof. unfold pointer. by intros ->. Qed.

Lemma map_filter_comm {A B} (f : A -> B) (p : A -> bool) (q : B -> bool) l :
  (forall x, q (f x) = p x) -> map f (List.filter p l) = List.filter q (map f l).
Proof.
  intros H. induction l as [|x l IH]; simpl; [done|]. rewrite H. by destruct (p x); simpl; rewrite IH.
Qed.

Lemma lookup_map {A B} (f : A -> B) (l : list A) k : map f l !! k = f <$> l !! k.
Proof. revert k. induction l as [|x l IH]; intros [|k]; simpl; auto. Qed.

Lemma position_abs i l : position i (map abs_tab l) = App.findIndex i l.
Proof. induction l as [|t l IH]; simpl; [done|]. by rewrite IH. Qed.

Lemma sids_abs s : sids (abs s) = App.ids (App.tabs s).
Proof. unfold sids, abs, App.ids. simpl. rewrite map_map. reflexivity. Qed.

Lemma abs_addTab u t p nid s : App.timers s = [] -> abs (App.addTab u t p nid s) = create nid p (abs s).
Proof. intros He. unfold abs, pointer, App.addTab, create. simpl. rewrite He. by rewrite map_app. Qed.

Lemma abs_mount nid s : App.timers s = [] -> App.tabs s = [] -> abs (App.mount nid s) = create nid false (abs s).
Proof. intros He H. unfold abs, pointer, create. simpl. by rewrite H, He. Qed.

Lemma abs_togglePinTab i s : abs (App.togglePinTab i s) = togglePin i (abs s).
Proof.
  unfold abs, pointer, togglePin, App.togglePinTab, App.togglePin. simpl. f_equal.
  assert (HL : map abs_tab (map (App.flip_pin i) (App.tabs s)) = map (flip i) (map abs_tab (App.tabs s))).
  { rewrite !map_map. apply map_ext. intros t. unfold App.flip_pin, flip. simpl.
    by destruct (String.eqb (App.id t) i). }
  rewrite map_app, (map_filter_comm abs_tab App.isPinned spinned) by done.
  rewrite (map_filter_comm abs_tab (fun t => negb (App.isPinned t)) (fun x => negb (spinned x))) by done.
  by rewrite HL.
Qed.

Lemma abs_updateTab u t l f hid ts s : abs (App.updateTab u t l f hid ts s) = abs s.
Proof.
  unfold abs, pointer, App.updateTab. simpl. f_equal. rewrite map_map. apply map_ext. intros x.
  by case_bool_decide.
Qed.

Lemma abs_handleToggleBookmark now s : abs (App.handleToggleBookmark now s) = abs s.
Proof. unfold App.handleToggleBookmark. by destruct (App.active s). Qed.

(** The registry invariant gives non-empty ids. *)
Lemma inv_ids_nonempty s : App.inv s -> Forall (fun t => App.id t <> "") (App.tabs s).
Proof. intros [[_ H] _]. exact H. Qed.

Lemma abs_setActiveTab i s :
  App.timers s = [] -> In i (App.ids (App.tabs s)) -> abs (App.setActiveTab i s) = setActive i (abs s).
Proof.
  intros He H. unfold setActive. rewrite bool_decide_true; [unfold abs, pointer; simpl; by rewrite He|].
  rewrite sids_abs. by apply list_elem_of_In.
Qed.

(** The callback commits the pointer [abs] already shows. *)
Lemma abs_fire s : App.timers s <> [] -> abs (App.fire s) = abs s.
Proof.
  unfold abs, pointer, App.fire. destruct (App.timers s) as [|x r] eqn:E; [done|]. intros _. simpl.
  destruct r as [|y r]; [done|]. rewrite last_cons_cons.
  destruct (last (y :: r)) eqn:El; [done|]. by apply last_None in El.
Qed.

Lemma abs_closeTab i nid s :
  App.timers s = [] -> Forall (fun t => App.id t <> "") (App.tabs s) ->
  abs (App.closeTab i nid s) = close i nid (abs s).
Proof.
  intros He Hne.
  assert (Hsch : forall x l, abs (App.schedule x (App.set_tabs l s)) = mkRegistry (map abs_tab l) (Some x)).
  { intros x l. unfold abs, pointer. simpl. by rewrite He. }
  assert (Hset : forall l, abs (App.set_tabs l s) = mkRegistry (map abs_tab l) (App.activeTab s)).
  { intros l. unfold abs, pointer. simpl. by rewrite He. }
  assert (Hcur : current (abs s) = App.activeTab s) by (unfold abs, pointer; simpl; by rewrite He).
  unfold close, App.closeTab. rewrite Hcur. change (sessions (abs s)) with (map abs_tab (App.tabs s)).
  rewrite position_abs. destruct (App.findIndex i (App.tabs s)) as [k|]; [|done].
  rewrite <- (map_filter_comm abs_tab _ _ _) by done.
  pose proof (Forall_List_filter _ (fun t => negb (String.eqb (App.id t) i)) _ Hne) as Hne'.
  destruct (List.filter _ (App.tabs s)) as [|first rest] eqn:E; [by rewrite Hsch|]. cbn [map].
  case_bool_decide; [|by rewrite Hset]. rewrite Hsch. f_equal. f_equal.
  change (abs_tab first :: map abs_tab rest) with (map abs_tab (first :: rest)). rewrite lookup_map.
  destruct ((first :: rest) !! (k - 1)) as [t|] eqn:Hl; simpl; [|done].
  apply js_or_nonempty. apply App.lookup_In in Hl.
  by apply (proj1 (List.Forall_forall _ _) Hne').
Qed.

(** One handler step is matched by no step or one step of the contract. *)
Lemma step_refines s s' :
  App.inv s -> App.step s s' -> abs s' = abs s \/ spec_step (abs s) (abs s').
Proof.
  intros Hi Hs.
  destruct Hs as [s nid He Ht Hn|s u t nid He Hf Hn|s i He|s i nid He Hn|s i He Hin|s u t l f hid ts He|s now He|s He].
  - right. rewrite abs_mount by done. apply sp_create; [|done]. rewrite sids_abs, Ht. set_solver.
  - right. rewrite abs_addTab by done. apply sp_create; [|done]. rewrite sids_abs. by rewrite list_elem_of_In.
  - right. rewrite abs_togglePinTab. apply sp_pin.
  - right. rewrite abs_closeTab by (done || by apply inv_ids_nonempty). by apply sp_close.
  - right. rewrite abs_setActiveTab by done. apply sp_select.
  - left. apply abs_updateTab.
  - left. apply abs_handleToggleBookmark.
  - left. by apply abs_fire.
Qed.

Section WithUrl.
Context `{UrlApi}.

Lemma smartNavigate_refines u t sg nid s :
  App.timers s = [] -> ~ In nid (App.ids (App.tabs s)) -> nid <> "" ->
  abs (Navigation.smartNavigate u t sg nid s) = abs s \/
  spec_step (abs s) (abs (Navigation.smartNavigate u t sg nid s)).
Proof.
  intros He Hf Hn. unfold Navigation.smartNavigate.
  destruct (if sg then Navigation.find_singleton u (App.tabs s) else None) as [x|] eqn:E.
  - right. rewrite abs_setActiveTab; [apply sp_select|done|].
    destruct sg; [|discriminate]. apply List.find_some in E as [Hx _].
    by apply in_map.
  - destruct (App.active s) as [cur|];
      [destruct (String.eqb (App.url cur) App.newtab_url || String.eqb (App.url cur) "")|].
    + left. apply abs_updateTab.
    + right. rewrite abs_addTab by done. apply sp_create; [|done]. by rewrite sids_abs, list_elem_of_In.
    + right. rewrite abs_addTab by done. apply sp_create; [|done]. by rewrite sids_abs, list_elem_of_In.
Qed.

Lemma app_step_refines s s' :
  App.inv s -> Navigation.app_step s s' -> abs s' = abs s \/ spec_step (abs s) (abs s').
Proof.
  intros Hi Hs. destruct Hs as [s s' Hs|s u t sg nid He Hf Hn|s hp e x nid He Hf Hn].
  - by apply step_refines.
  - by apply smartNavigate_refines.
  - unfold Navigation.addressBarEnter. destruct (Navigation.resolveInput e x); [|by left].
    destruct (App.active s); by apply smartNavigate_refines.
Qed.

(** The application refines the registry's contract: every run from
    the first render through the tab handlers, [smartNavigate] and the
    address bar is matched, through [abs], by a run of the abstract
    registry's operations (create, close, togglePin, setActive on a known
    id). *)
Theorem app_refines_registry_spec h b s :
  star Navigation.app_step (App.init h b) s -> star spec_step (abs (App.init h b)) (abs s).
Proof.
  apply (star_simulation _ _ App.inv); [|apply App.inv_init].
  intros x y Hx Hxy. split; [by apply (Navigation.app_step_inv x)|]. by apply app_step_refines.
Qed.

End WithUrl.

(** ** Witnesses *)

Definition s_two : App.state :=
  Navigation.smartNavigate "https://b.com" "B" false "b" (App.mount "a" (App.init [] [])).

Lemma app_refines_registry_spec_witness :
  star Navigation.app_step (App.init [] []) s_two /\
  star spec_step (abs (App.init [] [])) (abs s_two).
Proof.
  assert (H : star Navigation.app_step (App.init [] []) s_two).
  { apply (star_step _ _ (App.mount "a" (App.init [] []))).
    - apply star_one, Navigation.app_registry, App.step_mount; [reflexivity|reflexivity|discriminate].
    - apply Navigation.app_navigate; [reflexivity|simpl; intros [Hb|[]]; discriminate|discriminate]. }
  split; [exact H | exact (app_refines_registry_spec [] [] s_two H)].
Defined.

End RegistrySpec.
