(* ===== verification/AddressBar.v ===== *)
(** * AddressBar: the text of TopBar's address bar (TopBar.jsx)

    TopBar keeps the bar's text [url] and whether the input has focus
    (lines 6-7).  Two effects copy the active tab's URL into the bar, with
    the [http://] or [https://] prefix removed: the first (lines 9-16) when
    the tab's URL or the focus changes, and only when the bar is not
    focused (it clears the bar when there is no URL); the second (lines
    19-25) whenever the active tab's id changes, focused or not.  The input
    (lines 146-153) sets the focus and the text; Enter blurs it and
    navigates ([Navigation.addressBarEnter]).

    React runs an effect after a render in which one of its dependencies
    changed ([Object.is]), in the order the effects are declared; [render]
    composes them.  [bar_step] is the transition relation of the bar's
    events: focus, blur, typing while focused, and a new active tab (from
    any handler of the registry).

    Also here: the toolbar buttons' events (lines 120-140) and the
    condition of the New Tab button (line 175), which compares a boolean
    with a string and is therefore always true. *)

From S2P Require Import Prelude History Bookmarks Tabs Url Navigation Coordinator HistoryPage RegistrySpec TabViews.

Module AddressBar.

Import RegistrySpec.

Section WithUrl.

Context `{U : UrlApi}.

Record bar := mkBar { text : string; isFocused : bool }.

(** [tab?.url] and [tab?.id]: [undefined] without a tab. *)
Definition dep_url (tab : option App.tab) : option string := App.url <$> tab.
Definition dep_id (tab : option App.tab) : option string := App.id <$> tab.

Definition tab_url (tab : option App.tab) : string := default "" (dep_url tab).

(** The first effect (lines 9-16). *)
Definition sync_url (tab : option App.tab) (b : bar) : bar :=
  if negb (isFocused b) && js_truthy (tab_url tab) then mkBar (strip_http_scheme (tab_url tab)) (isFocused b)
  else if negb (js_truthy (tab_url tab)) then mkBar "" (isFocused b)
  else b.

(** The second effect (lines 19-25). *)
Definition sync_id (tab : option App.tab) (b : bar) : bar :=
  if js_truthy (tab_url tab) then mkBar (strip_http_scheme (tab_url tab)) (isFocused b)
  else mkBar "" (isFocused b).

(** The effects after a render, given the dependencies of the previous
    render: the tab then shown and the focus then. *)
Definition render (prev : option App.tab) (prevFocused : bool) (tab : option App.tab) (b : bar) : bar :=
  let b1 := if bool_decide (dep_url prev = dep_url tab) && Bool.eqb prevFocused (isFocused b)
            then b else sync_url tab b in
  if bool_decide (dep_id prev = dep_id tab) then b1 else sync_id tab b1.

(** The first render: every effect runs. *)
Definition mount (tab : option App.tab) : bar := sync_id tab (sync_url tab (mkBar "" false)).

(** [onFocus], [onBlur] and [onChange]. *)
Definition onFocus (b : bar) : bar := mkBar (text b) true.
Definition onBlur (b : bar) : bar := mkBar (text b) false.
Definition onChange (v : string) (b : bar) : bar := mkBar v (isFocused b).

(** The bar and the tab it was last rendered with. *)
Record view := mkView { shown : option App.tab; bar_of : bar }.

(** The input's events (lines 149-153); the browser delivers [change]
    only to the focused input. *)
Inductive input_event := Focus | Blur | Typed (v : string).

Definition input (ev : input_event) (v : view) : view :=
  let t := shown v in
  let b := bar_of v in
  match ev with
  | Focus => mkView t (render t (isFocused b) t (onFocus b))
  | Blur => mkView t (render t (isFocused b) t (onBlur b))
  | Typed x => if isFocused b then mkView t (onChange x b) else v
  end.

(** A render with a new [tab] prop (App passes [active]). *)
Definition show (t' : option App.tab) (v : view) : view :=
  mkView t' (render (shown v) (isFocused (bar_of v)) t' (bar_of v)).

(** Enter (lines 36-63): [e.target.blur()] queues [isFocused = false], the
    text is resolved and navigated ([Navigation.addressBarEnter]), and the
    next render sees both updates. *)
Definition enter (homepage searchEngine nid : string) (v : view) (s : App.state) : view * App.state :=
  let s' := Navigation.addressBarEnter homepage searchEngine (text (bar_of v)) nid s in
  (mkView (App.active s') (render (shown v) (isFocused (bar_of v)) (App.active s') (onBlur (bar_of v))), s').

(** What the bar shows for a tab when the user is not editing it. *)
Definition display (tab : option App.tab) : string :=
  if js_truthy (tab_url tab) then strip_http_scheme (tab_url tab) else "".

(** ** The toolbar (lines 70-223) *)

Inductive topbar_button :=
  | SidebarToggle | SettingsButton | HistoryButton | DownloadsButton
  | BackButton | ForwardButton | ReloadButton | BookmarkButton
  | NewTabButton | ThemeButton | MinimizeButton | MaximizeButton | CloseButton.

(** The JavaScript values the New Tab condition compares. *)
Inductive jsval := JBool (b : bool) | JStr (s : string).

(** [a !== b]: values of different types are never strictly equal. *)
Definition strict_neq (a b : jsval) : bool :=
  match a, b with
  | JBool x, JBool y => negb (Bool.eqb x y)
  | JStr x, JStr y => negb (String.eqb x y)
  | _, _ => true
  end.

(** [!layoutMode !== "sidebar"] (line 175): [!] binds tighter than [!==]. *)
Definition newTabButtonShown (layoutMode : string) : bool :=
  strict_neq (JBool (negb (js_truthy layoutMode))) (JStr "sidebar").

(** The buttons rendered, in order, for App's props [hideIcons =
    layoutMode === 'sidebar'], [layoutMode] and [isSidebarOpen]. *)
Definition visible_buttons (layoutMode : string) (isSidebarOpen : bool) : list topbar_button :=
  let sidebar_mode := String.eqb layoutMode "sidebar" in
  (if sidebar_mode then [SidebarToggle] else []) ++
  (if negb sidebar_mode then [SettingsButton; HistoryButton; DownloadsButton] else []) ++
  [BackButton; ForwardButton; ReloadButton; BookmarkButton] ++
  (if newTabButtonShown layoutMode then [NewTabButton] else []) ++
  [ThemeButton] ++
  (if negb sidebar_mode || negb isSidebarOpen then [MinimizeButton; MaximizeButton; CloseButton] else []).

(** What a click does: a call of a prop, a window event, or a call of the
    preload bridge. *)
Inductive topbar_action :=
  | OpenTab (u title : string)
  | Dispatch (ev : Coordinator.ui_event)
  | ToggleBookmark | ToggleTheme | ToggleSidebar
  | WindowCommand (name : string).

Definition click (k : topbar_button) : topbar_action :=
  match k with
  | SidebarToggle => ToggleSidebar
  | SettingsButton => OpenTab "browser://settings" "Settings"
  | HistoryButton => OpenTab "browser://history" "History"
  | DownloadsButton => OpenTab "browser://downloads" "Downloads"
  | BackButton => Dispatch Coordinator.BrowserGoBack
  | ForwardButton => Dispatch Coordinator.BrowserGoForward
  | ReloadButton => Dispatch Coordinator.BrowserReload
  | BookmarkButton => ToggleBookmark
  | NewTabButton => OpenTab App.newtab_url "New Tab"
  | ThemeButton => ToggleTheme
  | MinimizeButton => WindowCommand "MinimizeBrowser"
  | MaximizeButton => WindowCommand "MaximizeBrowser"
  | CloseButton => WindowCommand "CloseBrowser"
  end.

(** App's [keydown] listener on the window (App.jsx lines 95-105). *)
Definition app_keydown (ctrlKey metaKey : bool) (key : string) : option Coordinator.ui_event :=
  if (ctrlKey || metaKey) && String.eqb key "f" then Some Coordinator.BrowserFind else None.

(** The [addTab] prop App gives TopBar (App.jsx line 269). *)
Definition topbar_addTab (homepage u title nid : string) (s : App.state) : App.state :=
  Navigation.smartNavigate (u || (if negb (String.eqb homepage App.newtab_url) then homepage else App.newtab_url))%js
    title false nid s.

(** The effect of an action on the tab registry; the others act on the
    preferences, the webview or the window. *)
Definition perform (homepage : string) (now : Z) (nid : string) (a : topbar_action) (s : App.state) : App.state :=
  match a with
  | OpenTab u t => topbar_addTab homepage u t nid s
  | ToggleBookmark => App.handleToggleBookmark now s
  | _ => s
  end.

(** ** The address bar beside the registry *)

Inductive ui_step : view * App.state -> view * App.state -> Prop :=
  | ui_input ev v s : ui_step (v, s) (input ev v, s)
  | ui_app v s s' : Navigation.app_step s s' -> ui_step (v, s) (show (App.active s') v, s')
  | ui_enter hp e nid v s :
      App.timers s = [] -> ~ In nid (App.ids (App.tabs s)) -> nid <> "" -> ui_step (v, s) (enter hp e nid v s)
  | ui_click hp now nid v s k lm open :
      App.timers s = [] -> In k (visible_buttons lm open) -> ~ In nid (App.ids (App.tabs s)) -> nid <> "" ->
      ui_step (v, s) (show (App.active (perform hp now nid (click k) s)) v, perform hp now nid (click k) s)
  | ui_tabbar c nid v s :
      App.timers s = [] -> In c (TabViews.view_controls (App.tabs s)) -> nid <> "" ->
      ui_step (v, s) (show (App.active (TabViews.tab_click c nid s)) v, TabViews.tab_click c nid s)
  | ui_sidebar hp nid ev sb v s :
      App.timers s = [] -> ~ In nid (App.ids (App.tabs s)) -> nid <> "" -> TabViews.sidebar_rendered ev s ->
      ui_step (v, s) (show (App.active (TabViews.sidebar_step hp nid ev sb s).2) v, (TabViews.sidebar_step hp nid ev sb s).2)
  | ui_bar nid ev v s :
      App.timers s = [] -> ~ In nid (App.ids (App.tabs s)) -> nid <> "" -> TabViews.bar_rendered ev s ->
      ui_step (v, s) (show (App.active (TabViews.bar_step nid ev s)) v, TabViews.bar_step nid ev s)
  | ui_newtab se nid ev p v s :
      App.timers s = [] -> ~ In nid (App.ids (App.tabs s)) -> nid <> "" -> TabViews.newtab_rendered ev ->
      ui_step (v, s) (show (App.active (TabViews.newtab_step se nid ev p s).2) v, (TabViews.newtab_step se nid ev p s).2)
  | ui_history ev p v s :
      App.timers s = [] ->
      ui_step (v, s) (show (App.active (HistoryPage.history_step ev p s).2) v, (HistoryPage.history_step ev p s).2).

(** The first render of App and TopBar. *)
Definition ui_init (h : list HistoryManager.entry) (b : list BookmarksManager.bookmark) : view * App.state :=
  (mkView (App.active (App.init h b)) (mount (App.active (App.init h b))), App.init h b).

(** The bar agrees with the tab it was rendered with: when the user is not
    editing it, it shows that tab's URL without its scheme. *)
Definition bar_ok (v : view) : Prop :=
  isFocused (bar_of v) = false -> text (bar_of v) = display (shown v).

Definition ui_ok (x : view * App.state) : Prop := shown x.1 = App.active x.2 /\ bar_ok x.1.

(** The tab list and the active pointer of a step's target are those of
    its source. *)
Definition same_registry (s s' : App.state) : Prop :=
  App.tabs s' = App.tabs s /\ App.activeTab s' = App.activeTab s /\ App.timers s' = App.timers s.

(** ** Lemmas *)

Lemma sync_url_focus t b : isFocused (sync_url t b) = isFocused b.
Proof. unfold sync_url. by repeat case_match. Qed.

Lemma sync_id_focus t b : isFocused (sync_id t b) = isFocused b.
Proof. unfold sync_id. by case_match. Qed.

Lemma render_focus p pf t b : isFocused (render p pf t b) = isFocused b.
Proof. unfold render. cbv zeta. repeat case_match; by rewrite ?sync_id_focus, ?sync_url_focus. Qed.

Lemma sync_url_unfocused t b : isFocused b = false -> text (sync_url t b) = display t.
Proof. intros H. unfold sync_url, display. rewrite ?H. by destruct (js_truthy (tab_url t)). Qed.

Lemma sync_url_focused t b : isFocused b = true -> sync_url t b = if js_truthy (tab_url t) then b else mkBar "" true.
Proof. intros H. unfold sync_url. rewrite H. by destruct (js_truthy (tab_url t)). Qed.

Lemma sync_id_text t b : text (sync_id t b) = display t.
Proof. unfold sync_id, display. by destruct (js_truthy (tab_url t)). Qed.

Lemma display_deps t t' : dep_url t = dep_url t' -> display t = display t'.
Proof. unfold display, tab_url. by intros ->. Qed.

Lemma render_unfocused p pf t b :
  isFocused b = false ->
  (dep_url p = dep_url t -> pf = false -> dep_id p = dep_id t -> text b = display t) ->
  text (render p pf t b) = display t.
Proof.
  intros Hf Hk. unfold render. cbv zeta.
  destruct (decide (dep_id p = dep_id t)) as [Hid|]; [rewrite bool_decide_true by done|rewrite bool_decide_false by done; apply sync_id_text].
  destruct (decide (dep_url p = dep_url t)) as [Hu|]; [rewrite bool_decide_true by done|rewrite bool_decide_false by done; by apply sync_url_unfocused].
  rewrite Hf. destruct pf; simpl; [by rewrite sync_url_unfocused|]. by apply Hk.
Qed.

(** A render from a view that agrees with its tab, of a bar whose text is
    the old one when the bar was not being edited, agrees with the new tab. *)
Lemma render_keep v t' b' :
  bar_ok v -> (isFocused (bar_of v) = false -> text b' = text (bar_of v)) ->
  bar_ok (mkView t' (render (shown v) (isFocused (bar_of v)) t' b')).
Proof.
  intros Hok Hsame Hf. simpl in *. rewrite render_focus in Hf.
  apply render_unfocused; [done|]. intros Hu Hpf _. rewrite Hsame, Hok by done. by apply display_deps.
Qed.

Lemma input_ok ev v : bar_ok v -> bar_ok (input ev v).
Proof.
  intros Hok. destruct ev as [| |x]; simpl.
  - intros Hf. simpl in Hf. by rewrite render_focus in Hf.
  - by apply render_keep.
  - destruct (isFocused (bar_of v)) eqn:E; [|done]. intros Hf. simpl in Hf. congruence.
Qed.

Lemma show_ok t' v : bar_ok v -> bar_ok (show t' v).
Proof. intros Hok. by apply render_keep. Qed.

Lemma mount_ok t : bar_ok (mkView t (mount t)).
Proof. intros _. apply sync_id_text. Qed.

Lemma input_shown ev v : shown (input ev v) = shown v.
Proof. destruct ev; simpl; [done|done|by case_match]. Qed.

Lemma ui_step_ok x y : ui_step x y -> ui_ok x -> ui_ok y.
Proof.
  destruct 1 as [ev v s|v s s' _|hp e nid v s _ _ _|hp now nid v s k lm open _ _ _ _|c nid v s _ _ _
                |hp nid ev sb v s _ _ _ _|nid ev v s _ _ _ _|se nid ev p v s _ _ _ _|ev p v s _];
    unfold ui_ok; intros [Hs Hok]; cbn [fst snd] in *.
  - split; [by rewrite input_shown|by apply input_ok].
  - split; [done|by apply show_ok].
  - split; [done|by apply render_keep].
  - split; [done|by apply show_ok].
  - split; [done|by apply show_ok].
  - split; [done|by apply show_ok].
  - split; [done|by apply show_ok].
  - split; [done|by apply show_ok].
  - split; [done|by apply show_ok].
Qed.

Lemma perform_app_step hp now nid a s :
  App.timers s = [] -> ~ In nid (App.ids (App.tabs s)) -> nid <> "" ->
  perform hp now nid a s = s \/ Navigation.app_step s (perform hp now nid a s).
Proof.
  intros He Hf Hn. destruct a; simpl; try (left; done); right.
  - first [by apply Navigation.app_navigate | by apply Navigation.app_registry, App.step_add].
  - by apply Navigation.app_registry, App.step_bookmark.
Qed.

Lemma ui_step_app x y : ui_step x y -> same_registry x.2 y.2 \/ Navigation.app_step x.2 y.2.
Proof.
  destruct 1 as [ev v s|v s s' Ha|hp e nid v s He Hf Hn|hp now nid v s k lm open He _ Hf Hn|c nid v s He Hc Hn
                |hp nid ev sb v s He Hf Hn Hr|nid ev v s He Hf Hn _|se nid ev p v s He Hf Hn _|ev p v s He];
    cbn [fst snd].
  - by left.
  - by right.
  - right. by apply Navigation.app_address.
  - destruct (perform_app_step hp now nid (click k) s He Hf Hn) as [->|]; [by left|by right].
  - right. by apply TabViews.tab_click_app.
  - by apply TabViews.sidebar_step_app.
  - by apply TabViews.bar_step_app.
  - by apply TabViews.newtab_step_app.
  - destruct (HistoryPage.history_step_app ev p s He) as [|]; [by left|right; by apply Navigation.app_registry].
Qed.

(** ** Theorems *)

(** C3: In every state reached from App's first render by focusing,
    blurring and typing in the address bar, pressing Enter, clicking the
    toolbar, the tab strip, the sidebar, the bookmarks bar, the New Tab
    page or the History page, and any transition of the tab registry, TopBar is rendered
    with the active tab, and whenever the bar is not focused it shows the
    active tab's URL with its [http://] or [https://] prefix removed ([""]
    without a URL). *)
Theorem address_bar_shows_active_tab h b x :
  star ui_step (ui_init h b) x ->
  shown x.1 = App.active x.2 /\ (isFocused (bar_of x.1) = false -> text (bar_of x.1) = display (App.active x.2)).
Proof.
  intros Hr. assert (H0 : ui_ok (ui_init h b)) by (split; [done|apply mount_ok]).
  destruct (star_ind_inv ui_step ui_ok _ _ ui_step_ok H0 Hr) as [Hs Hok].
  split; [done|]. rewrite <- Hs. exact Hok.
Qed.

(** C2: Every run of App with its address bar, toolbar, tab strip,
    sidebar, bookmarks bar, New Tab page and History page refines the tab
    registry's contract: the sessions and the current session go through
    creations, closes, pin toggles and selections of the specification
    only, whatever the user types or clicks. *)
Theorem ui_refines_registry_spec h b x :
  star ui_step (ui_init h b) x -> star spec_step (abs (App.init h b)) (abs x.2).
Proof.
  intros Hr. refine (star_simulation ui_step spec_step (fun y => App.inv y.2) (fun y => abs y.2) _ _ _ _ Hr);
    [|apply App.inv_init].
  intros y z Hy Hyz. destruct (ui_step_app y z Hyz) as [(Ht & Ha & He)|Ha].
  { split; [by apply (App.inv_registry_eq y.2)|left; by apply abs_registry_eq]. }
  split; [by apply (Navigation.app_step_inv y.2)|]. destruct (app_step_refines _ _ Hy Ha) as [->|]; auto.
Qed.

(** Switching to another tab replaces whatever the bar holds, typed
    text included, by the new tab's URL without its scheme. *)
Theorem tab_switch_discards_typing v t' :
  dep_id (shown v) <> dep_id t' -> text (bar_of (show t' v)) = display t'.
Proof. intros Hid. unfold show, render. cbv zeta. rewrite bool_decide_false by done. apply sync_id_text. Qed.

(** C20: When the active tab's URL changes (a load or a redirect) while the
    user is typing in the bar, the typed text is kept, unless the new URL
    is empty, which clears the bar. *)
Theorem same_tab_load_keeps_typing v t' :
  isFocused (bar_of v) = true -> dep_id (shown v) = dep_id t' -> dep_url (shown v) <> dep_url t' ->
  bar_of (show t' v) = if js_truthy (tab_url t') then bar_of v else mkBar "" true.
Proof.
  intros Hf Hid Hu. unfold show, render. cbv zeta.
  rewrite (bool_decide_true (dep_id _ = _)), (bool_decide_false (dep_url _ = _)) by done. simpl.
  by apply sync_url_focused.
Qed.

(** C35: The Settings button opens a new tab from the sidebar but reuses
    a blank New Tab from the toolbar: the sidebar's [addTab] prop is
    App's [addTab], which appends a Settings tab and activates it, while
    the toolbar's goes through [smartNavigate], which loads
    [browser://settings] into the active blank tab, keeping its id, and
    adds no tab. *)
Theorem settings_button_views_differ hp now nid sb s cur :
  App.active s = Some cur -> App.url cur = App.newtab_url ->
  App.tabs (TabViews.sidebar_step hp nid TabViews.SettingsClick sb s).2 =
    App.tabs s ++ [App.mkTab nid "Settings" "browser://settings" false false None] /\
  App.activeTab (TabViews.sidebar_step hp nid TabViews.SettingsClick sb s).2 = Some nid /\
  length (App.tabs (perform hp now nid (click SettingsButton) s)) = length (App.tabs s) /\
  App.activeTab (perform hp now nid (click SettingsButton) s) = App.activeTab s /\
  App.active (perform hp now nid (click SettingsButton) s) =
    Some (App.merge_visit "browser://settings" "Settings" true None cur).
Proof.
  intros Ha Hu. split; [reflexivity|]. split; [reflexivity|].
  cbn [perform click]. unfold topbar_addTab, Navigation.smartNavigate. cbn [js_or String.eqb]. rewrite Ha, Hu, String.eqb_refl.
  cbn [orb]. split; [apply length_map|]. split; [done|]. by apply App.active_updateTab.
Qed.

End WithUrl.

(** ** Witnesses *)

Definition tab_a : App.tab := App.mkTab "a" "A" "https://a.com/" false false None.
Definition tab_a_loaded : App.tab := App.mkTab "a" "A" "https://a.com/next" false true None.
Definition tab_b : App.tab := App.mkTab "b" "B" "http://b.org/x" false false None.
Definition typing_on_a : view := mkView (Some tab_a) (mkBar "typed" true).

(** Focus the bar of a fresh window, type a domain, press Enter. *)
Definition ui_path : view * App.state :=
  enter App.newtab_url "https://www.google.com/search?q=" "t1"
    (input (Typed "example.com") (input Focus (ui_init [] []).1)) (ui_init [] []).2.

Lemma address_bar_shows_active_tab_witness :
  star ui_step (ui_init [] []) ui_path /\
  shown ui_path.1 = App.active ui_path.2 /\
  (isFocused (bar_of ui_path.1) = false -> text (bar_of ui_path.1) = display (App.active ui_path.2)).
Proof.
  assert (Hr : star ui_step (ui_init [] []) ui_path).
  { apply (star_step _ _ (input (Typed "example.com") (input Focus (ui_init [] []).1), (ui_init [] []).2)).
    - apply (star_step _ _ (input Focus (ui_init [] []).1, (ui_init [] []).2)).
      + apply star_one, (ui_input Focus).
      + apply ui_input.
    - apply ui_enter; [reflexivity|simpl; tauto|discriminate]. }
  split; [exact Hr|]. exact (address_bar_shows_active_tab [] [] ui_path Hr).
Defined.

Lemma ui_refines_registry_spec_witness :
  star ui_step (ui_init [] []) ui_path /\ star spec_step (abs (App.init [] [])) (abs ui_path.2).
Proof.
  assert (Hr : star ui_step (ui_init [] []) ui_path).
  { apply (star_step _ _ (input (Typed "example.com") (input Focus (ui_init [] []).1), (ui_init [] []).2)).
    - apply (star_step _ _ (input Focus (ui_init [] []).1, (ui_init [] []).2)).
      + apply star_one, (ui_input Focus).
      + apply ui_input.
    - apply ui_enter; [reflexivity|simpl; tauto|discriminate]. }
  split; [exact Hr|]. exact (ui_refines_registry_spec [] [] ui_path Hr).
Defined.

Lemma tab_switch_discards_typing_witness :
  dep_id (shown typing_on_a) <> dep_id (Some tab_b) /\
  text (bar_of (show (Some tab_b) typing_on_a)) = display (Some tab_b) /\
  display (Some tab_b) = "b.org/x".
Proof.
  split; [vm_compute; discriminate|]. split; [|reflexivity].
  apply tab_switch_discards_typing. vm_compute. discriminate.
Defined.

Lemma same_tab_load_keeps_typing_witness :
  isFocused (bar_of typing_on_a) = true /\ dep_id (shown typing_on_a) = dep_id (Some tab_a_loaded) /\
  dep_url (shown typing_on_a) <> dep_url (Some tab_a_loaded) /\
  bar_of (show (Some tab_a_loaded) typing_on_a) =
    (if js_truthy (tab_url (Some tab_a_loaded)) then bar_of typing_on_a else mkBar "" true).
Proof.
  split; [reflexivity|]. split; [reflexivity|]. split; [vm_compute; discriminate|].
  apply same_tab_load_keeps_typing; [reflexivity|reflexivity|vm_compute; discriminate].
Defined.

Definition blank_tab : App.tab := App.mkTab "a" "New Tab" App.newtab_url false false None.

Lemma settings_button_views_differ_witness :
  App.active (App.mount "a" (App.init [] [])) = Some blank_tab /\ App.url blank_tab = App.newtab_url /\
  App.tabs (TabViews.sidebar_step App.newtab_url "b" TabViews.SettingsClick (TabViews.mkSidebar None)
              (App.mount "a" (App.init [] []))).2 =
    App.tabs (App.mount "a" (App.init [] [])) ++ [App.mkTab "b" "Settings" "browser://settings" false false None] /\
  App.activeTab (TabViews.sidebar_step App.newtab_url "b" TabViews.SettingsClick (TabViews.mkSidebar None)
              (App.mount "a" (App.init [] []))).2 = Some "b" /\
  length (App.tabs (perform App.newtab_url 0 "b" (click SettingsButton) (App.mount "a" (App.init [] [])))) =
    length (App.tabs (App.mount "a" (App.init [] []))) /\
  App.activeTab (perform App.newtab_url 0 "b" (click SettingsButton) (App.mount "a" (App.init [] []))) =
    App.activeTab (App.mount "a" (App.init [] [])) /\
  App.active (perform App.newtab_url 0 "b" (click SettingsButton) (App.mount "a" (App.init [] []))) =
    Some (App.merge_visit "browser://settings" "Settings" true None blank_tab).
Proof.
  split; [reflexivity|]. split; [reflexivity|].
  apply (settings_button_views_differ _ _ _ _ _ blank_tab); reflexivity.
Defined.

End AddressBar.
