(* ===== verification/SettingsPage.v ===== *)
(** * SettingsPage: the Settings page (components/Settings.jsx)

    BrowserWindow renders the page for a [browser://settings] tab.  The
    page keeps the open section, the homepage being edited and the
    application info (lines 25-42); the section buttons (lines 64-71,
    266-280) choose which panel [renderContent] shows (lines 74-262), and
    only the controls of that panel can be clicked.  The controls call
    App's setters ([Settings.act]); [clearData] (lines 54-63) asks for
    confirmation, clears the history (or the bookmarks, a branch no button
    reaches), the cache or the cookies, and for history and bookmarks
    reloads the window: the renderer starts again from [localStorage]
    ([restart]) while the main process keeps its configuration.

    [page_step] is the transition relation of a session with the page:
    opening it, the app-info reply, clicks on the rendered controls, and
    closing it. *)

From stdpp Require Import sets.
From S2P Require Import Prelude History Bookmarks Tabs Settings.

Module SettingsPage.

Inductive section := Appearance | General | SearchSection | Privacy | DownloadsSection | About.

#[export] Instance section_eq_dec : EqDecision section.
Proof. solve_decision. Defined.

(** The [sections] array (lines 64-71), by [id]. *)
Definition sections : list (section * string) :=
  [(Appearance, "appearance"); (General, "general"); (SearchSection, "search");
   (Privacy, "privacy"); (DownloadsSection, "downloads"); (About, "about")].

Record app_info := mkInfo { version : string; author : string; appName : string; chromiumVersion : string }.

Record page := mkPage { activeSection : section; tempHomepage : string; appInfo : app_info }.

(** The first render (lines 25-26, 42). *)
Definition mount (homepage : string) : page :=
  mkPage Appearance homepage (mkInfo "" "" "NetBrowser" "").

(** The reply of [getAppInfo] to the mount effect (lines 28-40): the
    bridge may lack it, or the call may fail, which is only logged. *)
Inductive info_reply := NoInfoApi | InfoResolved (i : app_info) | InfoRejected.

Definition fetchInfo (r : info_reply) (p : page) : page :=
  match r with
  | InfoResolved i => mkPage (activeSection p) (tempHomepage p) i
  | _ => p
  end.

(** The About panel's heading (line 244). *)
Definition about_title (p : page) : string := (appName (appInfo p) || "NetBrowser")%js.

(** The About panel's lines (lines 241-258); [year] is
    [new Date().getFullYear()]. *)
Definition about_panel (year : string) (p : page) : list string :=
  [about_title p; "Version " +:+ version (appInfo p); "Chromium: " +:+ chromiumVersion (appInfo p);
   "(c) " +:+ year +:+ " " +:+ author (appInfo p)].

(** The Download Location field (lines 231-238): the folder, or Default. *)
Definition download_location (downloadPath : string) : string := (downloadPath || "Default")%js.

(** The page's controls, with what the user or a dialog supplies. *)
Inductive control :=
  | NavButton (s : section)
  | HomepageField (v : string) | SaveButton
  | ThemeSwitch | BookmarksBarSwitch | LayoutSwitch | ZoomSelect (v : string)
  | EngineSelect (v : string)
  | AdBlockSwitch | DntSwitch | ClearButton (key : string) (confirmed : bool)
  | ChangeFolderButton (chosen : option string).

(** The panel of [renderContent] a control belongs to; the section
    buttons are always shown. *)
Definition panel_of (c : control) : option section :=
  match c with
  | NavButton _ => None
  | HomepageField _ | SaveButton => Some General
  | ThemeSwitch | BookmarksBarSwitch | LayoutSwitch | ZoomSelect _ => Some Appearance
  | EngineSelect _ => Some SearchSection
  | AdBlockSwitch | DntSwitch | ClearButton _ _ => Some Privacy
  | ChangeFolderButton _ => Some DownloadsSection
  end.

(** The keys of the Clear Browsing Data buttons (lines 216-224). *)
Definition clear_keys : list string := ["history"; "cookies"; "cache"].

(** Whether the control is on screen with that value: its panel is open,
    a select offers the value, a button exists for the key. *)
Definition rendered (p : page) (c : control) : bool :=
  match panel_of c with None => true | Some s => bool_decide (s = activeSection p) end &&
  match c with
  | ZoomSelect v => bool_decide (v ∈ Settings.zoom_options)
  | EngineSelect v => bool_decide (v ∈ Settings.engine_options)
  | ClearButton k _ => bool_decide (k ∈ clear_keys)
  | _ => true
  end.

(** The calls to the main process through the preload bridge. *)
Inductive host_call := SelectDownloadFolder | ClearCache | ClearCookies.

Inductive outcome := Stay | Reload | Alert (msg : string).

Definition set_stored (h : list HistoryManager.entry) (b : list BookmarksManager.bookmark) (s : App.state) : App.state :=
  App.mkState (App.tabs s) (App.activeTab s) (App.bookmarks s) h b (App.timers s).

(** [clearData(key)] (lines 54-63). *)
Definition clearData (key : string) (confirmed : bool) (s : App.state) : App.state * list host_call * outcome :=
  if negb confirmed then (s, [], Stay)
  else
    let '(s', calls) :=
      if String.eqb key "history" then
        (set_stored (HistoryManager.clearHistory (App.stored_history s)) (App.stored_bookmarks s) s, [])
      else if String.eqb key "bookmarks" then (set_stored (App.stored_history s) [] s, [])
      else if String.eqb key "cache" then (s, [ClearCache])
      else if String.eqb key "cookies" then (s, [ClearCookies])
      else (s, []) in
    (s', calls, if String.eqb key "bookmarks" || String.eqb key "history" then Reload else Alert (key +:+ " cleared.")).

(** [window.location.reload()]: App mounts again on what [localStorage]
    holds (its mount effect opens one New Tab), the preferences are read
    back and re-sent to the main process, whose variables survive. *)
Definition restart (nid : string) (s : App.state) (w : Settings.world) : App.state * Settings.world :=
  (App.mount nid (App.init (App.stored_history s) (App.stored_bookmarks s)),
   Settings.boot (Settings.store w) (Settings.main w)).

(** A session: the page while a Settings tab shows it, App's registry
    and stores, and the preferences with the main process. *)
Record browser := mkBrowser { page_of : option page; app : App.state; prefs : Settings.world }.

Definition set_prefs (w : Settings.world) (b : browser) : browser := mkBrowser (page_of b) (app b) w.
Definition set_page (p : page) (b : browser) : browser := mkBrowser (Some p) (app b) (prefs b).

(** A click on a control of the page [p], with the id a reload draws. *)
Definition handle (c : control) (nid : string) (p : page) (b : browser) : browser * list host_call * outcome :=
  let w := prefs b in
  match c with
  | NavButton s => (set_page (mkPage s (tempHomepage p) (appInfo p)) b, [], Stay)
  | HomepageField v => (set_page (mkPage (activeSection p) v (appInfo p)) b, [], Stay)
  | SaveButton => (set_prefs (Settings.act (Settings.ASaveHomepage (tempHomepage p)) w) b, [], Stay)
  | ThemeSwitch => (set_prefs (Settings.act Settings.AToggleTheme w) b, [], Stay)
  | BookmarksBarSwitch => (set_prefs (Settings.act Settings.AToggleBookmarksBar w) b, [], Stay)
  | LayoutSwitch => (b, [], Stay)  (** [onToggleLayout] is [undefined] *)
  | ZoomSelect v => (set_prefs (Settings.act (Settings.ASelectZoom v) w) b, [], Stay)
  | EngineSelect v => (set_prefs (Settings.act (Settings.ASelectEngine v) w) b, [], Stay)
  | AdBlockSwitch => (set_prefs (Settings.act Settings.AToggleAdBlock w) b, [], Stay)
  | DntSwitch => (set_prefs (Settings.act Settings.AToggleDnt w) b, [], Stay)
  | ChangeFolderButton chosen =>
      (set_prefs (Settings.act (Settings.ASelectDownloadFolder chosen) w) b, [SelectDownloadFolder], Stay)
  | ClearButton k ok =>
      match clearData k ok (app b) with
      | (s', calls, Reload) => let '(s'', w') := restart nid s' w in (mkBrowser None s'' w', calls, Reload)
      | (s', calls, o) => (mkBrowser (page_of b) s' w, calls, o)
      end
  end.

Inductive page_step : browser -> browser -> Prop :=
  | ps_open b : page_of b = None -> page_step b (set_page (mount (Settings.homepage (Settings.ui (prefs b)))) b)
  | ps_info b p r : page_of b = Some p -> page_step b (set_page (fetchInfo r p) b)
  | ps_click b p c nid : page_of b = Some p -> rendered p c = true -> nid <> "" ->
      page_step b (handle c nid p b).1.1
  | ps_close b : page_step b (mkBrowser None (app b) (prefs b)).

(** The first start on a stored profile, with the main process fresh. *)
Definition start (nid : string) (h : list HistoryManager.entry) (bm : list BookmarksManager.bookmark)
    (st : Settings.storage) (d0 : string) : browser :=
  mkBrowser None (App.mount nid (App.init h bm)) (Settings.boot st (Settings.config_init d0)).

(** The main process agrees with the renderer, and [localStorage] holds
    what the renderer shows. *)
Definition prefs_ok (d0 : string) (b : browser) : Prop := Settings.synced d0 (prefs b) /\ Settings.persisted (prefs b).

(** ** Lemmas *)

(** A reload keeps the main process in step with the renderer when the
    store holds what the renderer shows. *)
Lemma restart_synced d0 w :
  Settings.synced d0 w -> Settings.persisted w -> Settings.synced d0 (Settings.boot (Settings.store w) (Settings.main w)).
Proof.
  unfold Settings.synced, Settings.persisted. intros (Ha & Hd & Hp) Hr.
  assert (Ea : Settings.adBlockEnabled (Settings.load (Settings.store w)) = Settings.adBlockEnabled (Settings.ui w))
    by exact (f_equal Settings.adBlockEnabled Hr).
  assert (Ed : Settings.dntEnabled (Settings.load (Settings.store w)) = Settings.dntEnabled (Settings.ui w))
    by exact (f_equal Settings.dntEnabled Hr).
  assert (Ep : Settings.downloadPath (Settings.load (Settings.store w)) = Settings.downloadPath (Settings.ui w))
    by exact (f_equal Settings.downloadPath Hr).
  unfold Settings.boot, Settings.mount_effect. cbn [Settings.ui Settings.main Settings.store].
  rewrite Ep. destruct (js_truthy (Settings.downloadPath (Settings.ui w))) eqn:E; cbn; rewrite ?Ea, ?Ed, ?Ep.
  all: repeat split; try done.
  all: change (Settings.or_default (Settings.store w !! "downloadPath") "")
         with (Settings.downloadPath (Settings.load (Settings.store w))); rewrite Ep.
  - unfold js_or. unfold js_truthy in E. by destruct (String.eqb _ "").
  - exact Hp.
Qed.

Lemma rendered_value p c :
  rendered p c = true ->
  match c with
  | ZoomSelect v => v ∈ Settings.zoom_options
  | EngineSelect v => v ∈ Settings.engine_options
  | ClearButton k _ => k ∈ clear_keys
  | _ => True
  end.
Proof. unfold rendered. intros H. apply andb_prop in H as [_ H]. destruct c; try done; by apply bool_decide_eq_true in H. Qed.

Lemma set_prefs_ok d0 a b :
  Settings.action_ok a = true -> prefs_ok d0 b -> prefs_ok d0 (set_prefs (Settings.act a (prefs b)) b).
Proof. intros Ha [Hs Hp]. split; [by apply Settings.act_synced|by apply Settings.act_persisted]. Qed.

Lemma handle_ok d0 c nid p b : rendered p c = true -> prefs_ok d0 b -> prefs_ok d0 (handle c nid p b).1.1.
Proof.
  intros Hr Hb. pose proof (rendered_value p c Hr) as Hc.
  destruct c as [s|v| | | | |v|v| | |k ok|chosen]; try done;
    try (apply set_prefs_ok; [cbn; rewrite ?bool_decide_true by done; done|done]).
  unfold handle. destruct (clearData k ok (app b)) as [[s' calls] []]; try done.
  destruct Hb as [Hs Hp]. split; [by apply restart_synced|apply Settings.boot_persisted].
Qed.

Lemma clear_key_cases k : k ∈ clear_keys -> k = "history" \/ k = "cookies" \/ k = "cache".
Proof. unfold clear_keys. set_solver. Qed.

Lemma handle_bookmarks c nid p b :
  rendered p c = true -> App.stored_bookmarks (app (handle c nid p b).1.1) = App.stored_bookmarks (app b).
Proof.
  intros Hr. pose proof (rendered_value p c Hr) as Hc. destruct c; try done.
  destruct (clear_key_cases _ Hc) as [->|[->| ->]]; by destruct confirmed.
Qed.

(** ** Theorems *)

(** C28: Whatever the user does on the Settings page, including clearing
    the history, which reloads the renderer while the main process keeps
    running, the main process's ad blocking, Do-Not-Track and download
    folder agree with what the renderer shows, and [localStorage] holds
    every preference the renderer shows. *)
Theorem settings_page_keeps_main_synced nid h bm st d0 b :
  star page_step (start nid h bm st d0) b -> Settings.synced d0 (prefs b) /\ Settings.persisted (prefs b).
Proof.
  intros Hr. refine (star_ind_inv page_step (prefs_ok d0) _ _ _ _ Hr).
  - intros x y Hxy Hx. destruct Hxy as [x _|x q r _|x q c nid' _ Hc _|x]; try exact Hx. by apply handle_ok.
  - split; [apply Settings.boot_synced|apply Settings.boot_persisted].
Qed.

(** Clear History reloads the window: the page closes, every open
    tab is replaced by one New Tab (not the saved homepage, which the
    reload reads back with the other preferences), the history is empty
    and the bookmarks are kept. *)
Theorem clear_history_restarts nid p b :
  let r := handle (ClearButton "history" true) nid p b in
  r.2 = Reload /\ page_of r.1.1 = None /\
  App.tabs (app r.1.1) = [App.mkTab nid "New Tab" App.newtab_url false false None] /\
  App.activeTab (app r.1.1) = Some nid /\
  App.stored_history (app r.1.1) = [] /\ App.stored_bookmarks (app r.1.1) = App.stored_bookmarks (app b) /\
  Settings.ui (prefs r.1.1) = Settings.reload (Settings.store (prefs b)).
Proof. repeat split. Qed.

(** No use of the Settings page changes the stored bookmarks: the
    [bookmarks] branch of [clearData] has no button. *)
Theorem settings_page_keeps_bookmarks nid h bm st d0 b :
  star page_step (start nid h bm st d0) b -> App.stored_bookmarks (app b) = bm.
Proof.
  intros Hr. refine (star_ind_inv page_step (fun x => App.stored_bookmarks (app x) = bm) _ _ _ _ Hr); [|done].
  intros x y Hxy Hx. destruct Hxy as [x _|x q r _|x q c nid' _ Hc _|x]; try exact Hx.
  by rewrite handle_bookmarks.
Qed.

(** ** Witnesses *)

(** Open Settings on a fresh profile, go to Privacy, turn the ad blocker
    on, clear the history. *)
Definition b0 : browser := start "n0" [] [] ∅ "/dl".
Definition p1 : page := mount (Settings.homepage (Settings.ui (prefs b0))).
Definition b1 : browser := set_page p1 b0.
Definition p2 : page := mkPage Privacy (tempHomepage p1) (appInfo p1).
Definition b2 : browser := (handle (NavButton Privacy) "n1" p1 b1).1.1.
Definition b3 : browser := (handle AdBlockSwitch "n1" p2 b2).1.1.
Definition b4 : browser := (handle (ClearButton "history" true) "n2" p2 b3).1.1.

Lemma settings_page_keeps_main_synced_witness :
  star page_step b0 b4 /\ Settings.synced "/dl" (prefs b4) /\ Settings.persisted (prefs b4).
Proof.
  assert (Hr : star page_step b0 b4).
  { apply (star_step _ _ b3); [apply (star_step _ _ b2); [apply (star_step _ _ b1)|]|].
    - apply star_one, ps_open. reflexivity.
    - apply (ps_click b1 p1 (NavButton Privacy) "n1"); [reflexivity|reflexivity|discriminate].
    - apply (ps_click b2 p2 AdBlockSwitch "n1"); [reflexivity|reflexivity|discriminate].
    - apply (ps_click b3 p2 (ClearButton "history" true) "n2"); [reflexivity|reflexivity|discriminate]. }
  split; [exact Hr|]. exact (settings_page_keeps_main_synced "n0" [] [] ∅ "/dl" b4 Hr).
Defined.

Lemma settings_page_keeps_bookmarks_witness :
  star page_step b0 b4 /\ App.stored_bookmarks (app b4) = [].
Proof.
  assert (Hr : star page_step b0 b4).
  { apply (star_step _ _ b3); [apply (star_step _ _ b2); [apply (star_step _ _ b1)|]|].
    - apply star_one, ps_open. reflexivity.
    - apply (ps_click b1 p1 (NavButton Privacy) "n1"); [reflexivity|reflexivity|discriminate].
    - apply (ps_click b2 p2 AdBlockSwitch "n1"); [reflexivity|reflexivity|discriminate].
    - apply (ps_click b3 p2 (ClearButton "history" true) "n2"); [reflexivity|reflexivity|discriminate]. }
  split; [exact Hr|]. exact (settings_page_keeps_bookmarks "n0" [] [] ∅ "/dl" b4 Hr).
Defined.

End SettingsPage.
