(* ===== verification/DownloadsPage.v ===== *)
(** * DownloadsPage: the rows of the Downloads page (components/Downloads.jsx)

    Each record the page holds is a row (lines 72-138): its file name, a
    status line by state (lines 81-108) with sizes printed by
    [formatBytes] (lines 37-44), a progress bar while progressing with a
    known size (lines 112-128), and, for a completed download, the Show in
    Folder and Open File actions (lines 94, 132-136), which call the
    preload bridge with the record's [path] (lines 25-35).

    [formatBytes] picks the unit [i = floor(log(bytes) / log(1024))] and
    prints [parseFloat((bytes / 1024^i).toFixed(2))] with [String]: the
    number is kept in hundredths, rounded to nearest with ties up as
    [toFixed] does on the exact quotient, and printed by
    [Settings.num_string].  The unit index is the exact
    [floor(log_1024 bytes)], computed as [Z.log2 bytes / 10]; the double
    quotient of the code is taken to floor to the same integer. *)

From S2P Require Import Prelude History Bookmarks Tabs Coordinator Downloads Settings.

Module DownloadsPage.

Import Downloads.

(** The [sizes] array. *)
Definition sizes : list string := ["Bytes"; "KB"; "MB"; "GB"; "TB"].

(** [Math.floor(Math.log(bytes) / Math.log(1024))] for [bytes > 0]. *)
Definition unit_index (bytes : Z) : Z := Z.log2 bytes / 10.

(** [parseFloat((bytes / 1024^i).toFixed(2))], in hundredths. *)
Definition scaled (bytes i : Z) : Z := (200 * bytes + 1024 ^ i) / (2 * 1024 ^ i).

(** [formatBytes(bytes)]; a negative size (never passed) gives [NaN]. *)
Definition formatBytes (bytes : Z) : string :=
  if (bytes =? 0)%Z then "0 Bytes"
  else if (bytes <? 0)%Z then "NaN undefined"
  else
    let i := unit_index bytes in
    Settings.num_string (scaled bytes i) +:+ " " +:+ default "undefined" (nth_error sizes (Z.to_nat i)).

(** The status line of a row. *)
Inductive status :=
  | Downloading (received total : string)
  | Done (size : string)
  | Failed (label : string).

Definition status_of (m : message) : status :=
  match m_state m with
  | Progressing =>
      Downloading (formatBytes (m_received m)) (if (m_total m =? 0)%Z then "Unknown" else formatBytes (m_total m))
  | Completed => Done (formatBytes (m_total m))
  | Cancelled => Failed "Cancelled"
  | Interrupted => Failed "Interrupted"
  end.

(** The progress bar: shown while progressing with a positive size, its
    width the fraction [receivedBytes / totalBytes]. *)
Definition progress_bar (m : message) : option (Z * Z) :=
  if bool_decide (m_state m = Progressing) && (0 <? m_total m)%Z then Some (m_received m, m_total m) else None.

(** The actions of a row, with the [path] they pass ([None] is
    [undefined]). *)
Inductive row_action := ShowInFolder (p : option string) | OpenFile (p : option string).

Definition row_actions (m : message) : list row_action :=
  if bool_decide (m_state m = Completed) then [ShowInFolder (m_path m); OpenFile (m_path m)] else [].

Definition action_path (a : row_action) : option string := match a with ShowInFolder p | OpenFile p => p end.

(** A row of the list (lines 72-137), keyed by the record's [id]. *)
Record row := mkRow {
  row_key : string; row_filename : string; row_status : status; row_bar : option (Z * Z);
  row_buttons : list row_action }.

Definition render_row (m : message) : row :=
  mkRow (m_id m) (m_filename m) (status_of m) (progress_bar m) (row_actions m).

(** The list (lines 56-140): the empty state without records, else one
    row per record in order. *)
Inductive body := EmptyState | Rows (rows : list row).

Definition page_body (v : view) : body :=
  match shown v with [] => EmptyState | l => Rows (map render_row l) end.

(** Every message a download sends that says it completed carries a path. *)
Definition completed_has_path (m : message) : Prop := m_state m = Completed -> is_Some (m_path m).

(** ** Lemmas *)

Lemma pow1024 i : (0 <= i)%Z -> (1024 ^ i = 2 ^ (10 * i))%Z.
Proof. intros Hi. rewrite Z.pow_mul_r by lia. reflexivity. Qed.

(** The unit brackets the size: [1024^i <= bytes < 1024^(i+1)]. *)
Lemma unit_index_spec b :
  (0 < b)%Z -> (0 <= unit_index b)%Z /\ (1024 ^ unit_index b <= b < 1024 * 1024 ^ unit_index b)%Z.
Proof.
  intros Hb. unfold unit_index. pose proof (Z.log2_spec b Hb) as [Hlo Hhi]. pose proof (Z.log2_nonneg b).
  assert (Hi : (0 <= Z.log2 b / 10)%Z) by (apply Z.div_pos; lia).
  split; [done|]. rewrite pow1024 by done. split.
  - etransitivity; [|exact Hlo]. apply Z.pow_le_mono_r; [lia|]. pose proof (Z.mul_div_le (Z.log2 b) 10). lia.
  - eapply Z.lt_le_trans; [exact Hhi|]. replace 1024%Z with (2 ^ 10)%Z by reflexivity.
    rewrite <- Z.pow_add_r by lia. apply Z.pow_le_mono_r; [lia|].
    pose proof (Z.mod_pos_bound (Z.log2 b) 10). pose proof (Z.div_mod (Z.log2 b) 10). lia.
Qed.

Lemma scaled_bounds b P : (0 < P)%Z -> (P <= b < 1024 * P)%Z -> (100 <= (200 * b + P) / (2 * P) <= 102400)%Z.
Proof.
  intros HP [Hlo Hhi]. split.
  - apply Z.div_le_lower_bound; lia.
  - assert ((200 * b + P) / (2 * P) < 102401)%Z by (apply Z.div_lt_upper_bound; lia). lia.
Qed.

Lemma unit_index_small b : (0 < b < 1024 ^ 5)%Z -> (unit_index b <= 4)%Z.
Proof.
  intros Hb. unfold unit_index. assert (Z.log2 b < 50)%Z by (apply Z.log2_lt_pow2; [lia|exact (proj2 Hb)]).
  assert (Z.log2 b / 10 < 5)%Z by (apply Z.div_lt_upper_bound; lia). lia.
Qed.

(** Only [done] reports a completed state, and it carries the save path. *)
Lemma on_updated_not_completed tr it st : Forall (Forall (fun m => m_state m <> Completed)) (on_updated tr it st).
Proof. unfold on_updated, send. destruct st; [destruct (isPaused it)|]; destruct (dl_win tr); repeat constructor; discriminate. Qed.

Lemma on_done_path tr it st : Forall (Forall (fun m => is_Some (m_path m))) (on_done tr it st).2.
Proof. unfold on_done, send. destruct (dl_done tr), (dl_win tr); repeat constructor; simpl; by eexists. Qed.

Lemma main_run_completed_path tr evs : Forall (Forall completed_has_path) (main_run tr evs).2.
Proof.
  revert tr. induction evs as [|[it st|it st] evs IH]; intros tr; simpl; [constructor|..].
  - destruct (main_run tr evs) as [tr' ms] eqn:E. simpl. apply Forall_app. split; [|specialize (IH tr); by rewrite E in IH].
    eapply Forall_impl; [apply on_updated_not_completed|]. intros l Hl. eapply Forall_impl; [exact Hl|].
    intros m Hm Hc. congruence.
  - destruct (on_done tr it st) as [tr1 m1] eqn:E1. destruct (main_run tr1 evs) as [tr' ms] eqn:E. simpl.
    apply Forall_app. split; [|specialize (IH tr1); by rewrite E in IH].
    pose proof (on_done_path tr it st) as H. rewrite E1 in H. eapply Forall_impl; [exact H|].
    intros l Hl. eapply Forall_impl; [exact Hl|]. by intros m Hm _.
Qed.

(** Each rendered row is the row of a record the page holds. *)
Lemma page_body_rows v rs r : page_body v = Rows rs -> In r rs -> exists m, In m (shown v) /\ r = render_row m.
Proof.
  unfold page_body. intros Hb Hr. destruct (shown v) as [|m0 l]; [done|]. injection Hb as <-.
  change (In r (map render_row (m0 :: l))) in Hr. apply in_map_iff in Hr as (m & <- & Hm). by exists m.
Qed.

Lemma receive_all_shown msgs v m :
  In m (shown (receive_all msgs v)) -> In m (shown v) \/ exists d, In d msgs /\ In m d.
Proof.
  revert v. induction msgs as [|d msgs IH]; intros v Hm; simpl in *; [by left|].
  destruct (IH _ Hm) as [Hv|(d' & Hd' & Hm')]; [|right; exists d'; auto].
  unfold receive in Hv. destruct (mounted v); [right; exists d; auto|by left].
Qed.

(** ** Theorems *)

(** C25: For every size from one byte up to, but excluding, 1024^5,
    [formatBytes] names a unit of [sizes] and prints a number between 1
    and 1024; it prints exactly 1024 of a unit, instead of 1 of the next,
    precisely for the sizes within 1/200 of that unit below the next
    power of 1024 ([204799 * 1024^i <= 200 * bytes]), where [toFixed(2)]
    rounds up after the unit was chosen (1048575 bytes print as 1024 KB). *)
Theorem formatBytes_bounds b :
  (0 < b < 1024 ^ 5)%Z ->
  exists u, nth_error sizes (Z.to_nat (unit_index b)) = Some u /\
    (100 <= scaled b (unit_index b) <= 102400)%Z /\
    formatBytes b = Settings.num_string (scaled b (unit_index b)) +:+ " " +:+ u /\
    (scaled b (unit_index b) = 102400 <-> 204799 * 1024 ^ unit_index b <= 200 * b)%Z /\
    ((204799 * 1024 ^ unit_index b <= 200 * b)%Z -> formatBytes b = "1024 " +:+ u).
Proof.
  intros Hb. destruct (unit_index_spec b) as [Hi HP]; [lia|]. pose proof (unit_index_small b Hb) as H4.
  destruct (nth_error sizes (Z.to_nat (unit_index b))) as [u|] eqn:Hn.
  2:{ exfalso. apply nth_error_None in Hn. simpl in Hn. lia. }
  assert (HP0 : (0 < 1024 ^ unit_index b)%Z) by (apply Z.pow_pos_nonneg; lia).
  assert (Hbd : (100 <= scaled b (unit_index b) <= 102400)%Z) by (apply scaled_bounds; [done|done]).
  assert (Hf : formatBytes b = Settings.num_string (scaled b (unit_index b)) +:+ " " +:+ u).
  { unfold formatBytes. rewrite (proj2 (Z.eqb_neq b 0)), (proj2 (Z.ltb_ge b 0)) by lia. cbn zeta. by rewrite Hn. }
  assert (Hiff : (scaled b (unit_index b) = 102400 <-> 204799 * 1024 ^ unit_index b <= 200 * b)%Z).
  { unfold scaled in *. set (P := (1024 ^ unit_index b)%Z) in *. split.
    - intros Hs. pose proof (Z.mul_div_le (200 * b + P) (2 * P) ltac:(lia)) as Hm. rewrite Hs in Hm. lia.
    - intros Hle. enough (102400 <= (200 * b + P) / (2 * P))%Z by lia.
      apply Z.div_le_lower_bound; lia. }
  exists u. split; [done|]. split; [done|]. split; [done|]. split; [done|].
  intros Hle. rewrite Hf. apply Hiff in Hle. rewrite Hle. reflexivity.
Qed.

(** C26: The Show in Folder and Open File actions of the Downloads page
    always pass a path: whatever events a download goes through, every
    button of every row the page renders, for a record from the store or
    from a message, carries the save path. *)
Theorem row_actions_have_path dp it id now win evs stored rs r a :
  let w := will_download dp it id now win in
  page_body (receive_all (w.2 ++ (main_run w.1.2 evs).2) (mount_view stored)) = Rows rs ->
  In r rs -> In a (row_buttons r) -> is_Some (action_path a).
Proof.
  intros w Hb Hr Ha. destruct (page_body_rows _ _ _ Hb Hr) as (m & Hm & ->). simpl in Ha.
  assert (Hc : completed_has_path m).
  { destruct (receive_all_shown _ _ _ Hm) as [Hs|(d & Hd & Hmd)].
    - simpl in Hs. apply in_map_iff in Hs as (d' & <- & _). intros _. by eexists.
    - apply in_app_or in Hd as [Hd|Hd].
      + unfold w, will_download, send in Hd. simpl in Hd. destruct win; simpl in Hd; [|done].
        destruct Hd as [<-|[]]. destruct Hmd as [<-|[]]. intros _. by eexists.
      + pose proof (main_run_completed_path w.1.2 evs) as Hf. rewrite List.Forall_forall in Hf.
        specialize (Hf d Hd). rewrite List.Forall_forall in Hf. by apply Hf. }
  unfold row_actions in Ha. case_bool_decide as Hs; [|done]. simpl in Ha.
  destruct Ha as [<-|[<-|[]]]; simpl; by apply Hc.
Qed.

(** ** Witnesses *)

Lemma formatBytes_bounds_witness :
  (0 < 1048575 < 1024 ^ 5)%Z /\
  (exists u, nth_error sizes (Z.to_nat (unit_index 1048575)) = Some u /\
     (100 <= scaled 1048575 (unit_index 1048575) <= 102400)%Z /\
     formatBytes 1048575 = Settings.num_string (scaled 1048575 (unit_index 1048575)) +:+ " " +:+ u /\
     (scaled 1048575 (unit_index 1048575) = 102400 <-> 204799 * 1024 ^ unit_index 1048575 <= 200 * 1048575)%Z /\
     ((204799 * 1024 ^ unit_index 1048575 <= 200 * 1048575)%Z -> formatBytes 1048575 = "1024 " +:+ u)) /\
  formatBytes 1048575 = "1024 KB" /\ formatBytes 1536 = "1.5 KB".
Proof.
  assert (Hb : (0 < 1048575 < 1024 ^ 5)%Z) by lia.
  split; [exact Hb|]. split; [exact (formatBytes_bounds 1048575 Hb)|]. split; vm_compute; reflexivity.
Defined.

Definition itC : item := mkItem "c.pdf" "" 2048 0 false.
Definition itC_done : item := mkItem "c.pdf" "/dl/c.pdf" 2048 2048 false.
Definition msgs_C : list (list message) :=
  (will_download "/dl" itC "9" 5 true).2 ++
  (main_run (will_download "/dl" itC "9" 5 true).1.2 [EvDone itC_done Completed]).2.
Definition done_C : message := mkMessage "9" "c.pdf" (Some "/dl/c.pdf") 2048 2048 Completed None.

Lemma row_actions_have_path_witness :
  page_body (receive_all msgs_C (mount_view [])) = Rows [render_row done_C] /\
  In (render_row done_C) [render_row done_C] /\
  In (OpenFile (Some "/dl/c.pdf")) (row_buttons (render_row done_C)) /\
  is_Some (action_path (OpenFile (Some "/dl/c.pdf"))).
Proof.
  assert (Hb : page_body (receive_all msgs_C (mount_view [])) = Rows [render_row done_C]) by (vm_compute; reflexivity).
  assert (Hr : In (render_row done_C) [render_row done_C]) by (left; reflexivity).
  assert (Ha : In (OpenFile (Some "/dl/c.pdf")) (row_buttons (render_row done_C))) by (vm_compute; tauto).
  split; [exact Hb|]. split; [exact Hr|]. split; [exact Ha|].
  exact (row_actions_have_path "/dl" itC "9" 5 true [EvDone itC_done Completed] [] _ _ _ Hb Hr Ha).
Defined.

End DownloadsPage.
