(* ===== verification/WindowChrome.v ===== *)
(** * WindowChrome: the window and its IPC handlers (main.js, preload.js)

    The preload script (preload.js) exposes [window.electronAPI]: each
    method sends one IPC channel ([bridge]).  main.js answers them: the
    window buttons quit, toggle maximisation or minimise the focused window
    (lines 51-67), which [BrowserWindow.getFocusedWindow()] may not find;
    [clear-cache] and [clear-cookies] report whether a focused window was
    there (lines 69-85); the folder dialog answers the first chosen folder
    or [null] (lines 121-130); [show-in-folder] and [open-path] ignore a
    falsy path (lines 146-151); [get-app-info] names the application by a
    fallback chain (lines 153-161); [open-context-menu] pops up a menu built
    for the page's [webContentsId] (lines 88-111), whose items
    [MainProcess.menu_click] runs.  The three settings channels are
    [Settings.ipc_handle].

    While the window moves, main.js sends [window-drag-state] [true] at
    every [move] and [false] 200 ms after the last one, through a timer
    each move restarts (lines 32-39); App toggles a class on [document.body]
    with each message (App.jsx lines 15-25).  [drag] keeps the pending
    timer's deadline and the messages sent, with their times; a timer whose
    deadline is before a move has fired before it (at equal times the move
    comes first and clears it). *)

From S2P Require Import Prelude History Bookmarks Tabs Coordinator Downloads Settings SettingsPage.

Module WindowChrome.

(** ** The bridge (preload.js) *)

Inductive api_call :=
  | CloseBrowser | MaximizeBrowser | MinimizeBrowser | OpenContextMenu (webContentsId : Z)
  | ClearCacheCall | ClearCookiesCall | SelectDownloadFolderCall
  | SetDownloadPath (p : string) | SetAdBlockEnabled (b : bool) | SetDntEnabled (b : bool)
  | GetAppInfo | OpenPath (p : option string) | ShowInFolder (p : option string).

(** The channel each method sends on, and the setting message it carries. *)
Definition channel (c : api_call) : string :=
  match c with
  | CloseBrowser => "close-browser"
  | MaximizeBrowser => "maximize-browser"
  | MinimizeBrowser => "minimize-browser"
  | OpenContextMenu _ => "open-context-menu"
  | ClearCacheCall => "clear-cache"
  | ClearCookiesCall => "clear-cookies"
  | SelectDownloadFolderCall => "select-download-folder"
  | SetDownloadPath _ => "set-download-path"
  | SetAdBlockEnabled _ => "set-adblock-enabled"
  | SetDntEnabled _ => "set-dnt-enabled"
  | GetAppInfo => "get-app-info"
  | OpenPath _ => "open-path"
  | ShowInFolder _ => "show-in-folder"
  end.

Definition setting_message (c : api_call) : option Settings.ipc :=
  match c with
  | SetDownloadPath p => Some (Settings.SetDownloadPath p)
  | SetAdBlockEnabled b => Some (Settings.SetAdBlockEnabled b)
  | SetDntEnabled b => Some (Settings.SetDntEnabled b)
  | _ => None
  end.

(** ** The window handlers (main.js) *)

Record window := mkWindow { maximized : bool; minimized : bool }.

(** The main process: the window, whether it has the focus, whether the
    application quit, the shell calls made, and the context menu on screen
    with the [webContentsId] it was built for. *)
Inductive shell_call := ShowItemInFolder (p : string) | OpenItem (p : string) | ClearSessionCache | ClearCookieStorage.

Record main := mkMain { win : window; focused : bool; quit : bool; shell : list shell_call; menu : option Z }.

(** What an [invoke] resolves to: nothing ([ipcMain.on] handlers), a
    boolean, a path or [null], the application info object. *)
Inductive reply := NoReply | RBool (b : bool) | RPath (p : option string)
  | RInfo (version author appName chromiumVersion : string).

(** A handler returns, or throws (a [TypeError] on [null]). *)
Inductive result := Returned (m : main) (v : reply) | Threw (m : main).

(** [BrowserWindow.getFocusedWindow()] *)
Definition focused_window (m : main) : option window := if focused m then Some (win m) else None.

Definition set_win (w : window) (m : main) : main := mkMain w (focused m) (quit m) (shell m) (menu m).
Definition add_shell (c : shell_call) (m : main) : main := mkMain (win m) (focused m) (quit m) (shell m ++ [c]) (menu m).
Definition set_menu (o : option Z) (m : main) : main := mkMain (win m) (focused m) (quit m) (shell m) o.
Definition set_quit (m : main) : main := mkMain (win m) (focused m) true (shell m) (menu m).

(** The folder dialog's answer: cancelled, or the chosen paths. *)
Record dialog_result := mkDialog { canceled : bool; filePaths : list string }.

(** [package.json]'s fields the info reads, with [process.versions.chrome]. *)
Record package := mkPackage {
  pkg_version : string; pkg_author : string; AppName : string; productName : string; name : string;
  chrome_version : string }.

Definition handle (pkg : package) (dlg : dialog_result) (c : api_call) (m : main) : result :=
  match c with
  | CloseBrowser => Returned (set_quit m) NoReply
  | MaximizeBrowser =>
      match focused_window m with
      | None => Threw m
      | Some w => Returned (set_win (mkWindow (negb (maximized w)) (minimized w)) m) NoReply
      end
  | MinimizeBrowser =>
      match focused_window m with
      | None => Threw m
      | Some w => Returned (mkMain (mkWindow (maximized w) true) false (quit m) (shell m) (menu m)) NoReply
      end
  | OpenContextMenu id => Returned (set_menu (Some id) m) NoReply  (** [menu.popup()] *)
  | ClearCacheCall =>
      if focused m then Returned (add_shell ClearSessionCache m) (RBool true) else Returned m (RBool false)
  | ClearCookiesCall =>
      if focused m then Returned (add_shell ClearCookieStorage m) (RBool true) else Returned m (RBool false)
  | SelectDownloadFolderCall =>
      Returned m (RPath (if negb (canceled dlg) then head (filePaths dlg) else None))
  | SetDownloadPath _ | SetAdBlockEnabled _ | SetDntEnabled _ => Returned m NoReply
  | GetAppInfo =>
      Returned m (RInfo (pkg_version pkg) (pkg_author pkg) (AppName pkg || productName pkg || name pkg)%js (chrome_version pkg))
  | OpenPath p =>
      match p with Some f => if js_truthy f then Returned (add_shell (OpenItem f) m) NoReply else Returned m NoReply
                 | None => Returned m NoReply end
  | ShowInFolder p =>
      match p with Some f => if js_truthy f then Returned (add_shell (ShowItemInFolder f) m) NoReply else Returned m NoReply
                 | None => Returned m NoReply end
  end.

(** What the Settings page's mount effect gets from [getAppInfo]
    (Settings.jsx lines 28-40): the info object, or a rejection. *)
Definition settings_info (r : result) : SettingsPage.info_reply :=
  match r with
  | Returned _ (RInfo v a n c) => SettingsPage.InfoResolved (SettingsPage.mkInfo v a n c)
  | _ => SettingsPage.InfoRejected
  end.

(** ** The drag-state debounce (main.js lines 32-39) *)

Record drag := mkDrag { timer : option Z; sent : list (Z * bool) }.

(** The [setTimeout] callback, if its deadline is before [t]. *)
Definition fire_before (t : Z) (d : drag) : drag :=
  match timer d with
  | Some dl => if (dl <? t)%Z then mkDrag None (sent d ++ [(dl, false)]) else d
  | None => d
  end.

(** A [move] at [t]: send [true], clear the timer, start a new one. *)
Definition on_move (t : Z) (d : drag) : drag :=
  let d1 := fire_before t d in mkDrag (Some (t + 200)%Z) (sent d1 ++ [(t, true)]).

Definition moves (ts : list Z) (d : drag) : drag := fold_left (fun d t => on_move t d) ts d.

(** The pending timer, once the window stays still. *)
Definition settle (d : drag) : drag :=
  match timer d with Some dl => mkDrag None (sent d ++ [(dl, false)]) | None => d end.

(** Whether [document.body] has the [window-dragging] class after the
    messages: the last one decides. *)
Definition dragging_class (msgs : list (Z * bool)) : bool := default false (snd <$> last msgs).

(** The pauses longer than the debounce between consecutive moves. *)
Fixpoint gaps (ts : list Z) : nat :=
  match ts with
  | a :: ((b :: _) as r) => (if (a + 200 <? b)%Z then 1 else 0) + gaps r
  | _ => 0
  end.

Definition count_value (v : bool) (msgs : list (Z * bool)) : nat := length (List.filter (fun m => Bool.eqb (snd m) v) msgs).

(** ** Lemmas *)

Lemma count_value_app v l l' : count_value v (l ++ l') = count_value v l + count_value v l'.
Proof. unfold count_value. by rewrite List.filter_app, length_app. Qed.

Lemma count_value_one v t b : count_value v [(t, b)] = if Bool.eqb b v then 1 else 0.
Proof. unfold count_value. simpl. by destruct (Bool.eqb b v). Qed.

#[local] Hint Rewrite count_value_app count_value_one : browser_rw.

(** From a pending timer of a move at [p], the moves [ts] and the pause
    after them add one [true] per move and one [false] per long pause and
    at the end; the last message is the [false] 200 ms after the last move. *)
Lemma moves_settle ts p d :
  timer d = Some (p + 200)%Z ->
  count_value false (sent (settle (moves ts d))) = count_value false (sent d) + gaps (p :: ts) + 1 /\
  count_value true (sent (settle (moves ts d))) = count_value true (sent d) + length ts /\
  last (sent (settle (moves ts d))) = Some (List.last (p :: ts) 0 + 200, false)%Z.
Proof.
  revert p d. induction ts as [|t ts IH]; intros p [tm st] Hd; cbn [timer] in Hd; subst tm.
  - unfold moves, settle. cbn [fold_left timer sent]. autorewrite with browser_rw. simpl.
    rewrite last_snoc. repeat split; lia.
  - unfold moves. cbn [fold_left]. fold (moves ts (on_move t (mkDrag (Some (p + 200)%Z) st))).
    destruct (IH t (on_move t (mkDrag (Some (p + 200)%Z) st)) eq_refl) as (Hf & Ht & Hl).
    rewrite Hf, Ht, Hl. unfold on_move, fire_before. cbn [sent timer gaps].
    destruct (p + 200 <? t)%Z; cbn [sent]; autorewrite with browser_rw; simpl; repeat split; try lia.
    all: destruct ts; reflexivity.
Qed.

(** ** Theorems *)

(** C13: However the window is moved, once it stays still the renderer
    has received one [true] per [move] event and one [false] per pause
    longer than 200 ms plus one at the end; the last message is [false],
    200 ms after the last move, so the [window-dragging] class is removed. *)
Theorem drag_state_settles t ts :
  let d := settle (moves (t :: ts) (mkDrag None [])) in
  count_value true (sent d) = S (length ts) /\ count_value false (sent d) = S (gaps (t :: ts)) /\
  last (sent d) = Some (List.last (t :: ts) 0 + 200, false)%Z /\ dragging_class (sent d) = false.
Proof.
  cbn zeta. cbn [moves fold_left]. fold (moves ts (on_move t (mkDrag None []))).
  destruct (moves_settle ts t (on_move t (mkDrag None [])) eq_refl) as (Hf & Ht & Hl).
  unfold dragging_class. rewrite Hf, Ht, Hl. simpl. repeat split; lia.
Qed.

End WindowChrome.
