(* ===== verification/Layout.v ===== *)
(** * Layout: the tree App renders (App.jsx lines 263-343)

    App renders TopBar, the bookmarks bar outside sidebar mode, and
    BrowserWindow, whose child is the horizontal TabBar outside sidebar
    mode; BrowserWindow renders that child only when there is an active
    tab (BrowserWindow.jsx line 243).  In sidebar mode with the sidebar open
    App also renders Sidebar beside them.  TopBar hides its window controls
    exactly when Sidebar is rendered (TopBar.jsx line 201), and Sidebar has
    its own (Sidebar.jsx lines 104-124).

    [app_tree] lists the mounted components in document order;
    [window_calls] names the bridge calls each one's window controls send. *)

From S2P Require Import Prelude History Bookmarks Tabs Url Navigation Coordinator Downloads Settings HistoryPage RegistrySpec TabViews AddressBar WindowChrome.

Module Layout.

Inductive component :=
  | CTopBar (hideIcons : bool) (layoutMode : string) (isSidebarOpen : bool)
  | CBookmarksBar
  | CBrowserWindow
  | CTabBar
  | CSidebar.

Definition is_sidebar (p : Settings.prefs) : bool := String.eqb (Settings.layoutMode p) "sidebar".

(** The [className] of the root (line 264) and the [flexDirection] of the
    container (line 266). *)
Definition app_class (p : Settings.prefs) : string := "app " +:+ (if is_sidebar p then "sidebar-mode" else "").

Definition container_direction (p : Settings.prefs) : string :=
  if is_sidebar p && Settings.isSidebarOpen p then "row" else "column".

(** The mounted components (lines 267-341); the bookmarks bar renders
    nothing without bookmarks (BookmarksBar.jsx line 5). *)
Definition app_tree (p : Settings.prefs) (s : App.state) : list component :=
  [CTopBar (is_sidebar p) (Settings.layoutMode p) (Settings.isSidebarOpen p)] ++
  (if TabViews.bookmarks_bar_shown (Settings.layoutMode p) (Settings.showBookmarksBar p) (App.bookmarks s)
   then [CBookmarksBar] else []) ++
  [CBrowserWindow] ++
  (match App.active s with Some _ => if negb (is_sidebar p) then [CTabBar] else [] | None => [] end) ++
  (if is_sidebar p && Settings.isSidebarOpen p then [CSidebar] else []).

(** TopBar's window controls (TopBar.jsx lines 200-220). *)
Definition topbar_call (k : AddressBar.topbar_button) : option WindowChrome.api_call :=
  match k with
  | AddressBar.MinimizeButton => Some WindowChrome.MinimizeBrowser
  | AddressBar.MaximizeButton => Some WindowChrome.MaximizeBrowser
  | AddressBar.CloseButton => Some WindowChrome.CloseBrowser
  | _ => None
  end.

Definition window_calls (c : component) : list WindowChrome.api_call :=
  match c with
  | CTopBar _ lm open => omap topbar_call (AddressBar.visible_buttons lm open)
  | CSidebar => [WindowChrome.MinimizeBrowser; WindowChrome.MaximizeBrowser; WindowChrome.CloseBrowser]
  | _ => []
  end.

(** The components that list the open tabs. *)
Definition lists_tabs (c : component) : bool :=
  match c with CTabBar | CSidebar => true | _ => false end.

(** The New Tab buttons a mounted component renders: TopBar's, under the
    guard [!layoutMode !== "sidebar"] (TopBar.jsx lines 174-185, the
    [NewTabButton] of [AddressBar.visible_buttons]), and Sidebar's
    unconditional one under the tab list (Sidebar.jsx lines 171-178).  The
    tab strip has none (TabBar.jsx). *)
Definition newtab_buttons (c : component) : nat :=
  match c with
  | CTopBar _ lm open =>
      length (List.filter (fun k => match k with AddressBar.NewTabButton => true | _ => false end)
                (AddressBar.visible_buttons lm open))
  | CSidebar => 1
  | _ => 0
  end.

(** ** Lemmas *)

(** TopBar's window controls: all three unless Sidebar is shown. *)
Lemma topbar_window_calls lm open :
  omap topbar_call (AddressBar.visible_buttons lm open) =
  if String.eqb lm "sidebar" && open then [] else [WindowChrome.MinimizeBrowser; WindowChrome.MaximizeBrowser; WindowChrome.CloseBrowser].
Proof. unfold AddressBar.visible_buttons. by destruct (String.eqb lm "sidebar"), open. Qed.

Lemma in_app_tree_sidebar p s : In CSidebar (app_tree p s) <-> is_sidebar p && Settings.isSidebarOpen p = true.
Proof.
  unfold app_tree. rewrite !in_app_iff. simpl. repeat case_match; simpl; intuition discriminate.
Qed.

(** TopBar renders exactly one New Tab button whatever its props. *)
Lemma topbar_newtab_buttons h lm open : newtab_buttons (CTopBar h lm open) = 1.
Proof.
  unfold newtab_buttons, AddressBar.visible_buttons, AddressBar.newTabButtonShown.
  by destruct (String.eqb lm "sidebar"), open, (js_truthy lm).
Qed.

(** ** Theorems *)

(** C16: Whatever the layout, the window's minimise, maximise and close
    controls are rendered exactly once: TopBar hides its own exactly when
    App mounts Sidebar, which has them. *)
Theorem window_controls_once p s :
  flat_map window_calls (app_tree p s) =
  [WindowChrome.MinimizeBrowser; WindowChrome.MaximizeBrowser; WindowChrome.CloseBrowser].
Proof.
  unfold app_tree. rewrite !flat_map_app. cbn [flat_map window_calls]. rewrite topbar_window_calls.
  fold (is_sidebar p).
  destruct (is_sidebar p), (Settings.isSidebarOpen p); repeat case_match; reflexivity.
Qed.

(** C17: Whenever there is an active tab, the open tabs can be reached:
    the tab strip or the sidebar lists them, or, in sidebar mode with the
    sidebar collapsed, TopBar shows the sidebar toggle, and toggling mounts
    the sidebar. *)
Theorem tabs_always_reachable w s t :
  App.active s = Some t ->
  (exists c, In c (app_tree (Settings.ui w) s) /\ lists_tabs c = true) \/
  (In AddressBar.SidebarToggle (AddressBar.visible_buttons (Settings.layoutMode (Settings.ui w)) (Settings.isSidebarOpen (Settings.ui w))) /\
   In CSidebar (app_tree (Settings.ui (Settings.toggleSidebarVisibility w)) s)).
Proof.
  intros Ht. destruct (is_sidebar (Settings.ui w)) eqn:Hm.
  - destruct (Settings.isSidebarOpen (Settings.ui w)) eqn:Ho.
    + left. exists CSidebar. split; [|done]. apply in_app_tree_sidebar. by rewrite Hm, Ho.
    + right. split.
      * unfold AddressBar.visible_buttons. unfold is_sidebar in Hm. rewrite Hm. by left.
      * apply in_app_tree_sidebar. unfold Settings.toggleSidebarVisibility. rewrite Ho.
        unfold is_sidebar in *. cbn. by rewrite Hm.
  - left. exists CTabBar. split; [|done]. unfold app_tree. rewrite !in_app_iff, Ht, Hm. simpl. tauto.
Qed.

(** C18: TopBar's guard [!layoutMode !== "sidebar"] compares a boolean with
    a string and is always true, so TopBar renders its New Tab button in
    every layout; in sidebar mode with the sidebar open App also mounts
    Sidebar with its own.  The window shows two New Tab buttons exactly
    then, and one in every other layout. *)
Theorem newtab_buttons_rendered p s :
  list_sum (map newtab_buttons (app_tree p s)) = if is_sidebar p && Settings.isSidebarOpen p then 2 else 1.
Proof.
  unfold app_tree. rewrite !map_app, !list_sum_app. cbn [map list_sum foldr]. rewrite topbar_newtab_buttons.
  destruct (is_sidebar p && Settings.isSidebarOpen p); repeat case_match; reflexivity.
Qed.

(** ** Witnesses *)

(** A fresh profile (sidebar mode) with the sidebar collapsed. *)
Definition w_collapsed : Settings.world :=
  Settings.mkWorld (Settings.set_isSidebarOpen false (Settings.load ∅)) ∅ (Settings.config_init "Downloads").

Lemma tabs_always_reachable_witness :
  exists t, App.active TabViews.s_loaded = Some t /\
  ((exists c, In c (app_tree (Settings.ui w_collapsed) TabViews.s_loaded) /\ lists_tabs c = true) \/
   (In AddressBar.SidebarToggle (AddressBar.visible_buttons (Settings.layoutMode (Settings.ui w_collapsed))
                                   (Settings.isSidebarOpen (Settings.ui w_collapsed))) /\
    In CSidebar (app_tree (Settings.ui (Settings.toggleSidebarVisibility w_collapsed)) TabViews.s_loaded))).
Proof.
  eexists. split; [reflexivity|]. eapply (tabs_always_reachable w_collapsed TabViews.s_loaded). reflexivity.
Defined.

End Layout.
