(* ===== verification/MainProcess.v ===== *)
(** * MainProcess: the Electron main process as a whole (main.js)

    main.js creates one window when the app is ready (lines 4-45): a
    [BrowserWindow] with fixed options, two global shortcuts
    ([Control+Shift+E] opens the window's DevTools, [F12] only logs), and
    [www/index.html]; then, in a second [whenReady] callback, it registers
    the [browser:] protocol once (lines 164-169) and installs the request
    filters and the download handler ([Settings.onBeforeRequest],
    [Downloads.will_download]).  The renderer talks to it through the
    bridge ([WindowChrome.handle], [Settings.ipc_handle]); the
    [open-context-menu] handler pops up a menu whose DevTools item opens
    the DevTools of [webContents.fromId(id)] when it exists and whose Exit
    item quits (lines 88-111).  The renderer's only sender of that message
    is the webview's [context-menu] listener, which BrowserWindow adds in
    the effect that never binds ([Coordinator.listeners_never_bound]), so
    in the application as shipped a right-click never reaches this handler;
    the handler is modelled for what main.js does with the message.  When the last window closes the app quits
    except on macOS (lines 47-49); nothing handles [activate].

    [app] is the process's state; [step] runs one event; [run] a sequence.
    Events arrive only while the app has not quit.  Global shortcuts are
    system-wide: they fire whatever window has the focus.  Closing the
    window destroys its pages' [webContents]. *)

From S2P Require Import Prelude History Bookmarks Tabs Coordinator Downloads Settings WindowChrome.

Module MainProcess.

Import WindowChrome.

(** ** The window (lines 5-18) *)

Record web_preferences := mkWebPreferences {
  preload : string; nodeIntegration : bool; contextIsolation : bool; webviewTag : bool; sandbox : bool }.

Record window_options := mkWindowOptions {
  width : Z; minWidth : Z; height : Z; minHeight : Z; webPreferences : web_preferences; titleBarStyle : string }.

Definition window_options_of (dirname : string) : window_options :=
  mkWindowOptions 1280 1280 800 800
    (mkWebPreferences (Downloads.path_join dirname "preload.js") false true true true) "hidden".

(** What the registered global shortcuts do (lines 20-28). *)
Inductive shortcut_action := OpenWindowDevTools | LogF12.

Definition f12_message : string := "F12 shortcut blocked for Electron DevTools.".

Definition registered : list (string * shortcut_action) :=
  [("Control+Shift+E", OpenWindowDevTools); ("F12", LogF12)].

(** ** The process *)

Record app := mkApp {
  platform : string;                (** [process.platform] *)
  ready : bool;                     (** [app.whenReady()] resolved *)
  chrome : WindowChrome.main;       (** the window's flags, quit, shell calls, menu *)
  config : Settings.config;         (** [adBlockEnabled], [downloadPath], [dntEnabled] *)
  options : option window_options;  (** the window created, with its options *)
  window_open : bool;
  main_id : Z;                      (** the id of [win.webContents] *)
  live : list Z;                    (** the [webContents] alive: the window's and its pages' *)
  devtools_open : list Z;           (** the [webContents] whose DevTools are open *)
  shortcuts : list (string * shortcut_action);
  loaded : option string;           (** [win.loadFile] *)
  protocols : list string;          (** registered schemes *)
  logs : list string                (** [console.log] and [console.error] *)
}.

Definition init (platform : string) (downloads_dir : string) : app :=
  mkApp platform false (mkMain (mkWindow false false) false false [] None) (Settings.config_init downloads_dir)
    None false 0 [] [] [] None [] [].

Definition set_chrome (m : WindowChrome.main) (a : app) : app :=
  mkApp (platform a) (ready a) m (config a) (options a) (window_open a) (main_id a) (live a) (devtools_open a)
    (shortcuts a) (loaded a) (protocols a) (logs a).

Definition set_config (c : Settings.config) (a : app) : app :=
  mkApp (platform a) (ready a) (chrome a) c (options a) (window_open a) (main_id a) (live a) (devtools_open a)
    (shortcuts a) (loaded a) (protocols a) (logs a).

Definition set_pages (l d : list Z) (a : app) : app :=
  mkApp (platform a) (ready a) (chrome a) (config a) (options a) (window_open a) (main_id a) l d
    (shortcuts a) (loaded a) (protocols a) (logs a).

Definition add_log (msg : string) (a : app) : app :=
  mkApp (platform a) (ready a) (chrome a) (config a) (options a) (window_open a) (main_id a) (live a) (devtools_open a)
    (shortcuts a) (loaded a) (protocols a) (logs a ++ [msg]).

(** [contents.openDevTools()]: opening DevTools that are open keeps them. *)
Definition open_devtools (id : Z) (a : app) : app :=
  if bool_decide (id ∈ devtools_open a) then a else set_pages (live a) (devtools_open a ++ [id]) a.

(** [createWindow()] (lines 4-40); [id] is the new window's [webContents]. *)
Definition createWindow (dirname : string) (id : Z) (a : app) : app :=
  mkApp (platform a) true (mkMain (win (chrome a)) true (quit (chrome a)) (shell (chrome a)) (menu (chrome a)))
    (config a) (Some (window_options_of dirname)) true id (live a ++ [id]) (devtools_open a)
    (shortcuts a ++ registered) (Some (Downloads.path_join dirname "www/index.html")) (protocols a) (logs a).

(** The second [whenReady] callback's protocol registration (lines 164-169). *)
Definition register_protocol (a : app) : app :=
  if bool_decide ("browser" ∈ protocols a) then a
  else mkApp (platform a) (ready a) (chrome a) (config a) (options a) (window_open a) (main_id a) (live a)
         (devtools_open a) (shortcuts a) (loaded a) (protocols a ++ ["browser"]) (logs a).

(** The [browser:] protocol answers every request with the empty string. *)
Definition browser_protocol (url : string) : string := "".

(** The two [whenReady] callbacks, in registration order (lines 42-45, 163). *)
Definition on_ready (dirname : string) (id : Z) (a : app) : app :=
  if ready a then a else register_protocol (createWindow dirname id a).

(** The action of a key combination: the first registration of it. *)
Definition shortcut_of (k : string) (a : app) : option shortcut_action :=
  snd <$> List.find (fun p => String.eqb p.1 k) (shortcuts a).

(** Whether the app takes the key from whatever application has the focus. *)
Definition consumes (k : string) (a : app) : bool := if shortcut_of k a is Some _ then true else false.

(** A key combination pressed anywhere; the shortcut's [win] is the
    window [createWindow] made, whose [webContents] throws once destroyed. *)
Definition on_accelerator (k : string) (a : app) : app :=
  match shortcut_of k a with
  | Some OpenWindowDevTools => if window_open a then open_devtools (main_id a) a else a
  | Some LogF12 => add_log f12_message a
  | None => a
  end.

(** The items of the [open-context-menu] menu (lines 89-108). *)
Inductive menu_item := DevToolsItem | ExitItem.

Definition menu_click (i : menu_item) (a : app) : app :=
  match menu (chrome a) with
  | None => a
  | Some id =>
      let a := set_chrome (set_menu None (chrome a)) a in
      match i with
      | DevToolsItem => if bool_decide (id ∈ live a) then open_devtools id a else a
      | ExitItem => set_chrome (set_quit (chrome a)) a
      end
  end.

(** A bridge call from the renderer: the settings channels update the
    configuration, and the handler runs; a handler that throws leaves the
    state it reached. *)
Definition on_ipc (pkg : package) (dlg : dialog_result) (c : api_call) (a : app) : app :=
  if window_open a then
    let a := match setting_message c with Some msg => set_config (Settings.ipc_handle msg (config a)) a | None => a end in
    match handle pkg dlg c (chrome a) with Returned m _ | Threw m => set_chrome m a end
  else a.

(** BrowserWindow's [context-menu] listener on the webview
    (BrowserWindow.jsx lines 186-190) would call the bridge's
    [openContextMenu] with [webview.getWebContentsId()]; it is added in the
    effect that returns before binding ([Coordinator.listeners_never_bound]),
    so this is the message main.js would receive, not one the shipped
    renderer sends. *)
Definition webview_context_menu (webContentsId : Z) : api_call := OpenContextMenu webContentsId.

(** The window closes, with its pages and their DevTools, and the menu;
    then [window-all-closed] quits except on macOS (lines 47-49). *)
Definition on_closed (a : app) : app :=
  if window_open a then
    let m := set_menu None (chrome a) in
    let a := mkApp (platform a) (ready a) (mkMain (win m) false (quit m) (shell m) (menu m)) (config a) (options a)
               false (main_id a) [] [] (shortcuts a) (loaded a) (protocols a) (logs a) in
    if String.eqb (platform a) "darwin" then a else set_chrome (set_quit (chrome a)) a
  else a.

Inductive event :=
  | Ready (dirname : string) (id : Z)
  | Ipc (pkg : package) (dlg : dialog_result) (c : api_call)
  | Accelerator (k : string)
  | MenuClick (i : menu_item)
  | MenuDismissed
  | Focus (b : bool)
  | PageCreated (id : Z)
  | PageDestroyed (id : Z)
  | WindowClosed
  | AppError (e : string).

Definition step (e : event) (a : app) : app :=
  if quit (chrome a) then a else
  match e with
  | Ready d id => on_ready d id a
  | Ipc pkg dlg c => on_ipc pkg dlg c a
  | Accelerator k => on_accelerator k a
  | MenuClick i => menu_click i a
  | MenuDismissed => set_chrome (set_menu None (chrome a)) a
  | Focus b =>
      if window_open a then set_chrome (mkMain (win (chrome a)) b (quit (chrome a)) (shell (chrome a)) (menu (chrome a))) a
      else a
  | PageCreated id => if window_open a then set_pages (live a ++ [id]) (devtools_open a) a else a
  | PageDestroyed id =>
      set_pages (List.filter (fun x => negb (Z.eqb x id)) (live a))
                (List.filter (fun x => negb (Z.eqb x id)) (devtools_open a)) a
  | WindowClosed => on_closed a
  | AppError err => add_log ("Error: " +:+ err) a   (** lines 114-116 *)
  end.

Definition run (es : list event) (a : app) : app := fold_left (fun a e => step e a) es a.

(** The app after its window closed on macOS: ready, no window, running. *)
Definition closed_darwin (a : app) : Prop :=
  platform a = "darwin" /\ ready a = true /\ window_open a = false /\ quit (chrome a) = false /\ menu (chrome a) = None.

(** The shortcuts are those [createWindow] registered, once the app is ready. *)
Definition shortcuts_ok (a : app) : Prop := shortcuts a = if ready a then registered else [].

(** ** Lemmas *)

Lemma run_cons e es a : run (e :: es) a = run es (step e a).
Proof. done. Qed.

(** No event but [Ready] changes the platform, readiness or shortcuts. *)
Lemma step_frame e a :
  (if e is Ready _ _ then False else True) ->
  platform (step e a) = platform a /\ ready (step e a) = ready a /\ shortcuts (step e a) = shortcuts a.
Proof.
  intros He. unfold step. destruct (quit (chrome a)); [done|].
  destruct e; [done|..]; unfold on_ipc, on_accelerator, menu_click, open_devtools, on_closed; repeat case_match; done.
Qed.

Lemma step_ready d id a : ready a = true -> step (Ready d id) a = a.
Proof. intros Hr. unfold step, on_ready. rewrite Hr. by case_match. Qed.

Lemma step_shortcuts_ok e a : shortcuts_ok a -> shortcuts_ok (step e a).
Proof.
  unfold shortcuts_ok. intros Hs. pose proof (step_frame e a) as Hf.
  destruct e; [|destruct (Hf I) as (_ & -> & ->); done..].
  unfold step. destruct (quit (chrome a)); [done|]. unfold on_ready. destruct (ready a) eqn:Hr; [by rewrite Hr|].
  unfold register_protocol, createWindow. case_bool_decide; cbn [shortcuts ready]; by rewrite Hs.
Qed.

Lemma run_shortcuts_ok es a : shortcuts_ok a -> shortcuts_ok (run es a).
Proof. revert a. induction es as [|e es IH]; intros a Ha; [done|]. apply IH, step_shortcuts_ok, Ha. Qed.

Lemma step_open_menu pkg dlg id a :
  window_open a = true -> quit (chrome a) = false ->
  step (Ipc pkg dlg (webview_context_menu id)) a = set_chrome (set_menu (Some id) (chrome a)) a.
Proof. intros Hw Hq. unfold step, on_ipc. by rewrite Hq, Hw. Qed.

Lemma step_closed_darwin e a : closed_darwin a -> closed_darwin (step e a).
Proof.
  intros Hc. pose proof (step_frame e a) as Hf. destruct e as [d id| | | | | | | | |].
  { rewrite step_ready; [done|]. apply Hc. }
  all: destruct (Hf I) as (Hp' & Hr' & _); destruct Hc as (Hp & Hr & Hw & Hq & Hm);
    unfold closed_darwin; rewrite Hp', Hr'; split; [done|]; split; [done|];
    unfold step; rewrite Hq; unfold on_ipc, on_accelerator, menu_click, open_devtools, on_closed;
    rewrite ?Hw, ?Hm; repeat case_match; done.
Qed.

Lemma run_closed_darwin es a : closed_darwin a -> closed_darwin (run es a).
Proof. revert a. induction es as [|e es IH]; intros a Ha; [done|]. apply IH, step_closed_darwin, Ha. Qed.

(** ** Theorems *)

(** C14: On macOS, once the window is closed the app keeps running with
    no window, and no event brings one back: [window-all-closed] does not
    quit there and nothing handles [activate], while [createWindow] runs
    only on the first [ready]. *)
Theorem darwin_window_never_returns a es :
  platform a = "darwin" -> ready a = true -> window_open a = true -> quit (chrome a) = false ->
  window_open (run es (step WindowClosed a)) = false /\ quit (chrome (run es (step WindowClosed a))) = false.
Proof.
  intros Hp Hr Hw Hq.
  assert (Hc : closed_darwin (step WindowClosed a)).
  { unfold step, on_closed. rewrite Hq, Hw. cbn [platform]. rewrite Hp. repeat split; done. }
  destruct (run_closed_darwin es _ Hc) as (_ & _ & Hw' & Hq' & _). done.
Qed.

(** main.js's side of the context menu: an [open-context-menu] message
    followed by the DevTools item opens the sender's DevTools when its [webContents] is alive and they are not open yet,
    and does nothing else when it is gone ([webContents.fromId] finds
    nothing); the menu is dismissed either way. *)
Theorem context_menu_devtools pkg dlg id a :
  window_open a = true -> quit (chrome a) = false ->
  devtools_open (run [Ipc pkg dlg (webview_context_menu id); MenuClick DevToolsItem] a) =
    devtools_open a ++ (if bool_decide (id ∈ live a /\ id ∉ devtools_open a) then [id] else []) /\
  menu (chrome (run [Ipc pkg dlg (webview_context_menu id); MenuClick DevToolsItem] a)) = None.
Proof.
  intros Hw Hq. rewrite run_cons, step_open_menu by done. unfold run, fold_left, step. cbn. rewrite Hq.
  unfold menu_click, open_devtools. cbn.
  repeat case_bool_decide; cbn; (split; [|done]); first [done | by rewrite app_nil_r | exfalso; tauto].
Qed.

(** C15: Once the app is ready, whatever happened since, F12 is taken
    from every application and only logs, and Control+Shift+E opens the
    window's own DevTools while the window exists, whichever window has the
    focus; no shortcut opens a page's DevTools. *)
Theorem global_shortcuts pf dl es :
  let b := run es (init pf dl) in
  ready b = true -> quit (chrome b) = false ->
  consumes "F12" b = true /\ step (Accelerator "F12") b = add_log f12_message b /\
  devtools_open (step (Accelerator "Control+Shift+E") b) =
    devtools_open b ++ (if window_open b && negb (bool_decide (main_id b ∈ devtools_open b)) then [main_id b] else []).
Proof.
  cbn zeta. intros Hr Hq. pose proof (run_shortcuts_ok es (init pf dl) eq_refl) as Hs.
  unfold shortcuts_ok in Hs. rewrite Hr in Hs.
  unfold consumes, step, on_accelerator, shortcut_of. rewrite Hs, Hq. cbn.
  split; [done|]. split; [done|].
  destruct (window_open _); [|by rewrite app_nil_r]. unfold open_devtools.
  case_bool_decide; cbn; by rewrite ?app_nil_r.
Qed.

(** ** Witnesses *)

Definition pkg0 : package := mkPackage "1.0.0" "UnSetSoft" "" "NetBrowser" "net-browser" "120.0.6099.291".
Definition no_folder : dialog_result := mkDialog true [].

(** The app on macOS once ready, its window's [webContents] numbered 1. *)
Definition mac_ready : app := step (Ready "/app" 1) (init "darwin" "/Users/u/Downloads").

Lemma darwin_window_never_returns_witness :
  platform mac_ready = "darwin" /\ ready mac_ready = true /\ window_open mac_ready = true /\
  quit (chrome mac_ready) = false /\
  window_open (run [Ready "/app" 2; Accelerator "Control+Shift+E"; PageCreated 3] (step WindowClosed mac_ready)) = false /\
  quit (chrome (run [Ready "/app" 2; Accelerator "Control+Shift+E"; PageCreated 3] (step WindowClosed mac_ready))) = false.
Proof.
  do 4 (split; [reflexivity|]).
  exact (darwin_window_never_returns mac_ready [Ready "/app" 2; Accelerator "Control+Shift+E"; PageCreated 3]
           eq_refl eq_refl eq_refl eq_refl).
Defined.

(** A Windows app with one page, [webContents] 2, in its window. *)
Definition win_page : app := run [Ready "C:/app" 1; PageCreated 2] (init "win32" "C:/Downloads").

Lemma context_menu_devtools_witness :
  window_open win_page = true /\ quit (chrome win_page) = false /\
  devtools_open (run [Ipc pkg0 no_folder (webview_context_menu 2); MenuClick DevToolsItem] win_page) =
    devtools_open win_page ++ (if bool_decide (2%Z ∈ live win_page /\ 2%Z ∉ devtools_open win_page) then [2%Z] else []) /\
  menu (chrome (run [Ipc pkg0 no_folder (webview_context_menu 2); MenuClick DevToolsItem] win_page)) = None.
Proof.
  split; [reflexivity|]. split; [reflexivity|].
  exact (context_menu_devtools pkg0 no_folder 2 win_page eq_refl eq_refl).
Defined.

Lemma global_shortcuts_witness :
  ready (run [Ready "/app" 1; Focus false] (init "linux" "/home/u/Downloads")) = true /\
  quit (chrome (run [Ready "/app" 1; Focus false] (init "linux" "/home/u/Downloads"))) = false /\
  (let b := run [Ready "/app" 1; Focus false] (init "linux" "/home/u/Downloads") in
   consumes "F12" b = true /\ step (Accelerator "F12") b = add_log f12_message b /\
   devtools_open (step (Accelerator "Control+Shift+E") b) =
     devtools_open b ++ (if window_open b && negb (bool_decide (main_id b ∈ devtools_open b)) then [main_id b] else [])).
Proof.
  split; [reflexivity|]. split; [reflexivity|].
  exact (global_shortcuts "linux" "/home/u/Downloads" [Ready "/app" 1; Focus false] eq_refl eq_refl).
Defined.

End MainProcess.
