(* ===== verification/AdBlocker.v ===== *)
(** * AdBlocker: the page script (utils/AdBlockerScript.js)

    BrowserWindow's [dom-ready] handler ([Coordinator.handleDomReady])
    would inject [AD_BLOCKER_SCRIPT] into every page when ad blocking is
    on, but the effect that adds that handler returns before binding it
    ([Coordinator.listeners_never_bound]), so the shipped renderer never
    injects the script; blocking rests on main.js's request filter
    ([Settings.requests_follow_settings]).  This file models what the
    script does once it runs in a page.  The script starts an interval (lines 38-45) that, every second, on a host whose
    name contains [youtube.com], clicks the skip button, speeds a playing
    video ad up to 16x and mutes it, and hides the banner ads (lines 6-26),
    and on a host containing [twitch.tv] mutes the video while the ad
    banner text is present (lines 28-36).

    [dom] abstracts the page to what the script queries: whether each
    selector matches, the first [video] element, the banners' display.
    Playback rates are in hundredths (16x is 1600).  The page's own code
    runs between ticks as arbitrary functions on [dom]; [session] runs the
    interval over them. *)

From S2P Require Import Prelude.

Module AdBlocker.

Record video := mkVideo { playbackRate : Z; muted : bool }.

Record dom := mkDom {
  hostname : string;
  skip_button : bool;    (** [.ytp-ad-skip-button, .ytp-ad-skip-button-modern, .videoAdUiSkipButton] *)
  yt_ad_overlay : bool;  (** [.ytp-ad-module, .ytp-ad-player-overlay] *)
  ad_showing : bool;     (** [.ad-showing] *)
  first_video : option video;  (** [document.querySelector('video')] *)
  banners : list bool;   (** each banner ad, [true] while displayed *)
  twitch_ad_text : bool; (** [[data-test-selector="ad-banner-default-text"]] *)
  skip_clicks : nat      (** the clicks the script gave the skip button *)
}.

Definition set_video (v : option video) (d : dom) : dom :=
  mkDom (hostname d) (skip_button d) (yt_ad_overlay d) (ad_showing d) v (banners d) (twitch_ad_text d) (skip_clicks d).

(** [skipYouTubeAds] (lines 6-26). *)
Definition skipYouTubeAds (d : dom) : dom :=
  let d1 := if skip_button d then
              mkDom (hostname d) (skip_button d) (yt_ad_overlay d) (ad_showing d) (first_video d) (banners d)
                    (twitch_ad_text d) (S (skip_clicks d))
            else d in
  let d2 := match first_video d1 with
            | Some v => if yt_ad_overlay d1 && ad_showing d1 then set_video (Some (mkVideo 1600 true)) d1 else d1
            | None => d1
            end in
  mkDom (hostname d2) (skip_button d2) (yt_ad_overlay d2) (ad_showing d2) (first_video d2)
        (map (fun _ => false) (banners d2)) (twitch_ad_text d2) (skip_clicks d2).

(** [skipTwitchAds] (lines 28-36). *)
Definition skipTwitchAds (d : dom) : dom :=
  if twitch_ad_text d then
    match first_video d with
    | Some v => set_video (Some (mkVideo (playbackRate v) true)) d
    | None => d
    end
  else d.

(** One run of the interval's callback (lines 39-45). *)
Definition tick (d : dom) : dom :=
  if includes (hostname d) "youtube.com" then skipYouTubeAds d
  else if includes (hostname d) "twitch.tv" then skipTwitchAds d
  else d.

(** The page's own code before each tick. *)
Fixpoint session (page : list (dom -> dom)) (d : dom) : dom :=
  match page with
  | [] => d
  | f :: fs => session fs (tick (f d))
  end.

(** The page code leaves the [video] element's [muted] alone. *)
Definition keeps_muted (f : dom -> dom) : Prop :=
  forall d, muted <$> first_video (f d) = muted <$> first_video d.

(** ** Lemmas *)

(** A tick never unmutes the video: it only ever sets [muted = true]. *)
Lemma tick_muted d : muted <$> first_video d = Some true -> muted <$> first_video (tick d) = Some true.
Proof.
  intros H. unfold tick, skipYouTubeAds, skipTwitchAds.
  destruct (includes (hostname d) "youtube.com"), (includes (hostname d) "twitch.tv");
    destruct (skip_button d), (first_video d) as [v|] eqn:E, (yt_ad_overlay d), (ad_showing d), (twitch_ad_text d);
    simpl in *; rewrite ?E; done.
Qed.

Lemma session_muted fs d :
  Forall keeps_muted fs -> muted <$> first_video d = Some true -> muted <$> first_video (session fs d) = Some true.
Proof.
  revert d. induction fs as [|f fs IH]; intros d Hfs Hd; simpl; [done|].
  inversion Hfs as [|? ? Hf Hfs']; subst. apply IH; [done|]. apply tick_muted. by rewrite Hf.
Qed.

(** ** Theorems *)

(** C21: On a Twitch page showing the ad banner, a tick mutes the video,
    and the script never unmutes it: whatever the page then does, banner
    gone or not, as long as the page itself does not unmute the video it
    stays muted, since the script has no code that restores [muted]. *)
Theorem twitch_mute_sticky d v fs :
  includes (hostname d) "youtube.com" = false -> includes (hostname d) "twitch.tv" = true ->
  twitch_ad_text d = true -> first_video d = Some v -> Forall keeps_muted fs ->
  muted <$> first_video (session fs (tick d)) = Some true.
Proof.
  intros Hy Ht Ha Hv Hfs. apply session_muted; [done|].
  unfold tick. rewrite Hy, Ht. unfold skipTwitchAds. by rewrite Ha, Hv.
Qed.

(** ** Witnesses *)

Definition twitch_ad : dom := mkDom "www.twitch.tv" false false false (Some (mkVideo 100 false)) [] true 0.

(** The page removes its ad banner. *)
Definition ad_ends (d : dom) : dom :=
  mkDom (hostname d) (skip_button d) (yt_ad_overlay d) (ad_showing d) (first_video d) (banners d) false (skip_clicks d).

Lemma twitch_mute_sticky_witness :
  includes (hostname twitch_ad) "youtube.com" = false /\ includes (hostname twitch_ad) "twitch.tv" = true /\
  twitch_ad_text twitch_ad = true /\ first_video twitch_ad = Some (mkVideo 100 false) /\
  Forall keeps_muted [ad_ends; ad_ends] /\
  muted <$> first_video (session [ad_ends; ad_ends] (tick twitch_ad)) = Some true.
Proof.
  assert (Hk : Forall keeps_muted [ad_ends; ad_ends]) by (repeat constructor; intros d; reflexivity).
  split; [reflexivity|]. split; [reflexivity|]. split; [reflexivity|]. split; [reflexivity|]. split; [exact Hk|].
  exact (twitch_mute_sticky twitch_ad (mkVideo 100 false) [ad_ends; ad_ends] eq_refl eq_refl eq_refl eq_refl Hk).
Defined.

End AdBlocker.
